(** * Remote processes multiplexed over the pyodide worker

    A shallow embedding of [src/vs/editor/contrib/rtv/remote/RTVUtils.ts]:
    the identifier source, the request and response envelopes, the three
    [Process] classes ([RunpyProcess], [ImgSummaryProcess], [SynthProcess]),
    the factory functions guarded by [pyodideLoaded], and the worker's
    message dispatch.

    Modelling conventions.
    - JavaScript objects live in a heap (a list indexed by handle); a
      handle is the identity of a [Process] object and of the listener
      closure that object creates in its constructor.
    - Module-level mutable state ([idGen], [pyodideWorker], [pyodideLoaded])
      is threaded explicitly through a [World] record.
    - A host callback is opaque: invoking it is recorded as a [Call] in the
      order the source invokes it, and the callback does not call back into
      this module while it runs.
    - Correlation ids are the numbers issued by [IDGenerator]: natural
      numbers, with the increment of a double ([IDGenerator.increment]). *)

From stdpp Require Import base list sets strings pretty.
From Stdlib Require Import ZArith.

Open Scope string_scope.
Open Scope list_scope.

(** ** JavaScript truthiness of the values the source tests *)

(** [if (s)] for a string: every string but the empty one is truthy. *)
Definition truthy (s : string) : bool := negb (String.eqb s "").

(** [if (v)] for [v?: string]: [undefined] is falsy. *)
Definition truthy_opt (v : option string) : bool :=
  match v with
  | Some s => truthy s
  | None => false
  end.

(** ** Identifier source *)

Module IDGenerator.
Record t := mk { next : nat }.

(** [constructor() { this.next = 0; }] *)
Definition new : t := mk 0.

(** A JavaScript number is an IEEE-754 double: the integers up to [2^53]
    are exact, and [2^53 + 1] rounds back to [2^53]. *)
Definition limit : N := 9007199254740992%N.

(** [this.next++] on a number: exact below [limit], without effect at
    [limit].  The counter starts at 0, so it never holds a value above
    [limit]. *)
Definition increment (n : nat) : nat :=
  if (N.of_nat n <? limit)%N then S n else n.

(** [getId() { return this.next++; }] *)
Definition getId (g : t) : nat * t := (next g, mk (increment (next g))).
End IDGenerator.

(** ** Envelopes *)

Inductive ResponseType :=
| STDOUT | STDERR | RESULT | EXCEPTION | ERROR | LOADED.

Definition ResponseType_value (t : ResponseType) : Z :=
  match t with
  | STDOUT => 1 | STDERR => 2 | RESULT => 3 | EXCEPTION => 4
  | ERROR => 5 | LOADED => 6
  end%Z.

Inductive RequestType := RUNPY | IMGSUM.

Definition RequestType_value (t : RequestType) : Z :=
  match t with RUNPY => 1 | IMGSUM => 2 end%Z.

Module PyodideWorkerResponse.
Record t := mk { id : nat; type : ResponseType; msg : string }.
End PyodideWorkerResponse.

Inductive WorkerRequest :=
| RunpyWorkerRequest (id : nat) (name content : string)
| ImgSumWorkerRequest (id : nat) (name content : string)
                      (line : Z) (varname : string).

Definition request_type (r : WorkerRequest) : RequestType :=
  match r with
  | RunpyWorkerRequest _ _ _ => RUNPY
  | ImgSumWorkerRequest _ _ _ _ _ => IMGSUM
  end.

(** ** Host callbacks and their invocations *)

(** A handle is an index into the heap of objects. *)
Abbreviation Handle := nat (only parsing).

(** A callback handed in by the host, or the closure the bootstrap code
    passes to [onExit] once pyodide has loaded. *)
Inductive Callback :=
| HostFn (n : nat)
| BootstrapFn.

(** The first argument of an exit callback: [0], [1] or [null]. *)
Inductive ExitCode :=
| JsNum (n : Z)
| JsNull.

(** One invocation of a callback, tagged by the slot it was called
    through: [this.onOutput(data)], [this.onError(data)], or the [fn] of
    [onExit] called as [fn(exitCode, result)]. *)
Inductive Call :=
| OutputCall (fn : Callback) (data : string)
| ErrorCall (fn : Callback) (data : string)
| ExitCall (fn : Callback) (exitCode : ExitCode) (result : string).

Definition is_exit_call (c : Call) : bool :=
  match c with ExitCall _ _ _ => true | _ => false end.

(** ** The worker: its message listeners and posted requests *)

Inductive Listener :=
| InitListener
| ProcessListener (h : Handle).

Global Instance Listener_eq_dec : EqDecision Listener.
Proof. solve_decision. Defined.

Module Worker.
Record t := mk { listeners : list Listener; outbox : list WorkerRequest }.

(** [new Worker(...)]: nothing registered, nothing posted. *)
Definition new : t := mk [] [].

(** [addEventListener('message', l)]; a listener already present is not
    added a second time. *)
Definition addEventListener (l : Listener) (w : t) : t :=
  if bool_decide (l ∈ listeners w) then w
  else mk (listeners w ++ [l]) (outbox w).

(** [removeEventListener('message', l)] *)
Definition removeEventListener (l : Listener) (w : t) : t :=
  mk (filter (λ l', l' ≠ l) (listeners w)) (outbox w).

(** [postMessage(r)] *)
Definition postMessage (r : WorkerRequest) (w : t) : t :=
  mk (listeners w) (outbox w ++ [r]).
End Worker.

(** Invoke an optional callback slot: [if (this.f) { this.f(data); }]. *)
Definition call_if {A} (slot : option Callback) (k : Callback → A) : list A :=
  match slot with
  | Some fn => [k fn]
  | None => []
  end.

(** ** RunpyProcess *)

Module RunpyProcess.
Record t := mk {
  id : nat;
  onResult : option Callback;
  onOutput : option Callback;
  onError : option Callback;
  result : option string;
  error : string;
  output : string;
  killed : bool
}.

(** Field assignments [this.f = v]. *)
Definition set_onResult (v : option Callback) (p : t) : t :=
  mk (id p) v (onOutput p) (onError p) (result p) (error p) (output p)
     (killed p).
Definition set_onOutput (v : option Callback) (p : t) : t :=
  mk (id p) (onResult p) v (onError p) (result p) (error p) (output p)
     (killed p).
Definition set_onError (v : option Callback) (p : t) : t :=
  mk (id p) (onResult p) (onOutput p) v (result p) (error p) (output p)
     (killed p).
Definition set_result (v : option string) (p : t) : t :=
  mk (id p) (onResult p) (onOutput p) (onError p) v (error p) (output p)
     (killed p).
Definition set_error (v : string) (p : t) : t :=
  mk (id p) (onResult p) (onOutput p) (onError p) (result p) v (output p)
     (killed p).
Definition set_output (v : string) (p : t) : t :=
  mk (id p) (onResult p) (onOutput p) (onError p) (result p) (error p) v
     (killed p).
Definition set_killed (v : bool) (p : t) : t :=
  mk (id p) (onResult p) (onOutput p) (onError p) (result p) (error p)
     (output p) v.

(** The two buffer deliveries at the head of the closure that [onExit]
    stores in [this.onResult]. *)
Definition flush (p : t) : list Call :=
  call_if (onOutput p) (λ f, OutputCall f (output p)) ++
  call_if (onError p) (λ f, ErrorCall f (error p)).

(** [fn((result && result !== '') ? 0 : null, result)] *)
Definition exitCode (result : string) : ExitCode :=
  if truthy result && negb (String.eqb result "") then JsNum 0 else JsNull.

(** The closure [(result) => { ... }] built by [onExit fn], run on the
    current fields of [this]. *)
Definition onResultClosure (fn : Callback) (p : t) (result : string)
  : list Call :=
  flush p ++ [ExitCall fn (exitCode result) result].

(** [if (this.onResult) { this.onResult(result); }] *)
Definition fireOnResult (p : t) (result : string) : list Call :=
  match onResult p with
  | Some fn => onResultClosure fn p result
  | None => []
  end.

(** The closure the constructor stores in [this.eventListener].  The
    closure of the object at handle [h] is named [ProcessListener h] where
    it is registered with or removed from the worker. *)
Definition eventListener (p : t) (m : PyodideWorkerResponse.t)
  : t * list Call :=
  if negb (Nat.eqb (PyodideWorkerResponse.id m) (id p)) then (p, [])
  else
    match PyodideWorkerResponse.type m with
    | RESULT =>
        let p' := set_result (Some (PyodideWorkerResponse.msg m)) p in
        (p', fireOnResult p' (PyodideWorkerResponse.msg m))
    | STDOUT =>
        (set_output (output p +:+ PyodideWorkerResponse.msg m) p, [])
    | STDERR | EXCEPTION =>
        (set_error (error p +:+ PyodideWorkerResponse.msg m) p, [])
    | _ => (p, [])
    end.

(** [constructor(program)], for the object allocated at [self]. *)
Definition new (self : Handle) (program : string)
           (g : IDGenerator.t) (w : Worker.t)
  : t * IDGenerator.t * Worker.t :=
  let '(i, g') := IDGenerator.getId g in
  let p := mk i None None None None "" "" false in
  let w1 := Worker.addEventListener (ProcessListener self) w in
  let w2 :=
    Worker.postMessage
      (RunpyWorkerRequest i ("program_" +:+ pretty i +:+ ".py") program) w1 in
  (p, g', w2).

(** [onStdout(fn) { this.onOutput = fn; }] *)
Definition onStdout (fn : Callback) (p : t) : t := set_onOutput (Some fn) p.

(** [onStderr(fn) { this.onError = fn; }] *)
Definition onStderr (fn : Callback) (p : t) : t := set_onError (Some fn) p.

(** [kill()]: set [killed], remove the listener from the worker, then
    [if (this.onResult) { this.onResult(''); }]. *)
Definition kill (self : Handle) (p : t) (w : Worker.t)
  : t * Worker.t * list Call :=
  let p' := set_killed true p in
  let w' := Worker.removeEventListener (ProcessListener self) w in
  (p', w', fireOnResult p' "").

(** [onExit(fn)]: store the closure, then
    [if (this.result) { this.onResult(this.result); }
     else if (this.killed) { this.onResult(''); }]. *)
Definition onExit (fn : Callback) (p : t) : t * list Call :=
  let p' := set_onResult (Some fn) p in
  if truthy_opt (result p') then
    (p', fireOnResult p' (default "" (result p')))
  else if killed p' then (p', fireOnResult p' "")
  else (p', []).
End RunpyProcess.

(** ** ImgSummaryProcess *)

Module ImgSummaryProcess.
Record t := mk {
  id : nat;
  onResult : option Callback;
  onOutput : option Callback;
  onError : option Callback;
  result : option string;
  error : string;
  output : string
}.

(** Field assignments [this.f = v]. *)
Definition set_onResult (v : option Callback) (p : t) : t :=
  mk (id p) v (onOutput p) (onError p) (result p) (error p) (output p).
Definition set_onOutput (v : option Callback) (p : t) : t :=
  mk (id p) (onResult p) v (onError p) (result p) (error p) (output p).
Definition set_onError (v : option Callback) (p : t) : t :=
  mk (id p) (onResult p) (onOutput p) v (result p) (error p) (output p).
Definition set_result (v : option string) (p : t) : t :=
  mk (id p) (onResult p) (onOutput p) (onError p) v (error p) (output p).
Definition set_error (v : string) (p : t) : t :=
  mk (id p) (onResult p) (onOutput p) (onError p) (result p) v (output p).
Definition set_output (v : string) (p : t) : t :=
  mk (id p) (onResult p) (onOutput p) (onError p) (result p) (error p) v.

(** [fn((result && result !== '') ? 0 : 1, result)] *)
Definition exitCode (result : string) : ExitCode :=
  if truthy result && negb (String.eqb result "") then JsNum 0 else JsNum 1.

(** The closure [(result) => { ... }] built by [onExit fn]. *)
Definition onResultClosure (fn : Callback) (result : string) : list Call :=
  [ExitCall fn (exitCode result) result].

(** [if (this.onResult) { this.onResult(result); }] *)
Definition fireOnResult (p : t) (result : string) : list Call :=
  match onResult p with
  | Some fn => onResultClosure fn result
  | None => []
  end.

(** The listener closure created in the constructor. *)
Definition eventListener (p : t) (m : PyodideWorkerResponse.t)
  : t * list Call :=
  if negb (Nat.eqb (PyodideWorkerResponse.id m) (id p)) then (p, [])
  else
    match PyodideWorkerResponse.type m with
    | RESULT =>
        let p' := set_result (Some (PyodideWorkerResponse.msg m)) p in
        (p', fireOnResult p' (PyodideWorkerResponse.msg m))
    | STDOUT =>
        let p' := set_output (output p +:+ PyodideWorkerResponse.msg m) p in
        (p', call_if (onOutput p')
               (λ f, OutputCall f (PyodideWorkerResponse.msg m)))
    | STDERR | EXCEPTION =>
        let p' := set_error (error p +:+ PyodideWorkerResponse.msg m) p in
        (p', call_if (onError p')
               (λ f, ErrorCall f (PyodideWorkerResponse.msg m)))
    | _ => (p, [])
    end.

(** [constructor(program, line, varname)], for the object at [self]. *)
Definition new (self : Handle) (program : string) (line : Z)
           (varname : string) (g : IDGenerator.t) (w : Worker.t)
  : t * IDGenerator.t * Worker.t :=
  let '(i, g') := IDGenerator.getId g in
  let p := mk i None None None None "" "" in
  let w1 := Worker.addEventListener (ProcessListener self) w in
  let w2 :=
    Worker.postMessage
      (ImgSumWorkerRequest i ("imgsum_" +:+ pretty i +:+ ".py")
         program line varname) w1 in
  (p, g', w2).

(** [onStdout(fn)]: [this.onOutput = fn;
    if (this.output) { this.onOutput(this.output); }] *)
Definition onStdout (fn : Callback) (p : t) : t * list Call :=
  let p' := set_onOutput (Some fn) p in
  if truthy (output p') then (p', [OutputCall fn (output p')])
  else (p', []).

(** [onStderr(fn)]: [this.onError = fn;
    if (this.error) { this.onError(this.error); }] *)
Definition onStderr (fn : Callback) (p : t) : t * list Call :=
  let p' := set_onError (Some fn) p in
  if truthy (error p') then (p', [ErrorCall fn (error p')])
  else (p', []).

(** [kill()]: only removes the listener from the worker. *)
Definition kill (self : Handle) (p : t) (w : Worker.t) : Worker.t :=
  Worker.removeEventListener (ProcessListener self) w.

(** [onExit(fn)]: store the closure, then
    [if (this.result) { this.onResult(this.result); }]. *)
Definition onExit (fn : Callback) (p : t) : t * list Call :=
  let p' := set_onResult (Some fn) p in
  if truthy_opt (result p') then
    (p', fireOnResult p' (default "" (result p')))
  else (p', []).
End ImgSummaryProcess.

(** ** The heap of [Process] objects *)

(** [SynthProcess] has no fields and every method body is empty. *)
Inductive Process :=
| Runpy (p : RunpyProcess.t)
| ImgSummary (p : ImgSummaryProcess.t)
| Synth.

(** The correlation id an object holds, if its class has one. *)
Definition process_id (o : Process) : option nat :=
  match o with
  | Runpy p => Some (RunpyProcess.id p)
  | ImgSummary p => Some (ImgSummaryProcess.id p)
  | Synth => None
  end.

(** The stored terminal result and the registered exit closure of an
    object, if its class has these fields. *)
Definition process_result (o : Process) : option string :=
  match o with
  | Runpy p => RunpyProcess.result p
  | ImgSummary p => ImgSummaryProcess.result p
  | Synth => None
  end.

Definition process_onResult (o : Process) : option Callback :=
  match o with
  | Runpy p => RunpyProcess.onResult p
  | ImgSummary p => ImgSummaryProcess.onResult p
  | Synth => None
  end.

(** What the host and the module can observe besides worker traffic. *)
Inductive Effect :=
| Invoked (h : Handle) (c : Call)
| SaveProgram (program : string)
| ConsoleLog (s : string)
| ConsoleError (s : string).

(** ** Module state *)

Record World := mkWorld {
  idGen : IDGenerator.t;
  pyodideWorker : Worker.t;
  pyodideLoaded : bool;
  heap : list Process;
  (** [window.editor.getModel().getLinesContent().join('\n')] *)
  editorProgram : string
}.

Definition set_idGen (g : IDGenerator.t) (w : World) : World :=
  mkWorld g (pyodideWorker w) (pyodideLoaded w) (heap w) (editorProgram w).
Definition set_pyodideWorker (k : Worker.t) (w : World) : World :=
  mkWorld (idGen w) k (pyodideLoaded w) (heap w) (editorProgram w).
Definition set_pyodideLoaded (b : bool) (w : World) : World :=
  mkWorld (idGen w) (pyodideWorker w) b (heap w) (editorProgram w).
Definition set_heap (hp : list Process) (w : World) : World :=
  mkWorld (idGen w) (pyodideWorker w) (pyodideLoaded w) hp (editorProgram w).

(** Allocation of a new object: its handle is the next free index. *)
Definition alloc (o : Process) (w : World) : Handle * World :=
  (length (heap w), set_heap (heap w ++ [o]) w).

(** In-place update of the object at [h]. *)
Definition store (h : Handle) (o : Process) (w : World) : World :=
  set_heap (<[h := o]> (heap w)) w.

(** The state of the module once its top-level statements have run:
    the worker is started and the init listener is registered. *)
Definition initialWorld (program : string) : World :=
  mkWorld IDGenerator.new
          (Worker.addEventListener InitListener Worker.new)
          false [] program.

(** ** Factory functions *)

(** [saveProgram(program)]: the fire-and-forget POST to [/save].  The page
    is taken to carry the [csrf-parameter] input the function reads, and
    the editor to have a model when [LOADED] arrives: without them the
    source throws at that point, which this embedding does not cover. *)
Definition saveProgram (program : string) : list Effect :=
  [SaveProgram program].

Definition runProgram (program : string) (w : World)
  : Handle * World * list Effect :=
  if negb (pyodideLoaded w) then
    let '(h, w') := alloc Synth w in (h, w', [])
  else
    let es := saveProgram program in
    let '(p, g, k) :=
      RunpyProcess.new (length (heap w)) program (idGen w) (pyodideWorker w) in
    let '(h, w') := alloc (Runpy p) (set_pyodideWorker k (set_idGen g w)) in
    (h, w', es).

Definition synthesizeSnippet (problem : string) (w : World)
  : Handle * World * list Effect :=
  let '(h, w') := alloc Synth w in (h, w', []).

Definition runImgSummary (program : string) (line : Z) (varname : string)
           (w : World) : Handle * World * list Effect :=
  if negb (pyodideLoaded w) then
    let '(h, w') := alloc Synth w in (h, w', [])
  else
    let '(p, g, k) :=
      ImgSummaryProcess.new (length (heap w)) program line varname
                            (idGen w) (pyodideWorker w) in
    let '(h, w') :=
      alloc (ImgSummary p) (set_pyodideWorker k (set_idGen g w)) in
    (h, w', []).

(** ** The [Process] interface *)

(** Dynamic dispatch of the four interface methods, and of the listener
    closure of an object, on the class of [o]. *)
Definition Process_onStdout (fn : Callback) (o : Process)
  : Process * list Call :=
  match o with
  | Runpy p => (Runpy (RunpyProcess.onStdout fn p), [])
  | ImgSummary p =>
      let '(p', cs) := ImgSummaryProcess.onStdout fn p in (ImgSummary p', cs)
  | Synth => (Synth, [])
  end.

Definition Process_onStderr (fn : Callback) (o : Process)
  : Process * list Call :=
  match o with
  | Runpy p => (Runpy (RunpyProcess.onStderr fn p), [])
  | ImgSummary p =>
      let '(p', cs) := ImgSummaryProcess.onStderr fn p in (ImgSummary p', cs)
  | Synth => (Synth, [])
  end.

Definition Process_kill (self : Handle) (o : Process) (k : Worker.t)
  : Process * Worker.t * list Call :=
  match o with
  | Runpy p =>
      let '(p', k', cs) := RunpyProcess.kill self p k in (Runpy p', k', cs)
  | ImgSummary p => (ImgSummary p, ImgSummaryProcess.kill self p k, [])
  | Synth => (Synth, k, [])
  end.

Definition Process_onExit (fn : Callback) (o : Process)
  : Process * list Call :=
  match o with
  | Runpy p =>
      let '(p', cs) := RunpyProcess.onExit fn p in (Runpy p', cs)
  | ImgSummary p =>
      let '(p', cs) := ImgSummaryProcess.onExit fn p in (ImgSummary p', cs)
  | Synth => (Synth, [])
  end.

Definition Process_eventListener (o : Process) (m : PyodideWorkerResponse.t)
  : Process * list Call :=
  match o with
  | Runpy p =>
      let '(p', cs) := RunpyProcess.eventListener p m in (Runpy p', cs)
  | ImgSummary p =>
      let '(p', cs) := ImgSummaryProcess.eventListener p m in
      (ImgSummary p', cs)
  | Synth => (Synth, [])
  end.

(** A method called on the object a handle refers to. *)
Definition onStdout (h : Handle) (fn : Callback) (w : World)
  : World * list Effect :=
  match heap w !! h with
  | Some o =>
      let '(o', cs) := Process_onStdout fn o in
      (store h o' w, Invoked h <$> cs)
  | None => (w, [])
  end.

Definition onStderr (h : Handle) (fn : Callback) (w : World)
  : World * list Effect :=
  match heap w !! h with
  | Some o =>
      let '(o', cs) := Process_onStderr fn o in
      (store h o' w, Invoked h <$> cs)
  | None => (w, [])
  end.

Definition kill (h : Handle) (w : World) : World * list Effect :=
  match heap w !! h with
  | Some o =>
      let '(o', k, cs) := Process_kill h o (pyodideWorker w) in
      (store h o' (set_pyodideWorker k w), Invoked h <$> cs)
  | None => (w, [])
  end.

Definition onExit (h : Handle) (fn : Callback) (w : World)
  : World * list Effect :=
  match heap w !! h with
  | Some o =>
      let '(o', cs) := Process_onExit fn o in
      (store h o' w, Invoked h <$> cs)
  | None => (w, [])
  end.

(** ** Message dispatch *)

(** The listener registered at module load. *)
Definition pyodideWorkerInitListener (m : PyodideWorkerResponse.t) (w : World)
  : World * list Effect :=
  match PyodideWorkerResponse.type m with
  | LOADED =>
      let w1 := set_pyodideLoaded true w in
      let w2 :=
        set_pyodideWorker
          (Worker.removeEventListener InitListener (pyodideWorker w1)) w1 in
      let '(h, w3, es) := runProgram (editorProgram w2) w2 in
      let '(w4, es') := onExit h BootstrapFn w3 in
      (w4, ConsoleLog "Pyodide loaded!" :: es ++ es')
  | ty =>
      (w, [ConsoleError
             "First message from pyodide worker was not a load message!";
           ConsoleError (pretty (ResponseType_value ty));
           ConsoleError (pretty (ResponseType_value LOADED))])
  end.

(** Run one registered listener on a message event. *)
Definition invokeListener (l : Listener) (m : PyodideWorkerResponse.t)
           (w : World) : World * list Effect :=
  match l with
  | InitListener => pyodideWorkerInitListener m w
  | ProcessListener h =>
      match heap w !! h with
      | Some o =>
          let '(o', cs) := Process_eventListener o m in
          (store h o' w, Invoked h <$> cs)
      | None => (w, [])
      end
  end.

Fixpoint dispatchTo (ls : list Listener) (m : PyodideWorkerResponse.t)
         (w : World) : World * list Effect :=
  match ls with
  | [] => (w, [])
  | l :: ls' =>
      let '(w1, es1) := invokeListener l m w in
      let '(w2, es2) := dispatchTo ls' m w1 in
      (w2, es1 ++ es2)
  end.

(** A message event on the worker reaches every listener registered when
    the event is dispatched, in registration order. *)
Definition dispatchMessage (m : PyodideWorkerResponse.t) (w : World)
  : World * list Effect :=
  dispatchTo (Worker.listeners (pyodideWorker w)) m w.

(** ** Histories *)

(** What can happen to the module: the worker delivers a message, or the
    host calls an exported function or a method of a process it holds. *)
Inductive Action :=
| MessageEvent (m : PyodideWorkerResponse.t)
| CallRunProgram (program : string)
| CallSynthesizeSnippet (problem : string)
| CallRunImgSummary (program : string) (line : Z) (varname : string)
| CallOnStdout (h : Handle) (fn : Callback)
| CallOnStderr (h : Handle) (fn : Callback)
| CallKill (h : Handle)
| CallOnExit (h : Handle) (fn : Callback).

Definition step (a : Action) (w : World) : World * list Effect :=
  match a with
  | MessageEvent m => dispatchMessage m w
  | CallRunProgram program =>
      let '(_, w', es) := runProgram program w in (w', es)
  | CallSynthesizeSnippet problem =>
      let '(_, w', es) := synthesizeSnippet problem w in (w', es)
  | CallRunImgSummary program line varname =>
      let '(_, w', es) := runImgSummary program line varname w in (w', es)
  | CallOnStdout h fn => onStdout h fn w
  | CallOnStderr h fn => onStderr h fn w
  | CallKill h => kill h w
  | CallOnExit h fn => onExit h fn w
  end.

Fixpoint run (acts : list Action) (w : World) : World * list Effect :=
  match acts with
  | [] => (w, [])
  | a :: acts' =>
      let '(w1, es1) := step a w in
      let '(w2, es2) := run acts' w1 in
      (w2, es1 ++ es2)
  end.

(** The calls made on the callbacks of the process at [h]. *)
Definition callsOf (h : Handle) (es : list Effect) : list Call :=
  omap (λ e, match e with
             | Invoked h' c => if bool_decide (h' = h) then Some c else None
             | _ => None
             end) es.

Definition exitCallsOf (h : Handle) (es : list Effect) : list Call :=
  filter (λ c, is_exit_call c = true) (callsOf h es).

(** ** One object's view of a history *)

(** Whether the listener closure of the object at [h] is registered. *)
Definition listening (h : Handle) (w : World) : bool :=
  bool_decide (ProcessListener h ∈ Worker.listeners (pyodideWorker w)).

(** No listener is registered twice, as [addEventListener] ensures. *)
Definition wf (w : World) : Prop :=
  NoDup (Worker.listeners (pyodideWorker w)).

(** What one action does to the object at [h], given the object and
    whether its listener is registered: the new object, whether its
    listener is still registered, and the calls made on its callbacks. *)
Definition local (h : Handle) (a : Action) (o : Process) (b : bool)
  : Process * bool * list Call :=
  match a with
  | MessageEvent m =>
      if b then let '(o', cs) := Process_eventListener o m in (o', b, cs)
      else (o, b, [])
  | CallOnStdout h' fn =>
      if bool_decide (h' = h)
      then let '(o', cs) := Process_onStdout fn o in (o', b, cs)
      else (o, b, [])
  | CallOnStderr h' fn =>
      if bool_decide (h' = h)
      then let '(o', cs) := Process_onStderr fn o in (o', b, cs)
      else (o, b, [])
  | CallKill h' =>
      if bool_decide (h' = h)
      then
        let k := Worker.mk (if b then [ProcessListener h] else []) [] in
        let '(o', k', cs) := Process_kill h o k in
        (o', bool_decide (ProcessListener h ∈ Worker.listeners k'), cs)
      else (o, b, [])
  | CallOnExit h' fn =>
      if bool_decide (h' = h)
      then let '(o', cs) := Process_onExit fn o in (o', b, cs)
      else (o, b, [])
  | _ => (o, b, [])
  end.

Fixpoint localRun (h : Handle) (acts : list Action) (o : Process) (b : bool)
  : Process * bool * list Call :=
  match acts with
  | [] => (o, b, [])
  | a :: acts' =>
      let '(o1, b1, cs1) := local h a o b in
      let '(o2, b2, cs2) := localRun h acts' o1 b1 in
      (o2, b2, cs1 ++ cs2)
  end.

(** Whether an action is the delivery of a [RESULT] response tagged with
    the correlation id [i]. *)
Definition deliversResult (i : nat) (a : Action) : bool :=
  match a with
  | MessageEvent m =>
      match PyodideWorkerResponse.type m with
      | RESULT => Nat.eqb (PyodideWorkerResponse.id m) i
      | _ => false
      end
  | _ => false
  end.


(** Whether an action is a method call on the object at [h]. *)
Definition targets (h : Handle) (a : Action) : bool :=
  match a with
  | CallOnStdout h' _ | CallOnStderr h' _ | CallKill h' | CallOnExit h' _ =>
      bool_decide (h' = h)
  | _ => false
  end.

(** [seen h w es r]: in world [w], after the effects [es], the object at
    [h], the registration of its listener and the calls made on it are
    the components of [r]. *)
Definition seen (h : Handle) (w : World) (es : list Effect)
           (r : Process * bool * list Call) : Prop :=
  heap w !! h = Some r.1.1 ∧ listening h w = r.1.2 ∧ callsOf h es = r.2.

(** [Runpy_firing p' cs]: the calls [cs] are none at all, or one firing of
    the [onResult] closure on the object [p']: its buffers handed to the
    registered output observers, then the exit callback. *)
Definition Runpy_firing (p' : RunpyProcess.t) (cs : list Call) : Prop :=
  cs = []
  ∨ ∃ fn r,
      cs = call_if (RunpyProcess.onOutput p')
                   (λ f, OutputCall f (RunpyProcess.output p'))
           ++ call_if (RunpyProcess.onError p')
                      (λ f, ErrorCall f (RunpyProcess.error p'))
           ++ [ExitCall fn (RunpyProcess.exitCode r) r].

(** The run-program object [p] once the texts [out] and [err] have been
    appended to its stdout and stderr buffers. *)
Definition Runpy_appended (out err : string) (p : RunpyProcess.t)
  : RunpyProcess.t :=
  RunpyProcess.set_error (RunpyProcess.error p +:+ err)
    (RunpyProcess.set_output (RunpyProcess.output p +:+ out) p).

(** ** Classes of objects and the calls they may make *)

Inductive ProcessClass := RunpyClass | ImgSummaryClass | SynthClass.

Definition classOf (o : Process) : ProcessClass :=
  match o with
  | Runpy _ => RunpyClass
  | ImgSummary _ => ImgSummaryClass
  | Synth => SynthClass
  end.

(** The status a class passes to an exit callback along with the result
    text [res]; [SynthProcess] never calls one. *)
Definition exitCodeOf (k : ProcessClass) (res : string) : option ExitCode :=
  match k with
  | RunpyClass => Some (RunpyProcess.exitCode res)
  | ImgSummaryClass => Some (ImgSummaryProcess.exitCode res)
  | SynthClass => None
  end.

(** [call_allowed k c]: an object of class [k] can make the call [c]. *)
Definition call_allowed (k : ProcessClass) (c : Call) : Prop :=
  match k, c with
  | SynthClass, _ => False
  | _, ExitCall _ code res => exitCodeOf k res = Some code
  | _, _ => True
  end.

(** Objects are never freed and never change class. *)
Definition heap_extends (hp hp' : list Process) : Prop :=
  ∀ h o, hp !! h = Some o → ∃ o', hp' !! h = Some o' ∧ classOf o' = classOf o.

(** Every recorded call was made by an object of the heap that can make
    it. *)
Definition effects_allowed (hp : list Process) (es : list Effect) : Prop :=
  ∀ h c, Invoked h c ∈ es →
         ∃ o, hp !! h = Some o ∧ call_allowed (classOf o) c.

Definition step_ok (w w' : World) (es : list Effect) : Prop :=
  heap_extends (heap w) (heap w') ∧ effects_allowed (heap w') es.

(** ** A concrete session, used to exercise the statements below *)

Definition response (i : nat) (ty : ResponseType) (s : string)
  : PyodideWorkerResponse.t :=
  PyodideWorkerResponse.mk i ty s.

(** Pyodide has loaded, which started the bootstrap run (handle 0, id 0);
    the host then asked for an image summary (handle 1, id 1) and for
    another run (handle 2, id 2). *)
Definition session : list Action :=
  [MessageEvent (response 0 LOADED "");
   CallRunImgSummary "img = load()" 1%Z "img";
   CallRunProgram "print(2)"].

Definition sessionWorld : World := (run session (initialWorld "print(1)")).1.

(** A host that asked for a run and an image summary before pyodide had
    loaded holds two placeholders (handles 0 and 1). *)
Definition earlyWorld : World :=
  (run [CallRunProgram "print(1)"; CallRunImgSummary "img = load()" 1%Z "img"]
       (initialWorld "print(1)")).1.

(** The session continued: the host registers output observers on the
    image summary, and a first stdout chunk arrives for it. *)
Definition streamingWorld : World :=
  (run [CallOnStdout 1 (HostFn 1); CallOnStderr 1 (HostFn 2);
        MessageEvent (response 1 STDOUT "a")] sessionWorld).1.

(** ** What the module guarantees across a session *)

Definition request_id (r : WorkerRequest) : nat :=
  match r with
  | RunpyWorkerRequest i _ _ => i
  | ImgSumWorkerRequest i _ _ _ _ => i
  end.

(** [requestFor o r]: [r] is the request the constructor of [o] posts,
    tagged with the id of [o] and named after it. *)
Definition requestFor (o : Process) (r : WorkerRequest) : Prop :=
  match classOf o, r with
  | RunpyClass, RunpyWorkerRequest i name _ =>
      process_id o = Some i ∧ name = "program_" +:+ pretty i +:+ ".py"
  | ImgSummaryClass, ImgSumWorkerRequest i name _ _ _ =>
      process_id o = Some i ∧ name = "imgsum_" +:+ pretty i +:+ ".py"
  | _, _ => False
  end.

(** The [killed] flag, which only [RunpyProcess] has. *)
Definition process_killed (o : Process) : bool :=
  match o with
  | Runpy p => RunpyProcess.killed p
  | _ => false
  end.

Definition process_output (o : Process) : string :=
  match o with
  | Runpy p => RunpyProcess.output p
  | ImgSummary p => ImgSummaryProcess.output p
  | Synth => ""
  end.

Definition process_error (o : Process) : string :=
  match o with
  | Runpy p => RunpyProcess.error p
  | ImgSummary p => ImgSummaryProcess.error p
  | Synth => ""
  end.

(** [ids_exact w]: the id source of [w] is below [IDGenerator.limit], so
    every increment it has made so far was exact. *)
Definition ids_exact (w : World) : Prop :=
  (N.of_nat (IDGenerator.next (idGen w)) < IDGenerator.limit)%N.

(** The facts that hold of the module state throughout a session; those
    about correlation ids hold as long as the id source is exact. *)
Record Inv (w : World) : Prop := mkInv {
  inv_ids_below :
    ids_exact w →
    ∀ h o i, heap w !! h = Some o → process_id o = Some i →
             i < IDGenerator.next (idGen w);
  inv_ids_inj :
    ids_exact w →
    ∀ h1 h2 o1 o2 i,
      heap w !! h1 = Some o1 → heap w !! h2 = Some o2 →
      process_id o1 = Some i → process_id o2 = Some i → h1 = h2;
  inv_outbox_ids :
    ids_exact w →
    request_id <$> Worker.outbox (pyodideWorker w)
    = seq 0 (IDGenerator.next (idGen w));
  inv_request :
    ids_exact w →
    ∀ h o i, heap w !! h = Some o → process_id o = Some i →
             ∃ r, Worker.outbox (pyodideWorker w) !! i = Some r
                  ∧ requestFor o r;
  inv_gate :
    pyodideLoaded w = false
    ↔ InitListener ∈ Worker.listeners (pyodideWorker w);
  inv_killed :
    ∀ h o, heap w !! h = Some o → classOf o = RunpyClass →
           listening h w = negb (process_killed o);
  inv_listeners :
    ∀ h, ProcessListener h ∈ Worker.listeners (pyodideWorker w) →
         ∃ o, heap w !! h = Some o ∧ classOf o ≠ SynthClass
}.

(** The text a response contributes to the stdout buffer, and to the
    stderr buffer, of the process with id [i]. *)
Definition stdoutChunk (i : nat) (a : Action) : string :=
  match a with
  | MessageEvent m =>
      if Nat.eqb (PyodideWorkerResponse.id m) i then
        match PyodideWorkerResponse.type m with
        | STDOUT => PyodideWorkerResponse.msg m
        | _ => ""
        end
      else ""
  | _ => ""
  end.

Definition stderrChunk (i : nat) (a : Action) : string :=
  match a with
  | MessageEvent m =>
      if Nat.eqb (PyodideWorkerResponse.id m) i then
        match PyodideWorkerResponse.type m with
        | STDERR | EXCEPTION => PyodideWorkerResponse.msg m
        | _ => ""
        end
      else ""
  | _ => ""
  end.

(** The texts of the stdout responses for id [i] in a history, in order of
    arrival, and likewise the stderr and exception texts. *)
Fixpoint stdoutFor (i : nat) (acts : list Action) : string :=
  match acts with
  | [] => ""
  | a :: acts' => stdoutChunk i a +:+ stdoutFor i acts'
  end.

Fixpoint stderrFor (i : nat) (acts : list Action) : string :=
  match acts with
  | [] => ""
  | a :: acts' => stderrChunk i a +:+ stderrFor i acts'
  end.

(** The text handed to stdout observers by a sequence of calls, and
    whether every stdout call went to the observer [fn]. *)
Fixpoint outputText (cs : list Call) : string :=
  match cs with
  | [] => ""
  | OutputCall _ data :: cs' => data +:+ outputText cs'
  | _ :: cs' => outputText cs'
  end.

(** The same for the stderr observers. *)
Fixpoint errorText (cs : list Call) : string :=
  match cs with
  | [] => ""
  | ErrorCall _ data :: cs' => data +:+ errorText cs'
  | _ :: cs' => errorText cs'
  end.

Definition outputOnlyTo (fn : Callback) (c : Call) : Prop :=
  match c with
  | OutputCall f _ => f = fn
  | _ => True
  end.

Definition errorOnlyTo (fn : Callback) (c : Call) : Prop :=
  match c with
  | ErrorCall f _ => f = fn
  | _ => True
  end.

(** The programs sent to [/save], and the programs of the run requests
    posted to the worker. *)
Definition savedPrograms (es : list Effect) : list string :=
  omap (λ e, match e with SaveProgram s => Some s | _ => None end) es.

Definition runContents (rs : list WorkerRequest) : list string :=
  omap (λ r, match r with
             | RunpyWorkerRequest _ _ content => Some content
             | _ => None
             end) rs.

(** Whether an action is the delivery of a [LOADED] response. *)
Definition deliversLoaded (a : Action) : bool :=
  match a with
  | MessageEvent m =>
      match PyodideWorkerResponse.type m with
      | LOADED => true
      | _ => false
      end
  | _ => false
  end.

Definition is_console_error (e : Effect) : bool :=
  match e with ConsoleError _ => true | _ => false end.

(** [n] successive calls of [getId]. *)
Fixpoint takeIds (n : nat) (g : IDGenerator.t) : list nat * IDGenerator.t :=
  match n with
  | 0 => ([], g)
  | S n' =>
      let '(i, g1) := IDGenerator.getId g in
      let '(rest, g2) := takeIds n' g1 in
      (i :: rest, g2)
  end.

(** An id source that has issued [2^53] ids. *)
Definition saturated : IDGenerator.t :=
  IDGenerator.mk (N.to_nat IDGenerator.limit).

(** [stays_open w w']: if the gate is open in [w] it is open in [w'], and
    if the init listener is gone in [w] it is gone in [w']. *)
Definition stays_open (w w' : World) : Prop :=
  (pyodideLoaded w = true → pyodideLoaded w' = true)
  ∧ (InitListener ∉ Worker.listeners (pyodideWorker w) →
     InitListener ∉ Worker.listeners (pyodideWorker w')).

(** [closed w]: nothing has happened yet that the worker or the server
    could see: the gate is shut, only the init listener is registered,
    nothing is posted, no id is taken, every object is a placeholder. *)
Definition closed (w : World) : Prop :=
  pyodideLoaded w = false
  ∧ pyodideWorker w = Worker.mk [InitListener] []
  ∧ idGen w = IDGenerator.new
  ∧ Forall (λ o, o = Synth) (heap w).

(** [posts w w' es]: from [w] to [w'] the outbox only grew, and the
    programs saved by [es] are the programs of the new run requests. *)
Definition posts (w w' : World) (es : list Effect) : Prop :=
  ∃ new, Worker.outbox (pyodideWorker w')
         = Worker.outbox (pyodideWorker w) ++ new
         ∧ savedPrograms es = runContents new.

(** * Properties *)

(** ** Truthiness and exit codes *)

Lemma truthy_true (s : string) : truthy s = true ↔ s ≠ "".
Proof.
  unfold truthy. destruct (String.eqb_spec s ""); simpl; split; congruence.
Qed.

Lemma truthy_false (s : string) : truthy s = false ↔ s = "".
Proof.
  unfold truthy. destruct (String.eqb_spec s ""); simpl; split; congruence.
Qed.

Lemma Runpy_exitCode_truthy (r : string) :
  RunpyProcess.exitCode r = if truthy r then JsNum 0 else JsNull.
Proof. unfold RunpyProcess.exitCode, truthy. by destruct (String.eqb r ""). Qed.

Lemma ImgSummary_exitCode_truthy (r : string) :
  ImgSummaryProcess.exitCode r = if truthy r then JsNum 0 else JsNum 1.
Proof.
  unfold ImgSummaryProcess.exitCode, truthy. by destruct (String.eqb r "").
Qed.

(** ** Bookkeeping: calls per handle, heap updates *)

Lemma callsOf_app (h : Handle) (es1 es2 : list Effect) :
  callsOf h (es1 ++ es2) = callsOf h es1 ++ callsOf h es2.
Proof. apply omap_app. Qed.

Lemma callsOf_Invoked_same (h : Handle) (cs : list Call) :
  callsOf h (Invoked h <$> cs) = cs.
Proof.
  induction cs as [|c cs IH]; [done|].
  unfold callsOf in *. cbn. rewrite bool_decide_eq_true_2 by done.
  by rewrite IH.
Qed.

Lemma callsOf_Invoked_other (h h' : Handle) (cs : list Call) :
  h' ≠ h → callsOf h (Invoked h' <$> cs) = [].
Proof.
  intros Hne. induction cs as [|c cs IH]; [done|].
  unfold callsOf in *. cbn. by rewrite bool_decide_eq_false_2.
Qed.

Lemma elem_of_callsOf (h : Handle) (c : Call) (es : list Effect) :
  c ∈ callsOf h es ↔ Invoked h c ∈ es.
Proof.
  unfold callsOf. rewrite list_elem_of_omap. split.
  - intros [e [He Hc]]. destruct e as [h' c'| | |]; try done.
    case_bool_decide; simplify_eq. done.
  - intros He. exists (Invoked h c). split; [done|].
    by rewrite bool_decide_eq_true_2.
Qed.

Lemma heap_store_same (h : Handle) (o o' : Process) (w : World) :
  heap w !! h = Some o → heap (store h o' w) !! h = Some o'.
Proof.
  intros Hh. simpl. apply list_lookup_insert_eq. by eapply lookup_lt_Some.
Qed.

(** ** The worker's listener list *)

Lemma elem_of_addEventListener (x l : Listener) (k : Worker.t) :
  x ∈ Worker.listeners (Worker.addEventListener l k)
  ↔ x ∈ Worker.listeners k ∨ x = l.
Proof.
  unfold Worker.addEventListener. case_bool_decide; simpl.
  - split; [by left|]. intros [?| ->]; done.
  - rewrite elem_of_app, list_elem_of_singleton. done.
Qed.

Lemma NoDup_addEventListener (l : Listener) (k : Worker.t) :
  NoDup (Worker.listeners k) →
  NoDup (Worker.listeners (Worker.addEventListener l k)).
Proof.
  intros Hk. unfold Worker.addEventListener. case_bool_decide; simpl; [done|].
  apply NoDup_app. split_and!; [done| |apply NoDup_singleton].
  intros x Hx ->%list_elem_of_singleton. done.
Qed.

Lemma NoDup_removeEventListener (l : Listener) (k : Worker.t) :
  NoDup (Worker.listeners k) →
  NoDup (Worker.listeners (Worker.removeEventListener l k)).
Proof. intros Hk. simpl. by apply NoDup_filter. Qed.

Lemma listening_iff (h : Handle) (w w' : World) :
  (ProcessListener h ∈ Worker.listeners (pyodideWorker w')
   ↔ ProcessListener h ∈ Worker.listeners (pyodideWorker w)) →
  listening h w' = listening h w.
Proof. intros Hiff. unfold listening. by apply bool_decide_ext. Qed.

(** ** Creating an object leaves the others alone *)

Lemma runProgram_frame (h : Handle) (o : Process) (program : string)
      (w : World) :
  heap w !! h = Some o →
  seen h (runProgram program w).1.2 (runProgram program w).2
       (o, listening h w, []).
Proof.
  intros Hh. pose proof (lookup_lt_Some _ _ _ Hh) as Hlt.
  unfold runProgram, seen. destruct (pyodideLoaded w); simpl.
  - split_and!; [by apply lookup_app_l_Some| |done].
    unfold listening; simpl. apply bool_decide_ext.
    rewrite elem_of_addEventListener.
    split; [intros [?|?]; [done|simplify_eq; lia]|by left].
  - split_and!; [by apply lookup_app_l_Some|done|done].
Qed.

Lemma runImgSummary_frame (h : Handle) (o : Process) (program : string)
      (line : Z) (varname : string) (w : World) :
  heap w !! h = Some o →
  seen h (runImgSummary program line varname w).1.2
       (runImgSummary program line varname w).2 (o, listening h w, []).
Proof.
  intros Hh. pose proof (lookup_lt_Some _ _ _ Hh) as Hlt.
  unfold runImgSummary, seen. destruct (pyodideLoaded w); simpl.
  - split_and!; [by apply lookup_app_l_Some| |done].
    unfold listening; simpl. apply bool_decide_ext.
    rewrite elem_of_addEventListener.
    split; [intros [?|?]; [done|simplify_eq; lia]|by left].
  - split_and!; [by apply lookup_app_l_Some|done|done].
Qed.

Lemma synthesizeSnippet_frame (h : Handle) (o : Process) (problem : string)
      (w : World) :
  heap w !! h = Some o →
  seen h (synthesizeSnippet problem w).1.2 (synthesizeSnippet problem w).2
       (o, listening h w, []).
Proof.
  intros Hh. unfold synthesizeSnippet, seen; simpl.
  split_and!; [by apply lookup_app_l_Some|done|done].
Qed.

Lemma runProgram_handle (program : string) (w : World) :
  (runProgram program w).1.1 = length (heap w).
Proof. unfold runProgram. by destruct (pyodideLoaded w). Qed.

Lemma runProgram_wf (program : string) (w : World) :
  wf w → wf (runProgram program w).1.2.
Proof.
  unfold wf, runProgram. intros Hw. destruct (pyodideLoaded w); simpl; [|done].
  by apply NoDup_addEventListener.
Qed.

Lemma runImgSummary_wf (program : string) (line : Z) (varname : string)
      (w : World) :
  wf w → wf (runImgSummary program line varname w).1.2.
Proof.
  unfold wf, runImgSummary. intros Hw.
  destruct (pyodideLoaded w); simpl; [|done].
  by apply NoDup_addEventListener.
Qed.

(** ** A method call seen from the object at [h] *)

Lemma onStdout_local (h h' : Handle) (fn : Callback) (o : Process)
      (w : World) :
  heap w !! h = Some o →
  seen h (onStdout h' fn w).1 (onStdout h' fn w).2
       (local h (CallOnStdout h' fn) o (listening h w)).
Proof.
  intros Hh. unfold onStdout, seen, local. case_bool_decide as Heq.
  - subst h'. rewrite Hh. destruct (Process_onStdout fn o) as [o' cs]; simpl.
    split_and!; [by eapply heap_store_same|done|apply callsOf_Invoked_same].
  - destruct (heap w !! h') as [o1|]; [|simpl; split_and!; done].
    destruct (Process_onStdout fn o1) as [o' cs]; simpl.
    rewrite list_lookup_insert_ne by done.
    split_and!; [done|done|by apply callsOf_Invoked_other].
Qed.

Lemma onStderr_local (h h' : Handle) (fn : Callback) (o : Process)
      (w : World) :
  heap w !! h = Some o →
  seen h (onStderr h' fn w).1 (onStderr h' fn w).2
       (local h (CallOnStderr h' fn) o (listening h w)).
Proof.
  intros Hh. unfold onStderr, seen, local. case_bool_decide as Heq.
  - subst h'. rewrite Hh. destruct (Process_onStderr fn o) as [o' cs]; simpl.
    split_and!; [by eapply heap_store_same|done|apply callsOf_Invoked_same].
  - destruct (heap w !! h') as [o1|]; [|simpl; split_and!; done].
    destruct (Process_onStderr fn o1) as [o' cs]; simpl.
    rewrite list_lookup_insert_ne by done.
    split_and!; [done|done|by apply callsOf_Invoked_other].
Qed.

Lemma onExit_local (h h' : Handle) (fn : Callback) (o : Process)
      (w : World) :
  heap w !! h = Some o →
  seen h (onExit h' fn w).1 (onExit h' fn w).2
       (local h (CallOnExit h' fn) o (listening h w)).
Proof.
  intros Hh. unfold onExit, seen, local. case_bool_decide as Heq.
  - subst h'. rewrite Hh. destruct (Process_onExit fn o) as [o' cs]; simpl.
    split_and!; [by eapply heap_store_same|done|apply callsOf_Invoked_same].
  - destruct (heap w !! h') as [o1|]; [|simpl; split_and!; done].
    destruct (Process_onExit fn o1) as [o' cs]; simpl.
    rewrite list_lookup_insert_ne by done.
    split_and!; [done|done|by apply callsOf_Invoked_other].
Qed.

Lemma Process_kill_listeners (x : Listener) (h' : Handle) (o : Process)
      (k : Worker.t) :
  x ≠ ProcessListener h' →
  x ∈ Worker.listeners (Process_kill h' o k).1.2 ↔ x ∈ Worker.listeners k.
Proof.
  intros Hx. destruct o as [p|p|]; simpl; [| |done];
    rewrite list_elem_of_filter; tauto.
Qed.

Lemma Process_kill_worker_indep (h : Handle) (o : Process) (k k' : Worker.t) :
  (Process_kill h o k).1.1 = (Process_kill h o k').1.1
  ∧ (Process_kill h o k).2 = (Process_kill h o k').2.
Proof. by destruct o. Qed.

Lemma Process_kill_unregisters (h : Handle) (o : Process) (k : Worker.t) :
  o ≠ Synth →
  ProcessListener h ∉ Worker.listeners (Process_kill h o k).1.2.
Proof.
  intros Ho. destruct o as [p|p|]; simpl; [| |done];
    rewrite list_elem_of_filter; tauto.
Qed.

Lemma kill_local (h h' : Handle) (o : Process) (w : World) :
  heap w !! h = Some o →
  seen h (kill h' w).1 (kill h' w).2
       (local h (CallKill h') o (listening h w)).
Proof.
  intros Hh. unfold kill, seen, local. case_bool_decide as Heq.
  - subst h'. rewrite Hh.
    set (k0 := Worker.mk _ _).
    destruct (Process_kill_worker_indep h o (pyodideWorker w) k0) as [E1 E2].
    pose proof (Process_kill_unregisters h o (pyodideWorker w)) as U1.
    pose proof (Process_kill_unregisters h o k0) as U2.
    destruct (Process_kill h o (pyodideWorker w)) as [[o1 k1] cs1] eqn:K1.
    destruct (Process_kill h o k0) as [[o2 k2] cs2] eqn:K2.
    simpl in *. subst o2 cs2.
    split_and!; [by apply list_lookup_insert_eq, lookup_lt_Some with o| |
                 apply callsOf_Invoked_same].
    unfold listening; simpl.
    assert (o = Synth ∨ o ≠ Synth) as [->|Ho] by (destruct o; auto).
    + simpl in K1, K2. simplify_eq. simpl.
      destruct (listening h w) eqn:Hb; unfold listening in Hb; rewrite Hb.
      * by rewrite bool_decide_eq_true_2 by set_solver.
      * by rewrite bool_decide_eq_false_2 by set_solver.
    + rewrite !bool_decide_eq_false_2; auto.
  - destruct (heap w !! h') as [o1|]; [|simpl; split_and!; done].
    pose proof (Process_kill_listeners (ProcessListener h) h' o1
                  (pyodideWorker w)) as Hl.
    destruct (Process_kill h' o1 (pyodideWorker w)) as [[o' k'] cs]; simpl in *.
    rewrite list_lookup_insert_ne by done.
    split_and!; [done| |by apply callsOf_Invoked_other].
    unfold listening; simpl. apply bool_decide_ext, Hl. congruence.
Qed.

(** ** Message dispatch seen from the object at [h] *)

Lemma pyodideWorkerInitListener_frame (h : Handle) (o : Process)
      (m : PyodideWorkerResponse.t) (w : World) :
  heap w !! h = Some o →
  seen h (pyodideWorkerInitListener m w).1 (pyodideWorkerInitListener m w).2
       (o, listening h w, []).
Proof.
  intros Hh. unfold pyodideWorkerInitListener.
  destruct (PyodideWorkerResponse.type m); try (by split_and!).
  set (w2 := set_pyodideWorker _ _).
  assert (heap w2 !! h = Some o) as Hh2 by done.
  assert (listening h w2 = listening h w) as Hl2.
  { apply listening_iff. unfold w2; simpl. rewrite list_elem_of_filter.
    split; [tauto|]. intros ?; split; [congruence|done]. }
  pose proof (runProgram_frame h o (editorProgram w2) w2 Hh2) as (F1 & F2 & F3).
  pose proof (runProgram_handle (editorProgram w2) w2) as Hnew.
  destruct (runProgram (editorProgram w2) w2) as [[h' w3] es]; simpl in *.
  pose proof (onExit_local h h' BootstrapFn o w3 F1) as (G1 & G2 & G3).
  assert (h' ≠ h) as Hne.
  { subst h'. apply lookup_lt_Some in Hh2. lia. }
  unfold local in G1, G2, G3. rewrite bool_decide_eq_false_2 in G1, G2, G3 by done.
  destruct (onExit h' BootstrapFn w3) as [w4 es']; simpl in *.
  unfold seen; simpl. split_and!; [done|congruence|].
  change (callsOf h (ConsoleLog "Pyodide loaded!" :: es ++ es'))
    with (callsOf h (es ++ es')).
  by rewrite callsOf_app, F3, G3.
Qed.

Lemma invokeListener_local (h : Handle) (l : Listener) (o : Process)
      (m : PyodideWorkerResponse.t) (w : World) :
  heap w !! h = Some o →
  seen h (invokeListener l m w).1 (invokeListener l m w).2
       (if bool_decide (l = ProcessListener h)
        then ((Process_eventListener o m).1, listening h w,
              (Process_eventListener o m).2)
        else (o, listening h w, [])).
Proof.
  intros Hh. destruct l as [|h']; simpl.
  - by apply pyodideWorkerInitListener_frame.
  - case_bool_decide as Heq.
    + simplify_eq. rewrite Hh.
      destruct (Process_eventListener o m) as [o' cs]; simpl.
      split_and!; [by eapply heap_store_same|done|apply callsOf_Invoked_same].
    + assert (h' ≠ h) by congruence.
      destruct (heap w !! h') as [o1|]; [|by split_and!].
      destruct (Process_eventListener o1 m) as [o' cs].
      unfold seen; simpl.
      split_and!; [by rewrite list_lookup_insert_ne|done|
                   by apply callsOf_Invoked_other].
Qed.

Lemma dispatchTo_local (h : Handle) (ls : list Listener) (o : Process)
      (m : PyodideWorkerResponse.t) (w : World) :
  NoDup ls →
  heap w !! h = Some o →
  seen h (dispatchTo ls m w).1 (dispatchTo ls m w).2
       (if bool_decide (ProcessListener h ∈ ls)
        then ((Process_eventListener o m).1, listening h w,
              (Process_eventListener o m).2)
        else (o, listening h w, [])).
Proof.
  intros Hnd. revert o w.
  induction Hnd as [|l ls Hl Hnd IH]; intros o w Hh; [by split_and!|].
  simpl.
  pose proof (invokeListener_local h l o m w Hh) as (I1 & I2 & I3).
  destruct (invokeListener l m w) as [w1 es1]; simpl in *.
  case_bool_decide as Heq.
  - subst l. simpl in *.
    pose proof (IH _ w1 I1) as (J1 & J2 & J3).
    rewrite bool_decide_eq_false_2 in J1, J2, J3 by done.
    rewrite bool_decide_eq_true_2 by set_solver.
    destruct (dispatchTo ls m w1) as [w2 es2]; simpl in *.
    unfold seen; simpl. split_and!; [done|congruence|].
    by rewrite callsOf_app, I3, J3, app_nil_r.
  - simpl in *. pose proof (IH _ w1 I1) as (J1 & J2 & J3).
    destruct (dispatchTo ls m w1) as [w2 es2]; simpl in *.
    unfold seen in *. rewrite callsOf_app, I3; simpl.
    assert (bool_decide (ProcessListener h ∈ l :: ls)
            = bool_decide (ProcessListener h ∈ ls)) as ->.
    { apply bool_decide_ext. rewrite elem_of_cons.
      split; [intros [?|?]; [congruence|done]|by right]. }
    destruct (bool_decide (ProcessListener h ∈ ls));
      simpl in *; split_and!; congruence.
Qed.

(** ** Well-formedness is preserved *)

Lemma onStdout_worker (h : Handle) (fn : Callback) (w : World) :
  pyodideWorker (onStdout h fn w).1 = pyodideWorker w.
Proof.
  unfold onStdout. destruct (heap w !! h) as [o|]; [|done].
  by destruct (Process_onStdout fn o).
Qed.

Lemma onStderr_worker (h : Handle) (fn : Callback) (w : World) :
  pyodideWorker (onStderr h fn w).1 = pyodideWorker w.
Proof.
  unfold onStderr. destruct (heap w !! h) as [o|]; [|done].
  by destruct (Process_onStderr fn o).
Qed.

Lemma onExit_worker (h : Handle) (fn : Callback) (w : World) :
  pyodideWorker (onExit h fn w).1 = pyodideWorker w.
Proof.
  unfold onExit. destruct (heap w !! h) as [o|]; [|done].
  by destruct (Process_onExit fn o).
Qed.

Lemma kill_wf (h : Handle) (w : World) : wf w → wf (kill h w).1.
Proof.
  unfold wf, kill. intros Hw. destruct (heap w !! h) as [o|]; [|done].
  destruct o as [p|p|]; simpl; [by apply NoDup_filter..|done].
Qed.

Lemma invokeListener_wf (l : Listener) (m : PyodideWorkerResponse.t)
      (w : World) :
  wf w → wf (invokeListener l m w).1.
Proof.
  intros Hw. destruct l as [|h]; simpl.
  - unfold pyodideWorkerInitListener.
    destruct (PyodideWorkerResponse.type m); try done.
    set (w2 := set_pyodideWorker _ _).
    assert (wf w2) as Hw2 by (by apply NoDup_removeEventListener).
    pose proof (runProgram_wf (editorProgram w2) w2 Hw2) as Hw3.
    destruct (runProgram (editorProgram w2) w2) as [[h' w3] es]; simpl in *.
    pose proof (onExit_worker h' BootstrapFn w3) as Hk.
    destruct (onExit h' BootstrapFn w3) as [w4 es']; simpl in *.
    unfold wf. by rewrite Hk.
  - destruct (heap w !! h) as [o|]; [|done].
    by destruct (Process_eventListener o m).
Qed.

Lemma dispatchTo_wf (ls : list Listener) (m : PyodideWorkerResponse.t)
      (w : World) :
  wf w → wf (dispatchTo ls m w).1.
Proof.
  revert w. induction ls as [|l ls IH]; intros w Hw; [done|]. simpl.
  pose proof (invokeListener_wf l m w Hw) as Hw1.
  destruct (invokeListener l m w) as [w1 es1]; simpl in *.
  specialize (IH w1 Hw1). by destruct (dispatchTo ls m w1).
Qed.

Lemma step_wf (a : Action) (w : World) : wf w → wf (step a w).1.
Proof.
  intros Hw. destruct a; simpl.
  - by apply dispatchTo_wf.
  - pose proof (runProgram_wf program w Hw).
    by destruct (runProgram program w) as [[? ?] ?].
  - done.
  - pose proof (runImgSummary_wf program line varname w Hw).
    by destruct (runImgSummary program line varname w) as [[? ?] ?].
  - unfold wf. by rewrite onStdout_worker.
  - unfold wf. by rewrite onStderr_worker.
  - by apply kill_wf.
  - unfold wf. by rewrite onExit_worker.
Qed.

Lemma run_wf (acts : list Action) (w : World) : wf w → wf (run acts w).1.
Proof.
  revert w. induction acts as [|a acts IH]; intros w Hw; [done|]. simpl.
  pose proof (step_wf a w Hw) as Hw1.
  destruct (step a w) as [w1 es1]; simpl in *.
  specialize (IH w1 Hw1). by destruct (run acts w1).
Qed.

Lemma initialWorld_wf (program : string) : wf (initialWorld program).
Proof. unfold wf; simpl. apply NoDup_singleton. Qed.

(** ** A step and a history seen from the object at [h] *)

Lemma step_local (h : Handle) (a : Action) (o : Process) (w : World) :
  wf w →
  heap w !! h = Some o →
  seen h (step a w).1 (step a w).2 (local h a o (listening h w)).
Proof.
  intros Hw Hh. destruct a; simpl.
  - pose proof (dispatchTo_local h _ o m w Hw Hh) as Hd.
    fold (listening h w) in Hd. unfold dispatchMessage.
    destruct (listening h w); [|done].
    by destruct (Process_eventListener o m).
  - pose proof (runProgram_frame h o program w Hh).
    by destruct (runProgram program w) as [[? ?] ?].
  - by apply (synthesizeSnippet_frame h o problem w).
  - pose proof (runImgSummary_frame h o program line varname w Hh).
    by destruct (runImgSummary program line varname w) as [[? ?] ?].
  - by apply onStdout_local.
  - by apply onStderr_local.
  - by apply kill_local.
  - by apply onExit_local.
Qed.

Lemma run_local (h : Handle) (acts : list Action) (o : Process) (w : World) :
  wf w →
  heap w !! h = Some o →
  seen h (run acts w).1 (run acts w).2 (localRun h acts o (listening h w)).
Proof.
  revert o w. induction acts as [|a acts IH]; intros o w Hw Hh; [done|].
  simpl.
  pose proof (step_local h a o w Hw Hh) as (S1 & S2 & S3).
  pose proof (step_wf a w Hw) as Hw1.
  destruct (step a w) as [w1 es1]; simpl in *.
  destruct (local h a o (listening h w)) as [[o1 b1] cs1]; simpl in *.
  pose proof (IH o1 w1 Hw1 S1) as (R1 & R2 & R3). rewrite S2 in R1, R2, R3.
  destruct (run acts w1) as [w2 es2]; simpl in *.
  destruct (localRun h acts o1 b1) as [[o2 b2] cs2]; simpl in *.
  unfold seen; simpl. split_and!; [done|done|].
  by rewrite callsOf_app, S3, R3.
Qed.

Lemma sessionWorld_wf : wf sessionWorld.
Proof. apply run_wf, initialWorld_wf. Qed.

(** ** Construction once pyodide has loaded *)

Lemma increment_exact (n : nat) :
  (N.of_nat n < IDGenerator.limit)%N → IDGenerator.increment n = S n.
Proof.
  intros Hlt. unfold IDGenerator.increment.
  by destruct (N.ltb_spec (N.of_nat n) IDGenerator.limit); [|lia].
Qed.

Lemma increment_saturated (n : nat) :
  N.of_nat n = IDGenerator.limit → IDGenerator.increment n = n.
Proof.
  intros Heq. unfold IDGenerator.increment.
  by destruct (N.ltb_spec (N.of_nat n) IDGenerator.limit); [lia|].
Qed.

Lemma increment_bounded (n : nat) :
  (N.of_nat n ≤ IDGenerator.limit)%N →
  (N.of_nat (IDGenerator.increment n) ≤ IDGenerator.limit)%N.
Proof.
  intros Hle. unfold IDGenerator.increment.
  destruct (N.ltb_spec (N.of_nat n) IDGenerator.limit); lia.
Qed.

Lemma increment_below (n : nat) :
  (N.of_nat (IDGenerator.increment n) < IDGenerator.limit)%N →
  (N.of_nat n < IDGenerator.limit)%N ∧ IDGenerator.increment n = S n.
Proof.
  unfold IDGenerator.increment.
  destruct (N.ltb_spec (N.of_nat n) IDGenerator.limit); [done|lia].
Qed.

Lemma getId_increasing (g : IDGenerator.t) :
  (N.of_nat (IDGenerator.next g) < IDGenerator.limit)%N →
  (IDGenerator.getId g).1 = IDGenerator.next g
  ∧ (IDGenerator.getId g).1 < (IDGenerator.getId (IDGenerator.getId g).2).1.
Proof. intros Hlt. simpl. rewrite increment_exact by done. lia. Qed.

(** With [pyodideLoaded] set, [runProgram] saves the program, takes the
    next id, registers the listener of the new object and posts one request
    tagged with that id. *)
Lemma runProgram_loaded (program : string) (w : World) :
  pyodideLoaded w = true →
  heap (runProgram program w).1.2 !! (runProgram program w).1.1
  = Some (Runpy (RunpyProcess.mk (IDGenerator.next (idGen w))
                                 None None None None "" "" false))
  ∧ listening (runProgram program w).1.1 (runProgram program w).1.2 = true
  ∧ Worker.outbox (pyodideWorker (runProgram program w).1.2)
    = Worker.outbox (pyodideWorker w)
      ++ [RunpyWorkerRequest
            (IDGenerator.next (idGen w))
            ("program_" +:+ pretty (IDGenerator.next (idGen w)) +:+ ".py")
            program]
  ∧ IDGenerator.next (idGen (runProgram program w).1.2)
    = IDGenerator.increment (IDGenerator.next (idGen w))
  ∧ (runProgram program w).2 = [SaveProgram program].
Proof.
  intros Hl. unfold runProgram. rewrite Hl. simpl.
  split_and!; [by rewrite list_lookup_middle| | |done|done].
  - unfold listening. simpl. apply bool_decide_eq_true_2.
    apply elem_of_addEventListener. by right.
  - unfold Worker.addEventListener. by case_bool_decide.
Qed.

(** ** Demultiplexing by correlation id *)

Lemma Runpy_eventListener_other_id (p : RunpyProcess.t)
      (m : PyodideWorkerResponse.t) :
  PyodideWorkerResponse.id m ≠ RunpyProcess.id p →
  RunpyProcess.eventListener p m = (p, []).
Proof.
  intros Hne. unfold RunpyProcess.eventListener.
  by rewrite (proj2 (Nat.eqb_neq _ _) Hne).
Qed.

Lemma ImgSummary_eventListener_other_id (p : ImgSummaryProcess.t)
      (m : PyodideWorkerResponse.t) :
  PyodideWorkerResponse.id m ≠ ImgSummaryProcess.id p →
  ImgSummaryProcess.eventListener p m = (p, []).
Proof.
  intros Hne. unfold ImgSummaryProcess.eventListener.
  by rewrite (proj2 (Nat.eqb_neq _ _) Hne).
Qed.

Lemma Process_eventListener_other_id (o : Process) (i : nat)
      (m : PyodideWorkerResponse.t) :
  process_id o = Some i →
  PyodideWorkerResponse.id m ≠ i →
  Process_eventListener o m = (o, []).
Proof.
  intros Hi Hne. destruct o as [p|p|]; simplify_eq/=.
  - by rewrite Runpy_eventListener_other_id.
  - by rewrite ImgSummary_eventListener_other_id.
Qed.

Lemma dispatchTo_ignored (h : Handle) (ls : list Listener) (o : Process)
      (m : PyodideWorkerResponse.t) (w : World) :
  heap w !! h = Some o →
  Process_eventListener o m = (o, []) →
  seen h (dispatchTo ls m w).1 (dispatchTo ls m w).2 (o, listening h w, []).
Proof.
  intros Hh Hign. revert w Hh.
  induction ls as [|l ls IH]; intros w Hh; [done|]. simpl.
  pose proof (invokeListener_local h l o m w Hh) as Hi.
  rewrite Hign in Hi. simpl in Hi.
  assert (seen h (invokeListener l m w).1 (invokeListener l m w).2
               (o, listening h w, [])) as (I1 & I2 & I3)
    by (by destruct (bool_decide (l = ProcessListener h))).
  destruct (invokeListener l m w) as [w1 es1]; simpl in *.
  pose proof (IH w1 I1) as (J1 & J2 & J3).
  destruct (dispatchTo ls m w1) as [w2 es2]; simpl in *.
  unfold seen; simpl. split_and!; [done|congruence|].
  by rewrite callsOf_app, I3, J3.
Qed.

(** C1.  Two processes [hA] and [hB] hold distinct correlation ids [A] and
    [B].  When the worker delivers a response tagged [A], the listener of
    [hB] returns its object unchanged with no callback invoked, and after
    the whole dispatch the object at [hB] is the same and no callback of
    [hB] has been called. *)
Theorem C1_response_for_other_id_is_ignored
        (w : World) (hA hB : Handle) (oA oB : Process) (A B : nat)
        (m : PyodideWorkerResponse.t) :
  heap w !! hA = Some oA →
  heap w !! hB = Some oB →
  process_id oA = Some A →
  process_id oB = Some B →
  A ≠ B →
  PyodideWorkerResponse.id m = A →
  Process_eventListener oB m = (oB, [])
  ∧ heap (dispatchMessage m w).1 !! hB = Some oB
  ∧ callsOf hB (dispatchMessage m w).2 = [].
Proof.
  intros _ HB _ HiB Hne Hm.
  assert (Process_eventListener oB m = (oB, [])) as Hign.
  { apply Process_eventListener_other_id with B; congruence. }
  split; [done|].
  destruct (dispatchTo_ignored hB (Worker.listeners (pyodideWorker w))
              oB m w HB Hign) as (D1 & _ & D3).
  done.
Qed.

Lemma C1_witness :
  let m := response 1 STDOUT "chunk" in
  ∃ oB,
    heap sessionWorld !! 2 = Some oB
    ∧ process_id oB = Some 2
    ∧ Process_eventListener oB m = (oB, [])
    ∧ heap (dispatchMessage m sessionWorld).1 !! 2 = Some oB
    ∧ callsOf 2 (dispatchMessage m sessionWorld).2 = [].
Proof.
  intros m.
  destruct (heap sessionWorld !! 1) as [oA|] eqn:HA; [|vm_compute in HA; done].
  destruct (heap sessionWorld !! 2) as [oB|] eqn:HB; [|vm_compute in HB; done].
  exists oB.
  assert (process_id oA = Some 1) as HiA
    by (vm_compute in HA; by simplify_eq).
  assert (process_id oB = Some 2) as HiB
    by (vm_compute in HB; by simplify_eq).
  split; [done|]. split; [done|].
  apply (C1_response_for_other_id_is_ignored sessionWorld 1 2 oA oB 1 2 m);
    [done|done|done|done|lia|reflexivity].
Defined.

(** ** Output delivery *)

Lemma Runpy_eventListener_output (p : RunpyProcess.t)
      (m : PyodideWorkerResponse.t) :
  PyodideWorkerResponse.id m = RunpyProcess.id p →
  PyodideWorkerResponse.type m = STDOUT
  ∨ PyodideWorkerResponse.type m = STDERR →
  RunpyProcess.eventListener p m
  = (match PyodideWorkerResponse.type m with
     | STDOUT =>
         RunpyProcess.set_output
           (RunpyProcess.output p +:+ PyodideWorkerResponse.msg m) p
     | _ =>
         RunpyProcess.set_error
           (RunpyProcess.error p +:+ PyodideWorkerResponse.msg m) p
     end, []).
Proof.
  intros Hid Hty. unfold RunpyProcess.eventListener.
  rewrite Hid, Nat.eqb_refl. simpl. by destruct Hty as [-> | ->].
Qed.

Lemma Runpy_eventListener_buffers_silently (p : RunpyProcess.t)
      (m : PyodideWorkerResponse.t) :
  PyodideWorkerResponse.type m ≠ RESULT →
  (RunpyProcess.eventListener p m).2 = [].
Proof.
  intros Hty. unfold RunpyProcess.eventListener.
  destruct (negb _); [done|].
  by destruct (PyodideWorkerResponse.type m).
Qed.

Lemma Runpy_fireOnResult_firing (p : RunpyProcess.t) (r : string) :
  Runpy_firing p (RunpyProcess.fireOnResult p r).
Proof.
  unfold Runpy_firing, RunpyProcess.fireOnResult.
  destruct (RunpyProcess.onResult p) as [fn|]; [right|by left].
  exists fn, r. unfold RunpyProcess.onResultClosure, RunpyProcess.flush.
  by rewrite <- app_assoc.
Qed.

Lemma Runpy_eventListener_firing (p : RunpyProcess.t)
      (m : PyodideWorkerResponse.t) :
  Runpy_firing (RunpyProcess.eventListener p m).1
               (RunpyProcess.eventListener p m).2.
Proof.
  unfold RunpyProcess.eventListener. destruct (negb _); [by left|].
  destruct (PyodideWorkerResponse.type m); simpl; try (by left).
  apply Runpy_fireOnResult_firing.
Qed.

Lemma Runpy_onExit_firing (fn : Callback) (p : RunpyProcess.t) :
  Runpy_firing (RunpyProcess.onExit fn p).1 (RunpyProcess.onExit fn p).2.
Proof.
  unfold RunpyProcess.onExit.
  destruct (truthy_opt _); [apply Runpy_fireOnResult_firing|].
  destruct (RunpyProcess.killed _); [apply Runpy_fireOnResult_firing|].
  by left.
Qed.

Lemma local_Runpy_firing (h : Handle) (a : Action) (p : RunpyProcess.t)
      (b : bool) :
  ∃ p', (local h a (Runpy p) b).1.1 = Runpy p'
        ∧ Runpy_firing p' (local h a (Runpy p) b).2.
Proof.
  destruct a; simpl; try (exists p; split; [done|by left]).
  - destruct b; [|exists p; split; [done|by left]].
    pose proof (Runpy_eventListener_firing p m) as Hf.
    destruct (RunpyProcess.eventListener p m) as [p' cs]. by exists p'.
  - case_bool_decide; simpl; eexists; (split; [done|by left]).
  - case_bool_decide; simpl; eexists; (split; [done|by left]).
  - case_bool_decide; simpl; [|exists p; split; [done|by left]].
    eexists; split; [done|]. apply Runpy_fireOnResult_firing.
  - case_bool_decide; simpl; [|exists p; split; [done|by left]].
    pose proof (Runpy_onExit_firing fn p) as Hf.
    destruct (RunpyProcess.onExit fn p) as [p' cs]. by exists p'.
Qed.

Lemma ImgSummary_eventListener_stdout (p : ImgSummaryProcess.t)
      (m : PyodideWorkerResponse.t) :
  PyodideWorkerResponse.id m = ImgSummaryProcess.id p →
  PyodideWorkerResponse.type m = STDOUT →
  ImgSummaryProcess.eventListener p m
  = (ImgSummaryProcess.set_output
       (ImgSummaryProcess.output p +:+ PyodideWorkerResponse.msg m) p,
     call_if (ImgSummaryProcess.onOutput p)
             (λ f, OutputCall f (PyodideWorkerResponse.msg m))).
Proof.
  intros Hid Hty. unfold ImgSummaryProcess.eventListener.
  by rewrite Hid, Nat.eqb_refl, Hty.
Qed.

Lemma ImgSummary_eventListener_stderr (p : ImgSummaryProcess.t)
      (m : PyodideWorkerResponse.t) :
  PyodideWorkerResponse.id m = ImgSummaryProcess.id p →
  PyodideWorkerResponse.type m = STDERR
  ∨ PyodideWorkerResponse.type m = EXCEPTION →
  ImgSummaryProcess.eventListener p m
  = (ImgSummaryProcess.set_error
       (ImgSummaryProcess.error p +:+ PyodideWorkerResponse.msg m) p,
     call_if (ImgSummaryProcess.onError p)
             (λ f, ErrorCall f (PyodideWorkerResponse.msg m))).
Proof.
  intros Hid Hty. unfold ImgSummaryProcess.eventListener.
  rewrite Hid, Nat.eqb_refl. by destruct Hty as [-> | ->].
Qed.

Lemma dispatchMessage_local (h : Handle) (o : Process)
      (m : PyodideWorkerResponse.t) (w : World) :
  wf w →
  heap w !! h = Some o →
  heap (dispatchMessage m w).1 !! h
  = Some (if listening h w then (Process_eventListener o m).1 else o)
  ∧ callsOf h (dispatchMessage m w).2
    = (if listening h w then (Process_eventListener o m).2 else [])
  ∧ listening h (dispatchMessage m w).1 = listening h w.
Proof.
  intros Hw Hh.
  destruct (dispatchTo_local h _ o m w Hw Hh) as (D1 & D2 & D3).
  fold (listening h w) in D1, D2, D3. fold (dispatchMessage m w) in D1, D2, D3.
  by destruct (listening h w).
Qed.

(** ** Histories seen from one object: buffers *)

Lemma localRun_app (h : Handle) (acts1 acts2 : list Action) (o : Process)
      (b : bool) :
  localRun h (acts1 ++ acts2) o b
  = let '(o1, b1, cs1) := localRun h acts1 o b in
    let '(o2, b2, cs2) := localRun h acts2 o1 b1 in
    (o2, b2, cs1 ++ cs2).
Proof.
  revert o b. induction acts1 as [|a acts1 IH]; intros o b; simpl.
  - by destruct (localRun h acts2 o b) as [[? ?] ?].
  - destruct (local h a o b) as [[o1 b1] cs1]. rewrite IH.
    destruct (localRun h acts1 o1 b1) as [[o2 b2] cs2].
    destruct (localRun h acts2 o2 b2) as [[o3 b3] cs3].
    by rewrite app_assoc.
Qed.

Lemma localRun_cons (h : Handle) (a : Action) (acts : list Action)
      (o : Process) (b : bool) :
  localRun h (a :: acts) o b
  = let '(o1, b1, cs1) := local h a o b in
    let '(o2, b2, cs2) := localRun h acts o1 b1 in
    (o2, b2, cs1 ++ cs2).
Proof. reflexivity. Qed.

Lemma local_untargeted (h : Handle) (a : Action) (o : Process) :
  targets h a = false →
  local h a o false = (o, false, []).
Proof. intros Ht. destruct a; simpl in *; by try rewrite Ht. Qed.

Lemma localRun_untargeted (h : Handle) (acts : list Action) (o : Process) :
  Forall (λ a, targets h a = false) acts →
  localRun h acts o false = (o, false, []).
Proof.
  induction 1 as [|a acts Ha Hacts IH]; [done|].
  by rewrite localRun_cons, local_untargeted, IH.
Qed.

Lemma string_app_assoc (s1 s2 s3 : string) :
  (s1 +:+ s2) +:+ s3 = s1 +:+ (s2 +:+ s3).
Proof.
  induction s1 as [|c s1 IH]; [done|].
  change (String c ((s1 +:+ s2) +:+ s3) = String c (s1 +:+ (s2 +:+ s3))).
  by f_equal.
Qed.

Lemma string_app_empty_r (s : string) : s +:+ "" = s.
Proof.
  induction s as [|c s IH]; [done|].
  change (String c (s +:+ "") = String c s). by f_equal.
Qed.

Lemma stdoutFor_app (i : nat) (l1 l2 : list Action) :
  stdoutFor i (l1 ++ l2) = stdoutFor i l1 +:+ stdoutFor i l2.
Proof.
  induction l1 as [|a l1 IH]; [done|]. simpl.
  by rewrite IH, string_app_assoc.
Qed.

Lemma stderrFor_app (i : nat) (l1 l2 : list Action) :
  stderrFor i (l1 ++ l2) = stderrFor i l1 +:+ stderrFor i l2.
Proof.
  induction l1 as [|a l1 IH]; [done|]. simpl.
  by rewrite IH, string_app_assoc.
Qed.

Lemma Runpy_appended_nothing (p : RunpyProcess.t) : Runpy_appended "" "" p = p.
Proof.
  unfold Runpy_appended. rewrite !string_app_empty_r. by destruct p.
Qed.

Lemma Runpy_appended_twice (o1 e1 o2 e2 : string) (p : RunpyProcess.t) :
  Runpy_appended o2 e2 (Runpy_appended o1 e1 p)
  = Runpy_appended (o1 +:+ o2) (e1 +:+ e2) p.
Proof.
  unfold Runpy_appended. destruct p; simpl.
  by rewrite !string_app_assoc.
Qed.

(** A response that is not its result, or a call on another object, seen
    by a run-program object whose listener is registered: the chunks
    addressed to its id are appended to its buffers, and no call is made. *)
Lemma local_Runpy_buffers (h : Handle) (a : Action) (p : RunpyProcess.t) :
  targets h a = false →
  deliversResult (RunpyProcess.id p) a = false →
  local h a (Runpy p) true
  = (Runpy (Runpy_appended (stdoutChunk (RunpyProcess.id p) a)
                           (stderrChunk (RunpyProcess.id p) a) p),
     true, []).
Proof.
  intros Ht Hr.
  destruct a; simpl in *; try rewrite Ht;
    try (by rewrite Runpy_appended_nothing).
  unfold RunpyProcess.eventListener.
  destruct (Nat.eqb (PyodideWorkerResponse.id m) (RunpyProcess.id p));
    simpl; [|by rewrite Runpy_appended_nothing].
  unfold Runpy_appended.
  destruct (PyodideWorkerResponse.type m); try done; simpl;
    rewrite ?string_app_empty_r; by destruct p.
Qed.

Lemma localRun_Runpy_buffers (h : Handle) (acts : list Action)
      (p : RunpyProcess.t) :
  Forall (λ a, targets h a = false
               ∧ deliversResult (RunpyProcess.id p) a = false) acts →
  localRun h acts (Runpy p) true
  = (Runpy (Runpy_appended (stdoutFor (RunpyProcess.id p) acts)
                           (stderrFor (RunpyProcess.id p) acts) p),
     true, []).
Proof.
  revert p. induction acts as [|a acts IH]; intros p Hacts.
  - simpl. by rewrite Runpy_appended_nothing.
  - apply Forall_cons in Hacts as [[Ht Hr] Hacts].
    rewrite localRun_cons, local_Runpy_buffers by done.
    rewrite IH by exact Hacts. by rewrite Runpy_appended_twice.
Qed.

Lemma local_Runpy_onStdout (h : Handle) (fn : Callback)
      (p : RunpyProcess.t) (b : bool) :
  local h (CallOnStdout h fn) (Runpy p) b
  = (Runpy (RunpyProcess.set_onOutput (Some fn) p), b, []).
Proof. unfold local. by rewrite bool_decide_eq_true_2. Qed.

Lemma local_Runpy_onStderr (h : Handle) (fn : Callback)
      (p : RunpyProcess.t) (b : bool) :
  local h (CallOnStderr h fn) (Runpy p) b
  = (Runpy (RunpyProcess.set_onError (Some fn) p), b, []).
Proof. unfold local. by rewrite bool_decide_eq_true_2. Qed.

Lemma local_Runpy_onExit_pending (h : Handle) (fn : Callback)
      (p : RunpyProcess.t) (b : bool) :
  RunpyProcess.result p = None →
  RunpyProcess.killed p = false →
  local h (CallOnExit h fn) (Runpy p) b
  = (Runpy (RunpyProcess.set_onResult (Some fn) p), b, []).
Proof.
  intros Hr Hk. unfold local. rewrite bool_decide_eq_true_2 by done. simpl.
  unfold RunpyProcess.onExit. simpl. by rewrite Hr, Hk.
Qed.

Lemma local_Runpy_result (h : Handle) (p : RunpyProcess.t)
      (m : PyodideWorkerResponse.t) :
  PyodideWorkerResponse.id m = RunpyProcess.id p →
  PyodideWorkerResponse.type m = RESULT →
  local h (MessageEvent m) (Runpy p) true
  = (Runpy (RunpyProcess.set_result (Some (PyodideWorkerResponse.msg m)) p),
     true,
     RunpyProcess.fireOnResult
       (RunpyProcess.set_result (Some (PyodideWorkerResponse.msg m)) p)
       (PyodideWorkerResponse.msg m)).
Proof.
  intros Hid Hty. simpl. unfold RunpyProcess.eventListener.
  by rewrite Hid, Nat.eqb_refl, Hty.
Qed.

(** A run-program object whose listener is registered, in a history without
    a result for it in which the host registers the two output observers
    and calls no other method of it: the observers are stored, the buffers
    hold what has arrived for its id, and no call has been made. *)
Lemma localRun_Runpy_registered (h : Handle) (p : RunpyProcess.t)
      (fo fe : Callback) (pre mid : list Action) :
  Forall (λ a, targets h a = false
               ∧ deliversResult (RunpyProcess.id p) a = false) pre →
  Forall (λ a, targets h a = false
               ∧ deliversResult (RunpyProcess.id p) a = false) mid →
  localRun h (pre ++ [CallOnStdout h fo; CallOnStderr h fe] ++ mid)
           (Runpy p) true
  = (Runpy (Runpy_appended
              (stdoutFor (RunpyProcess.id p) (pre ++ mid))
              (stderrFor (RunpyProcess.id p) (pre ++ mid))
              (RunpyProcess.set_onError (Some fe)
                 (RunpyProcess.set_onOutput (Some fo) p))),
     true, []).
Proof.
  intros Hpre Hmid.
  rewrite localRun_app, localRun_Runpy_buffers by done.
  change ([CallOnStdout h fo; CallOnStderr h fe] ++ mid)
    with (CallOnStdout h fo :: CallOnStderr h fe :: mid).
  rewrite localRun_cons, local_Runpy_onStdout.
  rewrite localRun_cons, local_Runpy_onStderr.
  rewrite localRun_Runpy_buffers by exact Hmid.
  rewrite stdoutFor_app, stderrFor_app.
  unfold Runpy_appended. destruct p; simpl.
  by rewrite !string_app_assoc.
Qed.

(** C2.  Run-program variant: a stdout or stderr response only appends to
    the buffer and calls no observer, and registering an output observer
    only stores it; whatever happens to the process, the calls it makes in
    one step are either none or exactly one firing of the exit closure:
    the stdout buffer to the stdout observer, the stderr buffer to the
    stderr observer, then the exit callback.  So with the observers [fo],
    [fe] and the exit observer [fn] registered, nothing is called while
    output arrives, and the result response calls [fo] with all the stdout
    text received, [fe] with all the stderr text received, and then [fn].
    Image-summary variant: a stdout or stderr chunk is forwarded to the
    registered observer on arrival, and registering an observer while the
    buffer is non-empty calls it at once with the buffered text. *)
Theorem C2_output_withheld_or_streamed :
  (∀ (w : World) (h : Handle) (p : RunpyProcess.t)
     (m : PyodideWorkerResponse.t),
      wf w →
      heap w !! h = Some (Runpy p) →
      PyodideWorkerResponse.type m = STDOUT
      ∨ PyodideWorkerResponse.type m = STDERR →
      callsOf h (dispatchMessage m w).2 = []
      ∧ (listening h w = true →
         PyodideWorkerResponse.id m = RunpyProcess.id p →
         heap (dispatchMessage m w).1 !! h
         = Some (Runpy
                   match PyodideWorkerResponse.type m with
                   | STDOUT =>
                       RunpyProcess.set_output
                         (RunpyProcess.output p
                          +:+ PyodideWorkerResponse.msg m) p
                   | _ =>
                       RunpyProcess.set_error
                         (RunpyProcess.error p
                          +:+ PyodideWorkerResponse.msg m) p
                   end)))
  ∧ (∀ (w : World) (h : Handle) (p : RunpyProcess.t) (fn : Callback),
        heap w !! h = Some (Runpy p) →
        callsOf h (onStdout h fn w).2 = []
        ∧ heap (onStdout h fn w).1 !! h
          = Some (Runpy (RunpyProcess.set_onOutput (Some fn) p))
        ∧ callsOf h (onStderr h fn w).2 = []
        ∧ heap (onStderr h fn w).1 !! h
          = Some (Runpy (RunpyProcess.set_onError (Some fn) p)))
  ∧ (∀ (w : World) (h : Handle) (p : RunpyProcess.t) (a : Action),
        wf w →
        heap w !! h = Some (Runpy p) →
        ∃ p', heap (step a w).1 !! h = Some (Runpy p')
              ∧ (callsOf h (step a w).2 = []
                 ∨ ∃ fn r,
                     callsOf h (step a w).2
                     = call_if (RunpyProcess.onOutput p')
                               (λ f, OutputCall f (RunpyProcess.output p'))
                       ++ call_if (RunpyProcess.onError p')
                                  (λ f, ErrorCall f (RunpyProcess.error p'))
                       ++ [ExitCall fn (RunpyProcess.exitCode r) r]))
  ∧ (∀ (w : World) (h : Handle) (p : RunpyProcess.t) (fo fe fn : Callback)
       (pre mid post : list Action) (m : PyodideWorkerResponse.t),
        wf w →
        heap w !! h = Some (Runpy p) →
        listening h w = true →
        RunpyProcess.result p = None →
        RunpyProcess.killed p = false →
        Forall (λ a, targets h a = false
                     ∧ deliversResult (RunpyProcess.id p) a = false)
               (pre ++ mid ++ post) →
        PyodideWorkerResponse.id m = RunpyProcess.id p →
        PyodideWorkerResponse.type m = RESULT →
        callsOf h (run (pre ++ [CallOnStdout h fo; CallOnStderr h fe]
                        ++ mid ++ [CallOnExit h fn] ++ post) w).2 = []
        ∧ callsOf h (run ((pre ++ [CallOnStdout h fo; CallOnStderr h fe]
                           ++ mid ++ [CallOnExit h fn] ++ post)
                          ++ [MessageEvent m]) w).2
          = [OutputCall fo (RunpyProcess.output p
                            +:+ stdoutFor (RunpyProcess.id p)
                                          (pre ++ mid ++ post));
             ErrorCall fe (RunpyProcess.error p
                           +:+ stderrFor (RunpyProcess.id p)
                                         (pre ++ mid ++ post));
             ExitCall fn
               (if String.eqb (PyodideWorkerResponse.msg m) ""
                then JsNull else JsNum 0)
               (PyodideWorkerResponse.msg m)])
  ∧ (∀ (w : World) (h : Handle) (p : ImgSummaryProcess.t)
       (m : PyodideWorkerResponse.t),
        wf w →
        heap w !! h = Some (ImgSummary p) →
        listening h w = true →
        PyodideWorkerResponse.id m = ImgSummaryProcess.id p →
        (PyodideWorkerResponse.type m = STDOUT →
         callsOf h (dispatchMessage m w).2
         = call_if (ImgSummaryProcess.onOutput p)
                   (λ f, OutputCall f (PyodideWorkerResponse.msg m)))
        ∧ (PyodideWorkerResponse.type m = STDERR →
           callsOf h (dispatchMessage m w).2
           = call_if (ImgSummaryProcess.onError p)
                     (λ f, ErrorCall f (PyodideWorkerResponse.msg m))))
  ∧ (∀ (w : World) (h : Handle) (p : ImgSummaryProcess.t) (fn : Callback),
        heap w !! h = Some (ImgSummary p) →
        (ImgSummaryProcess.output p ≠ "" →
         callsOf h (onStdout h fn w).2
         = [OutputCall fn (ImgSummaryProcess.output p)])
        ∧ (ImgSummaryProcess.error p ≠ "" →
           callsOf h (onStderr h fn w).2
           = [ErrorCall fn (ImgSummaryProcess.error p)])).
Proof.
  split_and!.
  - intros w h p m Hw Hh Hty.
    destruct (dispatchMessage_local h _ m w Hw Hh) as (D1 & D2 & _).
    split.
    + rewrite D2. destruct (listening h w); [|done]. simpl.
      pose proof (Runpy_eventListener_buffers_silently p m) as Hs.
      destruct (RunpyProcess.eventListener p m) as [p' cs]; simpl in *.
      apply Hs. destruct Hty as [-> | ->]; done.
    + intros Hl Hid. rewrite D1, Hl. simpl.
      by rewrite (Runpy_eventListener_output p m Hid Hty).
  - intros w h p fn Hh.
    destruct (onStdout_local h h fn _ w Hh) as (O1 & _ & O3).
    destruct (onStderr_local h h fn _ w Hh) as (E1 & _ & E3).
    rewrite local_Runpy_onStdout in O1, O3.
    rewrite local_Runpy_onStderr in E1, E3. done.
  - intros w h p a Hw Hh.
    destruct (step_local h a _ w Hw Hh) as (S1 & _ & S3).
    destruct (local_Runpy_firing h a p (listening h w)) as (p' & E & F).
    exists p'. rewrite S1, S3, E. done.
  - intros w h p fo fe fn pre mid post m Hw Hh Hl Hres Hk Hacts Hid Hty.
    apply Forall_app in Hacts as [Hpre Hacts].
    apply Forall_app in Hacts as [Hmid Hpost].
    assert (localRun h (pre ++ [CallOnStdout h fo; CallOnStderr h fe]
                        ++ mid ++ [CallOnExit h fn] ++ post) (Runpy p) true
            = (Runpy (Runpy_appended
                        (stdoutFor (RunpyProcess.id p) (pre ++ mid ++ post))
                        (stderrFor (RunpyProcess.id p) (pre ++ mid ++ post))
                        (RunpyProcess.set_onResult (Some fn)
                           (RunpyProcess.set_onError (Some fe)
                              (RunpyProcess.set_onOutput (Some fo) p)))),
               true, [])) as Hrun.
    { assert (pre ++ [CallOnStdout h fo; CallOnStderr h fe]
                  ++ mid ++ [CallOnExit h fn] ++ post
              = (pre ++ [CallOnStdout h fo; CallOnStderr h fe] ++ mid)
                  ++ CallOnExit h fn :: post) as ->
        by (by rewrite <- !app_assoc).
      rewrite localRun_app, localRun_Runpy_registered by done.
      rewrite localRun_cons, local_Runpy_onExit_pending by (by destruct p).
      rewrite localRun_Runpy_buffers by exact Hpost.
      rewrite !stdoutFor_app, !stderrFor_app.
      unfold Runpy_appended. destruct p; simpl.
      by rewrite !string_app_assoc. }
    split.
    + destruct (run_local h (pre ++ [CallOnStdout h fo; CallOnStderr h fe]
                             ++ mid ++ [CallOnExit h fn] ++ post) _ w Hw Hh)
        as (_ & _ & R3).
      by rewrite R3, Hl, Hrun.
    + destruct (run_local h ((pre ++ [CallOnStdout h fo; CallOnStderr h fe]
                              ++ mid ++ [CallOnExit h fn] ++ post)
                             ++ [MessageEvent m]) _ w Hw Hh) as (_ & _ & R3).
      rewrite R3, Hl, localRun_app, Hrun.
      change ([MessageEvent m]) with (MessageEvent m :: []).
      rewrite localRun_cons, local_Runpy_result by (by destruct p).
      destruct p; simpl.
      unfold RunpyProcess.fireOnResult, RunpyProcess.onResultClosure,
        RunpyProcess.flush; simpl.
      rewrite Runpy_exitCode_truthy. unfold truthy.
      by destruct (String.eqb (PyodideWorkerResponse.msg m) "").
  - intros w h p m Hw Hh Hl Hid.
    destruct (dispatchMessage_local h _ m w Hw Hh) as (_ & D2 & _).
    rewrite D2, Hl. simpl. split; intros Hty.
    + by rewrite (ImgSummary_eventListener_stdout p m Hid Hty).
    + by rewrite (ImgSummary_eventListener_stderr p m Hid (or_introl Hty)).
  - intros w h p fn Hh. split; intros Hne%truthy_true.
    + destruct (onStdout_local h h fn _ w Hh) as (_ & _ & S3).
      rewrite S3. unfold local. rewrite bool_decide_eq_true_2 by done.
      simpl. unfold ImgSummaryProcess.onStdout. simpl. by rewrite Hne.
    + destruct (onStderr_local h h fn _ w Hh) as (_ & _ & S3).
      rewrite S3. unfold local. rewrite bool_decide_eq_true_2 by done.
      simpl. unfold ImgSummaryProcess.onStderr. simpl. by rewrite Hne.
Qed.

Lemma streamingWorld_wf : wf streamingWorld.
Proof. apply run_wf, sessionWorld_wf. Qed.

Lemma C2_witness :
  callsOf 0 (dispatchMessage (response 0 STDOUT "a") sessionWorld).2 = []
  ∧ heap (onStdout 2 (HostFn 1) sessionWorld).1 !! 2
    = Some (Runpy (RunpyProcess.mk 2 None (Some (HostFn 1)) None None
                                   "" "" false))
  ∧ (∃ p', heap (step (CallKill 0) sessionWorld).1 !! 0 = Some (Runpy p')
           ∧ (callsOf 0 (step (CallKill 0) sessionWorld).2 = []
              ∨ ∃ fn r,
                  callsOf 0 (step (CallKill 0) sessionWorld).2
                  = call_if (RunpyProcess.onOutput p')
                            (λ f, OutputCall f (RunpyProcess.output p'))
                    ++ call_if (RunpyProcess.onError p')
                               (λ f, ErrorCall f (RunpyProcess.error p'))
                    ++ [ExitCall fn (RunpyProcess.exitCode r) r]))
  ∧ callsOf 2 (run ([MessageEvent (response 2 STDOUT "early ")]
                    ++ [CallOnStdout 2 (HostFn 1); CallOnStderr 2 (HostFn 2)]
                    ++ [MessageEvent (response 2 STDOUT "out");
                        MessageEvent (response 2 STDERR "warn")]
                    ++ [CallOnExit 2 (HostFn 9)]
                    ++ [MessageEvent (response 2 STDOUT "!");
                        MessageEvent (response 1 STDOUT "other")])
                   sessionWorld).2 = []
  ∧ callsOf 2 (run (([MessageEvent (response 2 STDOUT "early ")]
                     ++ [CallOnStdout 2 (HostFn 1); CallOnStderr 2 (HostFn 2)]
                     ++ [MessageEvent (response 2 STDOUT "out");
                         MessageEvent (response 2 STDERR "warn")]
                     ++ [CallOnExit 2 (HostFn 9)]
                     ++ [MessageEvent (response 2 STDOUT "!");
                         MessageEvent (response 1 STDOUT "other")])
                    ++ [MessageEvent (response 2 RESULT "done")])
                   sessionWorld).2
    = [OutputCall (HostFn 1) "early out!";
       ErrorCall (HostFn 2) "warn";
       ExitCall (HostFn 9) (JsNum 0) "done"]
  ∧ callsOf 1 (dispatchMessage (response 1 STDOUT "b") streamingWorld).2
    = [OutputCall (HostFn 1) "b"]
  ∧ callsOf 1 (onStdout 1 (HostFn 3) streamingWorld).2
    = [OutputCall (HostFn 3) "a"].
Proof.
  destruct C2_output_withheld_or_streamed as (H1 & H2 & H3 & H4 & H5 & H6).
  pose (p := ImgSummaryProcess.mk 1 None (Some (HostFn 1)) (Some (HostFn 2))
                                  None "" "a").
  pose (q := RunpyProcess.mk 2 None None None None "" "" false).
  assert (heap streamingWorld !! 1 = Some (ImgSummary p)) as Hp
    by (vm_compute; reflexivity).
  assert (heap sessionWorld !! 2 = Some (Runpy q)) as Hq
    by (vm_compute; reflexivity).
  split; [|split; [|split; [|split; [|split; [|split]]]]].
  - eapply H1; [apply sessionWorld_wf|vm_compute; reflexivity|by left].
  - apply (proj1 (proj2 (H2 sessionWorld 2 q (HostFn 1) Hq))).
  - eapply H3; [apply sessionWorld_wf|vm_compute; reflexivity].
  - apply (proj1 (H4 sessionWorld 2 q (HostFn 1) (HostFn 2) (HostFn 9)
                     [MessageEvent (response 2 STDOUT "early ")]
                     [MessageEvent (response 2 STDOUT "out");
                      MessageEvent (response 2 STDERR "warn")]
                     [MessageEvent (response 2 STDOUT "!");
                      MessageEvent (response 1 STDOUT "other")]
                     (response 2 RESULT "done")
                     sessionWorld_wf Hq eq_refl eq_refl eq_refl
                     ltac:(repeat constructor) eq_refl eq_refl)).
  - apply (proj2 (H4 sessionWorld 2 q (HostFn 1) (HostFn 2) (HostFn 9)
                     [MessageEvent (response 2 STDOUT "early ")]
                     [MessageEvent (response 2 STDOUT "out");
                      MessageEvent (response 2 STDERR "warn")]
                     [MessageEvent (response 2 STDOUT "!");
                      MessageEvent (response 1 STDOUT "other")]
                     (response 2 RESULT "done")
                     sessionWorld_wf Hq eq_refl eq_refl eq_refl
                     ltac:(repeat constructor) eq_refl eq_refl)).
  - apply (proj1 (H5 streamingWorld 1 p (response 1 STDOUT "b")
                     streamingWorld_wf Hp eq_refl eq_refl)).
    reflexivity.
  - apply (proj1 (H6 streamingWorld 1 p (HostFn 3) Hp)).
    simpl; discriminate.
Defined.

(** ** Kill *)

Lemma exitCalls_flush (p : RunpyProcess.t) (c : Call) :
  filter (λ c, is_exit_call c = true) (RunpyProcess.flush p ++ [c])
  = filter (λ c, is_exit_call c = true) [c].
Proof.
  unfold RunpyProcess.flush.
  by destruct (RunpyProcess.onOutput p), (RunpyProcess.onError p).
Qed.

Lemma kill_Runpy_calls (w : World) (h : Handle) (p : RunpyProcess.t) :
  heap w !! h = Some (Runpy p) →
  callsOf h (kill h w).2
  = RunpyProcess.fireOnResult (RunpyProcess.set_killed true p) "".
Proof.
  intros Hh. destruct (kill_local h h _ w Hh) as (_ & _ & K3).
  rewrite K3. unfold local. by rewrite bool_decide_eq_true_2.
Qed.

(** C4.  Killing a run-program process that has received no result and
    has an exit observer [fn] registered calls [fn] exactly once, with the
    [null] status and the empty result text (after the buffers have gone
    to the registered output observers); killing an image-summary process
    has no observable effect at all, so it calls no exit observer. *)
Theorem C4_kill_before_result :
  (∀ (w : World) (h : Handle) (p : RunpyProcess.t) (fn : Callback),
      heap w !! h = Some (Runpy p) →
      RunpyProcess.result p = None →
      RunpyProcess.onResult p = Some fn →
      callsOf h (kill h w).2 = RunpyProcess.flush p ++ [ExitCall fn JsNull ""]
      ∧ exitCallsOf h (kill h w).2 = [ExitCall fn JsNull ""])
  ∧ (∀ (w : World) (h : Handle) (p : ImgSummaryProcess.t),
        heap w !! h = Some (ImgSummary p) →
        (kill h w).2 = []).
Proof.
  split.
  - intros w h p fn Hh _ Hfn.
    assert (callsOf h (kill h w).2
            = RunpyProcess.flush p ++ [ExitCall fn JsNull ""]) as Hc.
    { rewrite (kill_Runpy_calls w h p Hh).
      unfold RunpyProcess.fireOnResult; simpl. by rewrite Hfn. }
    split; [done|]. unfold exitCallsOf. by rewrite Hc, exitCalls_flush.
  - intros w h p Hh. unfold kill. by rewrite Hh.
Qed.

Lemma C4_witness :
  exitCallsOf 0 (kill 0 sessionWorld).2 = [ExitCall BootstrapFn JsNull ""]
  ∧ (kill 1 sessionWorld).2 = [].
Proof.
  destruct C4_kill_before_result as (H1 & H2). split.
  - apply (proj2 (H1 sessionWorld 0
                     (RunpyProcess.mk 0 (Some BootstrapFn) None None None
                                      "" "" false)
                     BootstrapFn eq_refl eq_refl eq_refl)).
  - apply (H2 sessionWorld 1
              (ImgSummaryProcess.mk 1 None None None None "" "")).
    reflexivity.
Defined.

(** ** Histories without a result *)

(** What one action can do to a run-program object when it is not the
    delivery of a result to a registered listener. *)
Lemma local_Runpy_no_result (h : Handle) (a : Action) (p : RunpyProcess.t)
      (b : bool) :
  b = false ∨ deliversResult (RunpyProcess.id p) a = false →
  ∃ p', (local h a (Runpy p) b).1.1 = Runpy p'
        ∧ RunpyProcess.id p' = RunpyProcess.id p
        ∧ RunpyProcess.result p' = RunpyProcess.result p
        ∧ (RunpyProcess.killed p = true → RunpyProcess.killed p' = true)
        ∧ (b = false → (local h a (Runpy p) b).1.2 = false).
Proof.
  intros Hno. destruct a; simpl; try (by exists p).
  - destruct b; [|by exists p].
    destruct Hno as [?|Hno]; [done|]. simpl in Hno.
    unfold RunpyProcess.eventListener.
    destruct (Nat.eqb (PyodideWorkerResponse.id m) (RunpyProcess.id p));
      simpl; [|by exists p].
    destruct (PyodideWorkerResponse.type m); simpl; try done;
      eexists; split_and!; done.
  - destruct (bool_decide (h0 = h)); simpl; eexists; split_and!; done.
  - destruct (bool_decide (h0 = h)); simpl; eexists; split_and!; done.
  - destruct (bool_decide (h0 = h)); simpl; eexists; split_and!; try done.
    intros _. apply bool_decide_eq_false_2.
    rewrite list_elem_of_filter. tauto.
  - destruct (bool_decide (h0 = h)); simpl; [|by exists p].
    unfold RunpyProcess.onExit. simpl.
    destruct (truthy_opt (RunpyProcess.result p)); simpl;
      [eexists; split_and!; done|].
    destruct (RunpyProcess.killed p) eqn:Hk; simpl;
      eexists; (split_and!; [done..|]); done.
Qed.

Lemma localRun_Runpy_no_result (h : Handle) (acts : list Action)
      (p : RunpyProcess.t) (b : bool) :
  b = false
  ∨ Forall (λ a, deliversResult (RunpyProcess.id p) a = false) acts →
  ∃ p', (localRun h acts (Runpy p) b).1.1 = Runpy p'
        ∧ RunpyProcess.id p' = RunpyProcess.id p
        ∧ RunpyProcess.result p' = RunpyProcess.result p
        ∧ (RunpyProcess.killed p = true → RunpyProcess.killed p' = true)
        ∧ (b = false → (localRun h acts (Runpy p) b).1.2 = false).
Proof.
  revert p b. induction acts as [|a acts IH]; intros p b Hno; simpl.
  - by exists p.
  - destruct (local_Runpy_no_result h a p b) as (p1 & E1 & I1 & R1 & K1 & B1).
    { destruct Hno as [?|Hall]; [by left|right]. by inversion Hall. }
    destruct (local h a (Runpy p) b) as [[o1 b1] cs1]; simpl in *. subst o1.
    destruct (IH p1 b1) as (p2 & E2 & I2 & R2 & K2 & B2).
    { destruct Hno as [?|Hall]; [left; auto|right].
      rewrite I1. by inversion Hall. }
    destruct (localRun h acts (Runpy p1) b1) as [[o2 b2] cs2]; simpl in *.
    exists p2. split_and!; [done|congruence|congruence|auto|auto].
Qed.

Lemma local_Runpy_kill (h : Handle) (p : RunpyProcess.t) (b : bool) :
  local h (CallKill h) (Runpy p) b
  = (Runpy (RunpyProcess.set_killed true p), false,
     RunpyProcess.fireOnResult (RunpyProcess.set_killed true p) "").
Proof.
  unfold local. rewrite bool_decide_eq_true_2 by done. simpl.
  do 2 f_equal. apply bool_decide_eq_false_2.
  rewrite list_elem_of_filter. tauto.
Qed.

Lemma Runpy_onExit_killed (fn : Callback) (p : RunpyProcess.t) :
  RunpyProcess.killed p = true →
  truthy_opt (RunpyProcess.result p) = false →
  RunpyProcess.onExit fn p
  = (RunpyProcess.set_onResult (Some fn) p,
     RunpyProcess.flush p ++ [ExitCall fn JsNull ""]).
Proof.
  intros Hk Hr. unfold RunpyProcess.onExit. simpl. by rewrite Hr, Hk.
Qed.

(** C10.  A run-program process has received no result; the history goes
    on without a result for its id until the host kills it, and then goes
    on in any way at all.  An exit observer registered afterwards is
    called during the registration itself, with the [null] status and the
    empty result text, after the stdout buffer has been handed to the
    registered stdout observer and the stderr buffer to the registered
    stderr observer.  In particular, with the output observers [fo] and
    [fe] registered before the kill, the registration calls [fo] with all
    the stdout text that arrived before the kill, [fe] with all the stderr
    text that arrived before the kill, and then the exit observer. *)
Theorem C10_exit_observer_registered_after_kill :
  (∀ (w : World) (h : Handle) (p : RunpyProcess.t)
     (before after : list Action) (fn : Callback),
      wf w →
      heap w !! h = Some (Runpy p) →
      RunpyProcess.result p = None →
      Forall (λ a, deliversResult (RunpyProcess.id p) a = false) before →
      ∃ p', heap (run (before ++ CallKill h :: after) w).1 !! h
            = Some (Runpy p')
            ∧ RunpyProcess.killed p' = true
            ∧ RunpyProcess.result p' = None
            ∧ callsOf h (onExit h fn
                           (run (before ++ CallKill h :: after) w).1).2
              = call_if (RunpyProcess.onOutput p')
                        (λ f, OutputCall f (RunpyProcess.output p'))
                ++ call_if (RunpyProcess.onError p')
                           (λ f, ErrorCall f (RunpyProcess.error p'))
                ++ [ExitCall fn JsNull ""])
  ∧ (∀ (w : World) (h : Handle) (p : RunpyProcess.t) (fo fe fn : Callback)
       (pre mid post : list Action),
        wf w →
        heap w !! h = Some (Runpy p) →
        listening h w = true →
        RunpyProcess.result p = None →
        Forall (λ a, targets h a = false
                     ∧ deliversResult (RunpyProcess.id p) a = false)
               (pre ++ mid) →
        Forall (λ a, targets h a = false) post →
        callsOf h (onExit h fn
                     (run (pre ++ [CallOnStdout h fo; CallOnStderr h fe]
                           ++ mid ++ [CallKill h] ++ post) w).1).2
        = [OutputCall fo (RunpyProcess.output p
                          +:+ stdoutFor (RunpyProcess.id p) (pre ++ mid));
           ErrorCall fe (RunpyProcess.error p
                         +:+ stderrFor (RunpyProcess.id p) (pre ++ mid));
           ExitCall fn JsNull ""]).
Proof.
  split.
  - intros w h p before after fn Hw Hh Hres Hbefore.
    destruct (run_local h (before ++ CallKill h :: after) _ w Hw Hh)
      as (R1 & _ & _).
    rewrite localRun_app in R1.
    destruct (localRun_Runpy_no_result h before p (listening h w))
      as (p1 & E1 & I1 & Res1 & _ & _); [by right|].
    destruct (localRun h before (Runpy p) (listening h w)) as [[o1 b1] cs1].
    simpl in E1. subst o1.
    rewrite localRun_cons, local_Runpy_kill in R1.
    destruct (localRun_Runpy_no_result h after
                (RunpyProcess.set_killed true p1) false)
      as (p2 & E2 & I2 & Res2 & K2 & _); [by left|].
    destruct (localRun h after (Runpy (RunpyProcess.set_killed true p1)) false)
      as [[o2 b2] cs2].
    simpl in E2, R1. subst o2.
    exists p2.
    assert (RunpyProcess.killed p2 = true) as Hk by (by apply K2).
    assert (RunpyProcess.result p2 = None) as Hr
      by (rewrite Res2; simpl; congruence).
    split_and!; [done..|].
    destruct (onExit_local h h fn _ _ R1) as (_ & _ & X3).
    rewrite X3. unfold local. rewrite bool_decide_eq_true_2 by done. simpl.
    rewrite Runpy_onExit_killed; [|done|by rewrite Hr].
    simpl. unfold RunpyProcess.flush. by rewrite <- app_assoc.
  - intros w h p fo fe fn pre mid post Hw Hh Hl Hres Hacts Hpost.
    apply Forall_app in Hacts as [Hpre Hmid].
    remember (pre ++ [CallOnStdout h fo; CallOnStderr h fe]
                  ++ mid ++ [CallKill h] ++ post) as acts eqn:Hacts.
    destruct (run_local h acts _ w Hw Hh) as (R1 & _ & _).
    assert (acts
            = (pre ++ [CallOnStdout h fo; CallOnStderr h fe] ++ mid)
                ++ CallKill h :: post) as Hsplit
      by (by rewrite Hacts, <- !app_assoc).
    rewrite Hl, Hsplit, localRun_app, localRun_Runpy_registered in R1
      by done.
    rewrite localRun_cons, local_Runpy_kill, localRun_untargeted in R1
      by done.
    rewrite <- Hsplit in R1. cbn [fst snd] in R1.
    destruct (onExit_local h h fn _ _ R1) as (_ & _ & X3).
    rewrite X3. unfold local. rewrite bool_decide_eq_true_2 by done. simpl.
    rewrite Runpy_onExit_killed; [|done|by destruct p; simpl in *; subst].
    by destruct p.
Qed.

Lemma C10_witness :
  (∃ p', heap (run ([MessageEvent (response 2 STDOUT "partial");
                     CallOnStdout 2 (HostFn 1)]
                    ++ CallKill 2 :: [MessageEvent (response 2 RESULT "late")])
                   sessionWorld).1 !! 2 = Some (Runpy p')
         ∧ RunpyProcess.killed p' = true
         ∧ RunpyProcess.result p' = None
         ∧ callsOf 2 (onExit 2 (HostFn 9)
                        (run ([MessageEvent (response 2 STDOUT "partial");
                               CallOnStdout 2 (HostFn 1)]
                              ++ CallKill 2
                              :: [MessageEvent (response 2 RESULT "late")])
                             sessionWorld).1).2
           = call_if (RunpyProcess.onOutput p')
                     (λ f, OutputCall f (RunpyProcess.output p'))
             ++ call_if (RunpyProcess.onError p')
                        (λ f, ErrorCall f (RunpyProcess.error p'))
             ++ [ExitCall (HostFn 9) JsNull ""])
  ∧ callsOf 2 (onExit 2 (HostFn 9)
                 (run ([MessageEvent (response 2 STDOUT "partial ")]
                       ++ [CallOnStdout 2 (HostFn 1); CallOnStderr 2 (HostFn 2)]
                       ++ [MessageEvent (response 2 STDOUT "output");
                           MessageEvent (response 2 EXCEPTION "Traceback")]
                       ++ [CallKill 2]
                       ++ [MessageEvent (response 2 STDOUT " lost");
                           MessageEvent (response 2 RESULT "late")])
                      sessionWorld).1).2
    = [OutputCall (HostFn 1) "partial output";
       ErrorCall (HostFn 2) "Traceback";
       ExitCall (HostFn 9) JsNull ""].
Proof.
  destruct C10_exit_observer_registered_after_kill as (H1 & H2).
  pose (q := RunpyProcess.mk 2 None None None None "" "" false).
  assert (heap sessionWorld !! 2 = Some (Runpy q)) as Hq
    by (vm_compute; reflexivity).
  split.
  - apply (H1 sessionWorld 2 q); [apply sessionWorld_wf|exact Hq|reflexivity|].
    repeat constructor.
  - apply (H2 sessionWorld 2 q (HostFn 1) (HostFn 2) (HostFn 9)
              [MessageEvent (response 2 STDOUT "partial ")]
              [MessageEvent (response 2 STDOUT "output");
               MessageEvent (response 2 EXCEPTION "Traceback")]
              [MessageEvent (response 2 STDOUT " lost");
               MessageEvent (response 2 RESULT "late")]
              sessionWorld_wf Hq eq_refl eq_refl);
      repeat constructor.
Defined.

(** ** The image-summary class and its terminal result *)

Lemma not_exit_call_if {f : Callback → Call} (slot : option Callback) :
  (∀ fn, is_exit_call (f fn) = false) →
  filter (λ c, is_exit_call c = true) (call_if slot f) = [].
Proof.
  intros Hf. destruct slot as [fn|]; [|done]. simpl.
  rewrite filter_cons_False; [done|]. by rewrite Hf.
Qed.

Lemma local_ImgSummary_no_result (h : Handle) (a : Action)
      (p : ImgSummaryProcess.t) (b : bool) :
  b = false ∨ deliversResult (ImgSummaryProcess.id p) a = false →
  ∃ p', (local h a (ImgSummary p) b).1.1 = ImgSummary p'
        ∧ ImgSummaryProcess.id p' = ImgSummaryProcess.id p
        ∧ ImgSummaryProcess.result p' = ImgSummaryProcess.result p
        ∧ (b = false → (local h a (ImgSummary p) b).1.2 = false)
        ∧ (truthy_opt (ImgSummaryProcess.result p) = false →
           filter (λ c, is_exit_call c = true) (local h a (ImgSummary p) b).2
           = []).
Proof.
  intros Hno. destruct a; simpl; try (by exists p).
  - destruct b; [|by exists p].
    destruct Hno as [?|Hno]; [done|]. simpl in Hno.
    unfold ImgSummaryProcess.eventListener.
    destruct (Nat.eqb (PyodideWorkerResponse.id m) (ImgSummaryProcess.id p));
      simpl; [|by exists p].
    destruct (PyodideWorkerResponse.type m); simpl; try done;
      eexists; (split_and!; [done..|]); intros _;
      solve [done | by apply not_exit_call_if].
  - destruct (bool_decide (h0 = h)); simpl; [|by exists p].
    unfold ImgSummaryProcess.onStdout; simpl.
    destruct (truthy (ImgSummaryProcess.output p)); simpl;
      eexists; split_and!; done.
  - destruct (bool_decide (h0 = h)); simpl; [|by exists p].
    unfold ImgSummaryProcess.onStderr; simpl.
    destruct (truthy (ImgSummaryProcess.error p)); simpl;
      eexists; split_and!; done.
  - destruct (bool_decide (h0 = h)); simpl; eexists; split_and!; try done.
    intros _. apply bool_decide_eq_false_2.
    rewrite list_elem_of_filter. tauto.
  - destruct (bool_decide (h0 = h)); simpl; [|by exists p].
    unfold ImgSummaryProcess.onExit; simpl.
    destruct (truthy_opt (ImgSummaryProcess.result p)) eqn:Ht; simpl;
      eexists; split_and!; done.
Qed.

Lemma localRun_ImgSummary_no_result (h : Handle) (acts : list Action)
      (p : ImgSummaryProcess.t) (b : bool) :
  b = false
  ∨ Forall (λ a, deliversResult (ImgSummaryProcess.id p) a = false) acts →
  ∃ p', (localRun h acts (ImgSummary p) b).1.1 = ImgSummary p'
        ∧ ImgSummaryProcess.id p' = ImgSummaryProcess.id p
        ∧ ImgSummaryProcess.result p' = ImgSummaryProcess.result p
        ∧ (b = false → (localRun h acts (ImgSummary p) b).1.2 = false)
        ∧ (truthy_opt (ImgSummaryProcess.result p) = false →
           filter (λ c, is_exit_call c = true)
                  (localRun h acts (ImgSummary p) b).2 = []).
Proof.
  revert p b. induction acts as [|a acts IH]; intros p b Hno.
  - by exists p.
  - rewrite localRun_cons.
    destruct (local_ImgSummary_no_result h a p b)
      as (p1 & E1 & I1 & R1 & B1 & X1).
    { destruct Hno as [?|Hall]; [by left|right]. by inversion Hall. }
    destruct (local h a (ImgSummary p) b) as [[o1 b1] cs1]; simpl in *.
    subst o1.
    destruct (IH p1 b1) as (p2 & E2 & I2 & R2 & B2 & X2).
    { destruct Hno as [?|Hall]; [left; auto|right].
      rewrite I1. by inversion Hall. }
    destruct (localRun h acts (ImgSummary p1) b1) as [[o2 b2] cs2];
      simpl in *.
    exists p2. split_and!; [done|congruence|congruence|auto|].
    intros Ht. rewrite filter_app, X1, X2; [done|by rewrite R1|done].
Qed.

Lemma local_ImgSummary_kill (h : Handle) (p : ImgSummaryProcess.t)
      (b : bool) :
  local h (CallKill h) (ImgSummary p) b = (ImgSummary p, false, []).
Proof.
  unfold local. rewrite bool_decide_eq_true_2 by done. simpl.
  do 2 f_equal. apply bool_decide_eq_false_2.
  rewrite list_elem_of_filter. tauto.
Qed.

(** The claim C5 as stated fails: an image summary receives its result,
    is killed, and only then is an exit observer registered; the observer
    is called during that registration. *)
Lemma C5_counterexample :
  callsOf 1 (run [MessageEvent (response 1 RESULT "summary");
                  CallKill 1;
                  CallOnExit 1 (HostFn 9)] sessionWorld).2
  = [ExitCall (HostFn 9) (JsNum 0) "summary"].
Proof. vm_compute. reflexivity. Qed.

(** C5, amended.  For the image-summary variant: when the stored result
    is absent or empty at the time of [kill], no exit observer is called
    in any history that follows, whenever it is registered; when a
    non-empty result [r] is stored, [kill] itself calls nothing, and an
    exit observer registered after [kill], whatever has happened in
    between, is called during the registration with the success status
    and [r]. *)
Theorem C5_exit_observer_after_kill_of_image_summary :
  (∀ (w : World) (h : Handle) (p : ImgSummaryProcess.t)
     (acts : list Action),
      wf w →
      heap w !! h = Some (ImgSummary p) →
      truthy_opt (ImgSummaryProcess.result p) = false →
      exitCallsOf h (run (CallKill h :: acts) w).2 = [])
  ∧ (∀ (w : World) (h : Handle) (p : ImgSummaryProcess.t) (r : string)
       (acts : list Action) (fn : Callback),
        wf w →
        heap w !! h = Some (ImgSummary p) →
        ImgSummaryProcess.result p = Some r →
        r ≠ "" →
        callsOf h (kill h w).2 = []
        ∧ callsOf h (onExit h fn (run (CallKill h :: acts) w).1).2
          = [ExitCall fn (JsNum 0) r]).
Proof.
  split.
  - intros w h p acts Hw Hh Ht.
    destruct (run_local h (CallKill h :: acts) _ w Hw Hh) as (_ & _ & R3).
    unfold exitCallsOf. rewrite R3, localRun_cons, local_ImgSummary_kill.
    destruct (localRun_ImgSummary_no_result h acts p false)
      as (p2 & _ & _ & _ & _ & X); [by left|].
    specialize (X Ht).
    by destruct (localRun h acts (ImgSummary p) false) as [[o2 b2] cs2].
  - intros w h p r acts fn Hw Hh Hr Hne.
    destruct (kill_local h h _ w Hh) as (_ & _ & K3).
    rewrite local_ImgSummary_kill in K3. split; [done|].
    destruct (run_local h (CallKill h :: acts) _ w Hw Hh) as (R1 & _ & _).
    rewrite localRun_cons, local_ImgSummary_kill in R1.
    destruct (localRun_ImgSummary_no_result h acts p false)
      as (p2 & E2 & _ & Hr2 & _ & _); [by left|].
    destruct (localRun h acts (ImgSummary p) false) as [[o2 b2] cs2].
    cbn [fst snd] in R1, E2. subst o2.
    destruct (onExit_local h h fn _ _ R1) as (_ & _ & X3).
    rewrite X3. unfold local. rewrite bool_decide_eq_true_2 by done. simpl.
    unfold ImgSummaryProcess.onExit; simpl. rewrite Hr2, Hr; simpl.
    apply truthy_true in Hne. rewrite Hne. simpl.
    unfold ImgSummaryProcess.fireOnResult; simpl.
    unfold ImgSummaryProcess.onResultClosure.
    by rewrite ImgSummary_exitCode_truthy, Hne.
Qed.

Lemma C5_witness :
  exitCallsOf 1 (run (CallKill 1
                      :: [MessageEvent (response 1 RESULT "late");
                          CallOnExit 1 (HostFn 9)]) sessionWorld).2 = []
  ∧ callsOf 1 (onExit 1 (HostFn 9)
                 (run (CallKill 1
                       :: [MessageEvent (response 1 RESULT "late");
                           CallOnStdout 1 (HostFn 1);
                           CallRunProgram "print(3)"])
                      (dispatchMessage (response 1 RESULT "summary")
                                       sessionWorld).1).1).2
    = [ExitCall (HostFn 9) (JsNum 0) "summary"].
Proof.
  destruct C5_exit_observer_after_kill_of_image_summary as (H1 & H2). split.
  - apply (H1 sessionWorld 1
              (ImgSummaryProcess.mk 1 None None None None "" ""));
      [apply sessionWorld_wf|reflexivity|reflexivity].
  - apply (H2 (dispatchMessage (response 1 RESULT "summary") sessionWorld).1 1
              (ImgSummaryProcess.mk 1 None None None (Some "summary") "" "")
              "summary"
              [MessageEvent (response 1 RESULT "late");
               CallOnStdout 1 (HostFn 1);
               CallRunProgram "print(3)"]
              (HostFn 9));
      [apply (step_wf (MessageEvent (response 1 RESULT "summary"))),
         sessionWorld_wf
      |reflexivity|reflexivity|discriminate].
Defined.

Lemma ImgSummary_eventListener_result (p : ImgSummaryProcess.t)
      (m : PyodideWorkerResponse.t) :
  PyodideWorkerResponse.id m = ImgSummaryProcess.id p →
  PyodideWorkerResponse.type m = RESULT →
  ImgSummaryProcess.eventListener p m
  = (ImgSummaryProcess.set_result (Some (PyodideWorkerResponse.msg m)) p,
     call_if (ImgSummaryProcess.onResult p)
             (λ fn, ExitCall fn (ImgSummaryProcess.exitCode
                                   (PyodideWorkerResponse.msg m))
                             (PyodideWorkerResponse.msg m))).
Proof.
  intros Hid Hty. unfold ImgSummaryProcess.eventListener.
  rewrite Hid, Nat.eqb_refl, Hty. simpl.
  unfold ImgSummaryProcess.fireOnResult. simpl.
  by destruct (ImgSummaryProcess.onResult p).
Qed.

(** C8.  For the image-summary variant, an exception response with the
    process's id appends its text to the stderr buffer and is forwarded to
    the registered stderr observer, leaving the result and the exit
    observer alone; a result response is what stores the result and calls
    the exit observer.  Hence in every history that delivers no result for
    the id of an unresolved process, the process stays without a result and
    its exit observer is never called. *)
Theorem C8_exception_does_not_resolve_image_summary :
  (∀ (p : ImgSummaryProcess.t) (m : PyodideWorkerResponse.t),
      PyodideWorkerResponse.id m = ImgSummaryProcess.id p →
      PyodideWorkerResponse.type m = EXCEPTION →
      ImgSummaryProcess.eventListener p m
      = (ImgSummaryProcess.set_error
           (ImgSummaryProcess.error p +:+ PyodideWorkerResponse.msg m) p,
         call_if (ImgSummaryProcess.onError p)
                 (λ f, ErrorCall f (PyodideWorkerResponse.msg m))))
  ∧ (∀ (p : ImgSummaryProcess.t) (m : PyodideWorkerResponse.t),
        PyodideWorkerResponse.id m = ImgSummaryProcess.id p →
        PyodideWorkerResponse.type m = RESULT →
        ImgSummaryProcess.eventListener p m
        = (ImgSummaryProcess.set_result
             (Some (PyodideWorkerResponse.msg m)) p,
           call_if (ImgSummaryProcess.onResult p)
                   (λ fn, ExitCall fn (ImgSummaryProcess.exitCode
                                         (PyodideWorkerResponse.msg m))
                                   (PyodideWorkerResponse.msg m))))
  ∧ (∀ (w : World) (h : Handle) (p : ImgSummaryProcess.t)
       (acts : list Action),
        wf w →
        heap w !! h = Some (ImgSummary p) →
        ImgSummaryProcess.result p = None →
        Forall (λ a, deliversResult (ImgSummaryProcess.id p) a = false) acts →
        (∃ p', heap (run acts w).1 !! h = Some (ImgSummary p')
               ∧ ImgSummaryProcess.result p' = None)
        ∧ exitCallsOf h (run acts w).2 = []).
Proof.
  split_and!.
  - intros p m Hid Hty.
    by apply ImgSummary_eventListener_stderr; [|right].
  - apply ImgSummary_eventListener_result.
  - intros w h p acts Hw Hh Hres Hno.
    destruct (run_local h acts _ w Hw Hh) as (R1 & _ & R3).
    destruct (localRun_ImgSummary_no_result h acts p (listening h w))
      as (p' & E & _ & Res & _ & X); [by right|].
    split.
    + exists p'. rewrite R1, E. split; [done|congruence].
    + unfold exitCallsOf. rewrite R3. apply X. by rewrite Hres.
Qed.

Lemma C8_witness :
  ImgSummaryProcess.eventListener
    (ImgSummaryProcess.mk 1 None (Some (HostFn 1)) (Some (HostFn 2))
                          None "" "a")
    (response 1 EXCEPTION "Traceback")
  = (ImgSummaryProcess.mk 1 None (Some (HostFn 1)) (Some (HostFn 2))
                          None "Traceback" "a",
     [ErrorCall (HostFn 2) "Traceback"])
  ∧ ((∃ p', heap (run [CallOnExit 1 (HostFn 9);
                       MessageEvent (response 1 EXCEPTION "Traceback");
                       MessageEvent (response 1 STDERR "more")]
                      streamingWorld).1 !! 1 = Some (ImgSummary p')
            ∧ ImgSummaryProcess.result p' = None)
     ∧ exitCallsOf 1 (run [CallOnExit 1 (HostFn 9);
                           MessageEvent (response 1 EXCEPTION "Traceback");
                           MessageEvent (response 1 STDERR "more")]
                          streamingWorld).2 = []).
Proof.
  destruct C8_exception_does_not_resolve_image_summary as (H1 & _ & H3).
  split.
  - apply (H1 (ImgSummaryProcess.mk 1 None (Some (HostFn 1)) (Some (HostFn 2))
                                    None "" "a")
              (response 1 EXCEPTION "Traceback")); reflexivity.
  - apply (H3 streamingWorld 1
              (ImgSummaryProcess.mk 1 None (Some (HostFn 1))
                                    (Some (HostFn 2)) None "" "a"));
      [apply streamingWorld_wf|reflexivity|reflexivity|repeat constructor].
Defined.

(** ** After kill *)










(** ** Classes are stable and determine the calls *)

Lemma heap_extends_refl (hp : list Process) : heap_extends hp hp.
Proof. intros h o Hh. by exists o. Qed.

Lemma heap_extends_trans (hp1 hp2 hp3 : list Process) :
  heap_extends hp1 hp2 → heap_extends hp2 hp3 → heap_extends hp1 hp3.
Proof.
  intros H12 H23 h o Hh.
  destruct (H12 h o Hh) as (o2 & Hh2 & Hc2).
  destruct (H23 h o2 Hh2) as (o3 & Hh3 & Hc3).
  exists o3. split; [done|congruence].
Qed.

Lemma effects_allowed_mono (hp hp' : list Process) (es : list Effect) :
  heap_extends hp hp' → effects_allowed hp es → effects_allowed hp' es.
Proof.
  intros Hext Hes h c Hin.
  destruct (Hes h c Hin) as (o & Hh & Hc).
  destruct (Hext h o Hh) as (o' & Hh' & Hc').
  exists o'. split; [done|]. by rewrite Hc'.
Qed.

Lemma effects_allowed_app (hp : list Process) (es1 es2 : list Effect) :
  effects_allowed hp es1 → effects_allowed hp es2 →
  effects_allowed hp (es1 ++ es2).
Proof.
  intros H1 H2 h c [Hin|Hin]%elem_of_app; [by apply H1|by apply H2].
Qed.

Lemma step_ok_refl (w : World) : step_ok w w [].
Proof.
  split; [apply heap_extends_refl|]. intros h c Hin. by apply elem_of_nil in Hin.
Qed.

Lemma step_ok_trans (w w1 w2 : World) (es1 es2 : list Effect) :
  step_ok w w1 es1 → step_ok w1 w2 es2 → step_ok w w2 (es1 ++ es2).
Proof.
  intros [E1 A1] [E2 A2]. split; [by eapply heap_extends_trans|].
  apply effects_allowed_app; [by eapply effects_allowed_mono|done].
Qed.

Lemma step_ok_alloc (o : Process) (w : World) :
  step_ok w (alloc o w).2 [].
Proof.
  split.
  - intros h o1 Hh. exists o1. split; [by apply lookup_app_l_Some|done].
  - intros h c Hin. by apply elem_of_nil in Hin.
Qed.

Lemma step_ok_store (h : Handle) (o o' : Process) (cs : list Call)
      (w w' : World) :
  heap w' = heap w →
  heap w !! h = Some o →
  classOf o' = classOf o →
  Forall (call_allowed (classOf o)) cs →
  step_ok w (store h o' w') (Invoked h <$> cs).
Proof.
  intros Hhp Hh Hc Hcs.
  split; unfold store, set_heap; cbn [heap]; rewrite Hhp.
  - intros h1 o1 Hh1. destruct (decide (h1 = h)) as [->|Hne].
    + exists o'. rewrite list_lookup_insert_eq by (by eapply lookup_lt_Some).
      split; [done|congruence].
    + exists o1. by rewrite list_lookup_insert_ne.
  - intros h1 c (c' & Heq & Hin)%list_elem_of_fmap. simplify_eq.
    exists o'. rewrite list_lookup_insert_eq by (by eapply lookup_lt_Some).
    split; [done|]. rewrite Hc. by eapply Forall_forall in Hcs.
Qed.

Lemma Runpy_fireOnResult_allowed (p : RunpyProcess.t) (r : string) :
  Forall (call_allowed RunpyClass) (RunpyProcess.fireOnResult p r).
Proof.
  unfold RunpyProcess.fireOnResult, RunpyProcess.onResultClosure,
    RunpyProcess.flush.
  destruct (RunpyProcess.onResult p), (RunpyProcess.onOutput p),
    (RunpyProcess.onError p); repeat constructor.
Qed.

Lemma ImgSummary_fireOnResult_allowed (p : ImgSummaryProcess.t) (r : string) :
  Forall (call_allowed ImgSummaryClass) (ImgSummaryProcess.fireOnResult p r).
Proof.
  unfold ImgSummaryProcess.fireOnResult, ImgSummaryProcess.onResultClosure.
  destruct (ImgSummaryProcess.onResult p); repeat constructor.
Qed.

Lemma call_if_allowed (k : ProcessClass) (slot : option Callback)
      (f : Callback → Call) :
  (∀ fn, call_allowed k (f fn)) → Forall (call_allowed k) (call_if slot f).
Proof. intros Hf. destruct slot; repeat constructor. apply Hf. Qed.

Lemma Process_eventListener_allowed (o : Process)
      (m : PyodideWorkerResponse.t) :
  classOf (Process_eventListener o m).1 = classOf o
  ∧ Forall (call_allowed (classOf o)) (Process_eventListener o m).2.
Proof.
  destruct o as [p|p|]; simpl; [| |by split].
  - unfold RunpyProcess.eventListener.
    destruct (negb _); [by split|].
    destruct (PyodideWorkerResponse.type m); simpl; try (by split).
    split; [done|apply Runpy_fireOnResult_allowed].
  - unfold ImgSummaryProcess.eventListener.
    destruct (negb _); [by split|].
    destruct (PyodideWorkerResponse.type m); simpl; try (by split);
      (split; [done|]);
      solve [apply ImgSummary_fireOnResult_allowed
            | by apply call_if_allowed].
Qed.

Lemma Process_onStdout_allowed (fn : Callback) (o : Process) :
  classOf (Process_onStdout fn o).1 = classOf o
  ∧ Forall (call_allowed (classOf o)) (Process_onStdout fn o).2.
Proof.
  destruct o as [p|p|]; simpl; [by split| |by split].
  unfold ImgSummaryProcess.onStdout. simpl.
  destruct (truthy _); simpl; split; repeat constructor.
Qed.

Lemma Process_onStderr_allowed (fn : Callback) (o : Process) :
  classOf (Process_onStderr fn o).1 = classOf o
  ∧ Forall (call_allowed (classOf o)) (Process_onStderr fn o).2.
Proof.
  destruct o as [p|p|]; simpl; [by split| |by split].
  unfold ImgSummaryProcess.onStderr. simpl.
  destruct (truthy _); simpl; split; repeat constructor.
Qed.

Lemma Process_onExit_allowed (fn : Callback) (o : Process) :
  classOf (Process_onExit fn o).1 = classOf o
  ∧ Forall (call_allowed (classOf o)) (Process_onExit fn o).2.
Proof.
  destruct o as [p|p|]; simpl; [| |by split].
  - unfold RunpyProcess.onExit. simpl.
    destruct (truthy_opt _); simpl;
      [split; [done|apply Runpy_fireOnResult_allowed]|].
    destruct (RunpyProcess.killed p); simpl;
      [split; [done|apply Runpy_fireOnResult_allowed]|by split].
  - unfold ImgSummaryProcess.onExit. simpl.
    destruct (truthy_opt _); simpl;
      [split; [done|apply ImgSummary_fireOnResult_allowed]|by split].
Qed.

Lemma Process_kill_allowed (h : Handle) (o : Process) (k : Worker.t) :
  classOf (Process_kill h o k).1.1 = classOf o
  ∧ Forall (call_allowed (classOf o)) (Process_kill h o k).2.
Proof.
  destruct o as [p|p|]; simpl; [|by split|by split].
  split; [done|apply Runpy_fireOnResult_allowed].
Qed.

Lemma onStdout_ok (h : Handle) (fn : Callback) (w : World) :
  step_ok w (onStdout h fn w).1 (onStdout h fn w).2.
Proof.
  unfold onStdout. destruct (heap w !! h) as [o|] eqn:Hh;
    [|apply step_ok_refl].
  destruct (Process_onStdout_allowed fn o) as [Hc Hcs].
  destruct (Process_onStdout fn o) as [o' cs]. by eapply step_ok_store.
Qed.

Lemma onStderr_ok (h : Handle) (fn : Callback) (w : World) :
  step_ok w (onStderr h fn w).1 (onStderr h fn w).2.
Proof.
  unfold onStderr. destruct (heap w !! h) as [o|] eqn:Hh;
    [|apply step_ok_refl].
  destruct (Process_onStderr_allowed fn o) as [Hc Hcs].
  destruct (Process_onStderr fn o) as [o' cs]. by eapply step_ok_store.
Qed.

Lemma onExit_ok (h : Handle) (fn : Callback) (w : World) :
  step_ok w (onExit h fn w).1 (onExit h fn w).2.
Proof.
  unfold onExit. destruct (heap w !! h) as [o|] eqn:Hh;
    [|apply step_ok_refl].
  destruct (Process_onExit_allowed fn o) as [Hc Hcs].
  destruct (Process_onExit fn o) as [o' cs]. by eapply step_ok_store.
Qed.

Lemma kill_ok (h : Handle) (w : World) :
  step_ok w (kill h w).1 (kill h w).2.
Proof.
  unfold kill. destruct (heap w !! h) as [o|] eqn:Hh;
    [|apply step_ok_refl].
  destruct (Process_kill_allowed h o (pyodideWorker w)) as [Hc Hcs].
  destruct (Process_kill h o (pyodideWorker w)) as [[o' k'] cs].
  by eapply step_ok_store.
Qed.

Lemma no_calls_allowed (hp : list Process) (es : list Effect) :
  (∀ h c, Invoked h c ∉ es) → effects_allowed hp es.
Proof. intros Hes h c Hin. by destruct (Hes h c). Qed.

Lemma runProgram_ok (program : string) (w : World) :
  step_ok w (runProgram program w).1.2 (runProgram program w).2.
Proof.
  unfold runProgram. destruct (pyodideLoaded w); simpl.
  - split.
    + intros h o Hh. exists o. split; [by apply lookup_app_l_Some|done].
    + apply no_calls_allowed. intros h c Hin.
      apply list_elem_of_singleton in Hin. done.
  - apply (step_ok_alloc Synth w).
Qed.

Lemma runImgSummary_ok (program : string) (line : Z) (varname : string)
      (w : World) :
  step_ok w (runImgSummary program line varname w).1.2
          (runImgSummary program line varname w).2.
Proof.
  unfold runImgSummary. destruct (pyodideLoaded w); simpl.
  - split.
    + intros h o Hh. exists o. split; [by apply lookup_app_l_Some|done].
    + apply no_calls_allowed. intros h c Hin. by apply elem_of_nil in Hin.
  - apply (step_ok_alloc Synth w).
Qed.

Lemma invokeListener_ok (l : Listener) (m : PyodideWorkerResponse.t)
      (w : World) :
  step_ok w (invokeListener l m w).1 (invokeListener l m w).2.
Proof.
  destruct l as [|h]; simpl.
  - unfold pyodideWorkerInitListener.
    destruct (PyodideWorkerResponse.type m);
      try (split; [apply heap_extends_refl|];
           apply no_calls_allowed; intros h c Hin;
           repeat (apply elem_of_cons in Hin as [?|Hin]; [done|]);
           by apply elem_of_nil in Hin).
    set (w2 := set_pyodideWorker _ _).
    pose proof (runProgram_ok (editorProgram w2) w2) as Hr.
    destruct (runProgram (editorProgram w2) w2) as [[h' w3] es]; simpl in *.
    pose proof (onExit_ok h' BootstrapFn w3) as Hx.
    destruct (onExit h' BootstrapFn w3) as [w4 es']; simpl in *.
    assert (step_ok w w2 []) as H0.
    { split; [apply heap_extends_refl|]. apply no_calls_allowed.
      intros h c Hin. by apply elem_of_nil in Hin. }
    pose proof (step_ok_trans _ _ _ _ _ (step_ok_trans _ _ _ _ _ H0 Hr) Hx)
      as [E A].
    split; [done|]. intros h c Hin.
    apply elem_of_cons in Hin as [?|Hin]; [done|]. by apply A.
  - destruct (heap w !! h) as [o|] eqn:Hh; [|apply step_ok_refl].
    destruct (Process_eventListener_allowed o m) as [Hc Hcs].
    destruct (Process_eventListener o m) as [o' cs]. by eapply step_ok_store.
Qed.

Lemma dispatchTo_ok (ls : list Listener) (m : PyodideWorkerResponse.t)
      (w : World) :
  step_ok w (dispatchTo ls m w).1 (dispatchTo ls m w).2.
Proof.
  revert w. induction ls as [|l ls IH]; intros w; [apply step_ok_refl|].
  simpl. pose proof (invokeListener_ok l m w) as H1.
  destruct (invokeListener l m w) as [w1 es1]; simpl in *.
  specialize (IH w1). destruct (dispatchTo ls m w1) as [w2 es2]; simpl in *.
  by eapply step_ok_trans.
Qed.

Lemma step_step_ok (a : Action) (w : World) :
  step_ok w (step a w).1 (step a w).2.
Proof.
  destruct a; simpl.
  - apply dispatchTo_ok.
  - pose proof (runProgram_ok program w).
    by destruct (runProgram program w) as [[? ?] ?].
  - apply (step_ok_alloc Synth w).
  - pose proof (runImgSummary_ok program line varname w).
    by destruct (runImgSummary program line varname w) as [[? ?] ?].
  - apply onStdout_ok.
  - apply onStderr_ok.
  - apply kill_ok.
  - apply onExit_ok.
Qed.

Lemma run_step_ok (acts : list Action) (w : World) :
  step_ok w (run acts w).1 (run acts w).2.
Proof.
  revert w. induction acts as [|a acts IH]; intros w; [apply step_ok_refl|].
  simpl. pose proof (step_step_ok a w) as H1.
  destruct (step a w) as [w1 es1]; simpl in *.
  specialize (IH w1). destruct (run acts w1) as [w2 es2]; simpl in *.
  by eapply step_ok_trans.
Qed.

(** ** The exit status *)

(** C9.  Whenever an exit observer is called as [fn(code, res)] in a
    history, [code] is [0] exactly when [res] is non-empty; when [res] is
    empty, a run-program process passes [null] and an image-summary process
    passes [1] (and these are the only two classes that call one). *)
Theorem C9_exit_status_encoding
        (w : World) (acts : list Action) (h : Handle) (fn : Callback)
        (code : ExitCode) (res : string) :
  Invoked h (ExitCall fn code res) ∈ (run acts w).2 →
  (code = JsNum 0 ↔ res ≠ "")
  ∧ (((∃ p, heap (run acts w).1 !! h = Some (Runpy p))
      ∧ (res = "" → code = JsNull))
     ∨ ((∃ p, heap (run acts w).1 !! h = Some (ImgSummary p))
        ∧ (res = "" → code = JsNum 1))).
Proof.
  intros Hin. destruct (run_step_ok acts w) as [_ Hall].
  destruct (Hall h _ Hin) as (o & Hh & Hc).
  destruct o as [p|p|]; simpl in Hc; [| |done]; simplify_eq.
  - rewrite Runpy_exitCode_truthy. destruct (truthy res) eqn:Ht.
    + apply truthy_true in Ht. split; [done|]. left. split; [by exists p|done].
    + apply truthy_false in Ht. split; [done|]. left. split; [by exists p|done].
  - rewrite ImgSummary_exitCode_truthy. destruct (truthy res) eqn:Ht.
    + apply truthy_true in Ht. split; [done|]. right. split; [by exists p|done].
    + apply truthy_false in Ht. split; [done|]. right.
      split; [by exists p|done].
Qed.

Lemma C9_witness :
  (JsNull = JsNum 0 ↔ "" ≠ "")
  ∧ (((∃ p, heap (run [MessageEvent (response 0 RESULT "")] sessionWorld).1
            !! 0 = Some (Runpy p))
      ∧ ("" = "" → JsNull = JsNull))
     ∨ ((∃ p, heap (run [MessageEvent (response 0 RESULT "")] sessionWorld).1
              !! 0 = Some (ImgSummary p))
        ∧ ("" = "" → JsNull = JsNum 1))).
Proof.
  apply (C9_exit_status_encoding sessionWorld
           [MessageEvent (response 0 RESULT "")] 0 BootstrapFn JsNull "").
  vm_compute. apply list_elem_of_In. simpl. auto.
Defined.

(** ** Before pyodide has loaded *)

Lemma store_same (h : Handle) (o : Process) (w : World) :
  heap w !! h = Some o → store h o w = w.
Proof.
  intros Hh. destruct w as [g k b hp e]. unfold store, set_heap; simpl in *.
  f_equal. by apply list_insert_id.
Qed.

Lemma classOf_Synth (o : Process) : classOf o = SynthClass → o = Synth.
Proof. by destruct o. Qed.

(** C7.  While [pyodideLoaded] is false, [runProgram] and [runImgSummary]
    return a new [SynthProcess] and do nothing else: the worker's listeners
    and posted requests, the id source and the observable effects are
    untouched.  On a [SynthProcess], [kill], [onStdout], [onStderr] and
    [onExit] leave the whole state as it is and call nothing, and in no
    later history is any callback ever called for it. *)
Theorem C7_placeholder_until_loaded :
  (∀ (w : World) (program : string) (line : Z) (varname : string),
      pyodideLoaded w = false →
      (heap (runProgram program w).1.2 !! (runProgram program w).1.1
       = Some Synth
       ∧ pyodideWorker (runProgram program w).1.2 = pyodideWorker w
       ∧ idGen (runProgram program w).1.2 = idGen w
       ∧ (runProgram program w).2 = [])
      ∧ (heap (runImgSummary program line varname w).1.2
         !! (runImgSummary program line varname w).1.1 = Some Synth
         ∧ pyodideWorker (runImgSummary program line varname w).1.2
           = pyodideWorker w
         ∧ idGen (runImgSummary program line varname w).1.2 = idGen w
         ∧ (runImgSummary program line varname w).2 = []))
  ∧ (∀ (w : World) (h : Handle) (fn : Callback),
        heap w !! h = Some Synth →
        kill h w = (w, [])
        ∧ onStdout h fn w = (w, [])
        ∧ onStderr h fn w = (w, [])
        ∧ onExit h fn w = (w, []))
  ∧ (∀ (w : World) (h : Handle) (acts : list Action),
        heap w !! h = Some Synth →
        heap (run acts w).1 !! h = Some Synth
        ∧ callsOf h (run acts w).2 = []).
Proof.
  split_and!.
  - intros w program line varname Hl.
    unfold runProgram, runImgSummary. rewrite Hl. simpl.
    by rewrite list_lookup_middle.
  - intros w h fn Hh.
    unfold kill, onStdout, onStderr, onExit. rewrite Hh. simpl.
    assert (set_pyodideWorker (pyodideWorker w) w = w) as -> by (by destruct w).
    by rewrite (store_same h Synth w Hh).
  - intros w h acts Hh. destruct (run_step_ok acts w) as [Hext Hall].
    destruct (Hext h Synth Hh) as (o' & Hh' & Hc').
    apply classOf_Synth in Hc'. subst o'. split; [done|].
    destruct (callsOf h (run acts w).2) as [|c cs] eqn:Hcs; [done|].
    assert (c ∈ callsOf h (run acts w).2) as Hin
      by (rewrite Hcs; apply list_elem_of_here).
    apply elem_of_callsOf in Hin.
    destruct (Hall h c Hin) as (o & Ho & Hc). rewrite Hh' in Ho.
    by simplify_eq.
Qed.

Lemma C7_witness :
  ((heap (runProgram "print(1)" (initialWorld "print(1)")).1.2
    !! (runProgram "print(1)" (initialWorld "print(1)")).1.1 = Some Synth
    ∧ pyodideWorker (runProgram "print(1)" (initialWorld "print(1)")).1.2
      = pyodideWorker (initialWorld "print(1)")
    ∧ idGen (runProgram "print(1)" (initialWorld "print(1)")).1.2
      = idGen (initialWorld "print(1)")
    ∧ (runProgram "print(1)" (initialWorld "print(1)")).2 = [])
   ∧ (heap (runImgSummary "print(1)" 1 "x" (initialWorld "print(1)")).1.2
      !! (runImgSummary "print(1)" 1 "x" (initialWorld "print(1)")).1.1
      = Some Synth
      ∧ pyodideWorker
          (runImgSummary "print(1)" 1 "x" (initialWorld "print(1)")).1.2
        = pyodideWorker (initialWorld "print(1)")
      ∧ idGen (runImgSummary "print(1)" 1 "x" (initialWorld "print(1)")).1.2
        = idGen (initialWorld "print(1)")
      ∧ (runImgSummary "print(1)" 1 "x" (initialWorld "print(1)")).2 = []))
  ∧ (kill 0 earlyWorld = (earlyWorld, [])
     ∧ onStdout 0 (HostFn 1) earlyWorld = (earlyWorld, [])
     ∧ onStderr 0 (HostFn 1) earlyWorld = (earlyWorld, [])
     ∧ onExit 0 (HostFn 1) earlyWorld = (earlyWorld, []))
  ∧ (heap (run [CallOnExit 0 (HostFn 1);
                MessageEvent (response 0 LOADED "");
                MessageEvent (response 0 RESULT "r");
                CallKill 0] earlyWorld).1 !! 0 = Some Synth
     ∧ callsOf 0 (run [CallOnExit 0 (HostFn 1);
                       MessageEvent (response 0 LOADED "");
                       MessageEvent (response 0 RESULT "r");
                       CallKill 0] earlyWorld).2 = []).
Proof.
  destruct C7_placeholder_until_loaded as (H1 & H2 & H3).
  split; [|split].
  - apply (H1 (initialWorld "print(1)")). reflexivity.
  - apply (H2 earlyWorld 0 (HostFn 1)). reflexivity.
  - apply (H3 earlyWorld 0). reflexivity.
Defined.

(** ** Registering the exit observer *)

Lemma exitCalls_Runpy_fire (p : RunpyProcess.t) (fn : Callback) (r : string) :
  RunpyProcess.onResult p = Some fn →
  filter (λ c, is_exit_call c = true) (RunpyProcess.fireOnResult p r)
  = [ExitCall fn (RunpyProcess.exitCode r) r].
Proof.
  intros Hfn. unfold RunpyProcess.fireOnResult. rewrite Hfn.
  unfold RunpyProcess.onResultClosure. by rewrite exitCalls_flush.
Qed.

Lemma Runpy_eventListener_result (p : RunpyProcess.t)
      (m : PyodideWorkerResponse.t) :
  PyodideWorkerResponse.id m = RunpyProcess.id p →
  PyodideWorkerResponse.type m = RESULT →
  RunpyProcess.eventListener p m
  = (RunpyProcess.set_result (Some (PyodideWorkerResponse.msg m)) p,
     RunpyProcess.fireOnResult
       (RunpyProcess.set_result (Some (PyodideWorkerResponse.msg m)) p)
       (PyodideWorkerResponse.msg m)).
Proof.
  intros Hid Hty. unfold RunpyProcess.eventListener.
  by rewrite Hid, Nat.eqb_refl, Hty.
Qed.

(** X14.  Registered after a non-empty result has been stored, the exit
    observer is called during the registration, exactly once, with the
    success status and the stored result (both classes). *)
Lemma onExit_after_result (w : World) (h : Handle) (o : Process)
      (r : string) (fn : Callback) :
  heap w !! h = Some o →
  process_result o = Some r →
  r ≠ "" →
  exitCallsOf h (onExit h fn w).2 = [ExitCall fn (JsNum 0) r].
Proof.
  intros Hh Hr Hne%truthy_true.
  destruct (onExit_local h h fn _ w Hh) as (_ & _ & X3).
  unfold exitCallsOf. rewrite X3. unfold local.
  rewrite bool_decide_eq_true_2 by done.
  destruct o as [p|p|]; simpl in *; [| |done].
  - unfold RunpyProcess.onExit; simpl. rewrite Hr; simpl. rewrite Hne; simpl.
    rewrite (exitCalls_Runpy_fire _ fn) by done.
    by rewrite Runpy_exitCode_truthy, Hne.
  - unfold ImgSummaryProcess.onExit; simpl. rewrite Hr; simpl.
    rewrite Hne; simpl. unfold ImgSummaryProcess.fireOnResult; simpl.
    unfold ImgSummaryProcess.onResultClosure.
    by rewrite ImgSummary_exitCode_truthy, Hne.
Qed.

(** X15.  Registered before the result, the exit observer of a process
    whose listener is registered is called exactly once by the dispatch of
    the result response, with that result and with the status [0] when the
    result is not the empty string, and otherwise [null] for a run-program
    process and [1] for an image summary; and the result is stored. *)
Lemma onExit_before_result (w : World) (h : Handle) (o : Process) (i : nat)
      (fn : Callback) (m : PyodideWorkerResponse.t) :
  wf w →
  heap w !! h = Some o →
  process_id o = Some i →
  process_onResult o = Some fn →
  listening h w = true →
  PyodideWorkerResponse.id m = i →
  PyodideWorkerResponse.type m = RESULT →
  exitCallsOf h (dispatchMessage m w).2
  = [ExitCall fn
       (if String.eqb (PyodideWorkerResponse.msg m) "" then
          match o with Runpy _ => JsNull | _ => JsNum 1 end
        else JsNum 0)
       (PyodideWorkerResponse.msg m)]
  ∧ process_result
      <$> heap (dispatchMessage m w).1 !! h
    = Some (Some (PyodideWorkerResponse.msg m)).
Proof.
  intros Hw Hh Hi Hfn Hl Hid Hty.
  destruct (dispatchMessage_local h o m w Hw Hh) as (D1 & D2 & _).
  unfold exitCallsOf. rewrite D1, D2, Hl.
  destruct o as [p|p|]; simpl in *; [| |done]; simplify_eq.
  - rewrite (Runpy_eventListener_result p m (eq_sym Hi) Hty); simpl.
    rewrite (exitCalls_Runpy_fire _ fn) by done.
    rewrite Runpy_exitCode_truthy. unfold truthy.
    by destruct (String.eqb (PyodideWorkerResponse.msg m) "").
  - rewrite (ImgSummary_eventListener_result p m (eq_sym Hi) Hty); simpl.
    rewrite Hfn; simpl. unfold ImgSummaryProcess.onResultClosure.
    rewrite ImgSummary_exitCode_truthy. unfold truthy.
    by destruct (String.eqb (PyodideWorkerResponse.msg m) "").
Qed.

Lemma Runpy_onExit_empty_result (fn : Callback) (p : RunpyProcess.t) :
  RunpyProcess.result p = Some "" →
  RunpyProcess.killed p = false →
  RunpyProcess.onExit fn p = (RunpyProcess.set_onResult (Some fn) p, []).
Proof.
  intros Hr Hk. unfold RunpyProcess.onExit; simpl. by rewrite Hr, Hk.
Qed.

Lemma ImgSummary_onExit_empty_result (fn : Callback)
      (p : ImgSummaryProcess.t) :
  ImgSummaryProcess.result p = Some "" →
  ImgSummaryProcess.onExit fn p
  = (ImgSummaryProcess.set_onResult (Some fn) p, []).
Proof. intros Hr. unfold ImgSummaryProcess.onExit; simpl. by rewrite Hr. Qed.

(** C3 does not hold on the code when the terminal result is the empty
    string.  An image summary (handle 1) and a run (handle 2) each receive
    the result [""], which is stored; an exit observer registered afterwards
    is not called, neither during the registration nor by later output for
    the same id.  Registered before the same response, the observer is
    called with the failure status and [""]. *)
Theorem C3_empty_result_is_not_replayed :
  (process_result
     <$> heap (run [MessageEvent (response 1 RESULT "")] sessionWorld).1 !! 1
   = Some (Some "")
   ∧ callsOf 1 (run [MessageEvent (response 1 RESULT "");
                     CallOnExit 1 (HostFn 9);
                     MessageEvent (response 1 STDOUT "tail")]
                    sessionWorld).2 = []
   ∧ callsOf 1 (run [CallOnExit 1 (HostFn 9);
                     MessageEvent (response 1 RESULT "")] sessionWorld).2
     = [ExitCall (HostFn 9) (JsNum 1) ""])
  ∧ (process_result
       <$> heap (run [MessageEvent (response 2 RESULT "")] sessionWorld).1 !! 2
     = Some (Some "")
     ∧ callsOf 2 (run [MessageEvent (response 2 RESULT "");
                       CallOnExit 2 (HostFn 9);
                       MessageEvent (response 2 STDOUT "tail")]
                      sessionWorld).2 = []
     ∧ callsOf 2 (run [CallOnExit 2 (HostFn 9);
                       MessageEvent (response 2 RESULT "")] sessionWorld).2
       = [ExitCall (HostFn 9) JsNull ""]).
Proof. vm_compute. split_and!; reflexivity. Qed.

(** * Further properties of the module *)

(** ** The identifier source *)

Lemma takeIds_spec (n : nat) (g : IDGenerator.t) :
  (N.of_nat (IDGenerator.next g + n) ≤ IDGenerator.limit)%N →
  takeIds n g
  = (seq (IDGenerator.next g) n, IDGenerator.mk (IDGenerator.next g + n)).
Proof.
  revert g. induction n as [|n IH]; intros [k]; simpl; intros Hle.
  - by rewrite Nat.add_0_r.
  - rewrite increment_exact by lia. rewrite IH by (simpl; lia).
    simpl. do 3 f_equal. lia.
Qed.

Lemma takeIds_saturated (n : nat) (g : IDGenerator.t) :
  N.of_nat (IDGenerator.next g) = IDGenerator.limit →
  takeIds n g = (replicate n (IDGenerator.next g), g).
Proof.
  intros Hle. induction n as [|n IH]; [done|]. destruct g as [k].
  simpl in *. rewrite increment_saturated by done. by rewrite IH.
Qed.

Lemma takeIds_bounded (n : nat) (g : IDGenerator.t) :
  (N.of_nat (IDGenerator.next g) ≤ IDGenerator.limit)%N →
  (N.of_nat (IDGenerator.next (takeIds n g).2) ≤ IDGenerator.limit)%N.
Proof.
  revert g. induction n as [|n IH]; intros [k] Hle; [done|]. simpl.
  specialize (IH (IDGenerator.mk (IDGenerator.increment k))
                 (increment_bounded k Hle)).
  by destruct (takeIds n (IDGenerator.mk (IDGenerator.increment k))).
Qed.

(** X1.  As long as the number [n] of calls is at most [2^53], [n] calls of
    [getId] on a fresh source return [0, 1, ..., n-1] in this order, so the
    values are pairwise distinct and strictly increasing, and the source is
    left at [n].  The source never passes [2^53], and once it has reached
    [2^53] it stays there: from then on every call returns the same
    value. *)
Theorem getId_sequence :
  (∀ n, (N.of_nat n ≤ IDGenerator.limit)%N →
        (takeIds n IDGenerator.new).1 = seq 0 n
        ∧ NoDup (takeIds n IDGenerator.new).1
        ∧ (∀ j k a b, j < k →
                      (takeIds n IDGenerator.new).1 !! j = Some a →
                      (takeIds n IDGenerator.new).1 !! k = Some b → a < b)
        ∧ IDGenerator.next (takeIds n IDGenerator.new).2 = n)
  ∧ (∀ n, (N.of_nat (IDGenerator.next (takeIds n IDGenerator.new).2)
            ≤ IDGenerator.limit)%N)
  ∧ (∀ n g, N.of_nat (IDGenerator.next g) = IDGenerator.limit →
            IDGenerator.getId g = (IDGenerator.next g, g)
            ∧ takeIds n g = (replicate n (IDGenerator.next g), g)).
Proof.
  split_and!.
  - intros n Hle. rewrite takeIds_spec by done; simpl.
    split_and!; [done|apply NoDup_seq| |done].
    intros j k a b Hjk [-> _]%lookup_seq [-> _]%lookup_seq. lia.
  - intros n. by apply takeIds_bounded.
  - intros n g Hle. split; [|by apply takeIds_saturated].
    destruct g as [k]. unfold IDGenerator.getId. simpl in *.
    by rewrite increment_saturated.
Qed.

Lemma getId_sequence_witness :
  (takeIds 3 IDGenerator.new).1 = [0; 1; 2]
  ∧ IDGenerator.next (takeIds 3 IDGenerator.new).2 = 3
  ∧ IDGenerator.getId saturated = (IDGenerator.next saturated, saturated).
Proof.
  destruct getId_sequence as (Hexact & _ & Hsat).
  destruct (Hexact 3) as (H1 & _ & _ & H4); [done|].
  split; [exact H1|]. split; [exact H4|].
  apply (Hsat 0 saturated).
  unfold saturated. cbn [IDGenerator.next]. apply N2Nat.id.
Defined.

(** ** The session invariant *)

Lemma Process_onStdout_kept (fn : Callback) (o : Process) :
  process_id (Process_onStdout fn o).1 = process_id o
  ∧ process_killed (Process_onStdout fn o).1 = process_killed o.
Proof.
  destruct o as [p|p|]; simpl; [done| |done].
  unfold ImgSummaryProcess.onStdout; simpl. by destruct (truthy _).
Qed.

Lemma Process_onStderr_kept (fn : Callback) (o : Process) :
  process_id (Process_onStderr fn o).1 = process_id o
  ∧ process_killed (Process_onStderr fn o).1 = process_killed o.
Proof.
  destruct o as [p|p|]; simpl; [done| |done].
  unfold ImgSummaryProcess.onStderr; simpl. by destruct (truthy _).
Qed.

Lemma Process_onExit_kept (fn : Callback) (o : Process) :
  process_id (Process_onExit fn o).1 = process_id o
  ∧ process_killed (Process_onExit fn o).1 = process_killed o.
Proof.
  destruct o as [p|p|]; simpl; [| |done].
  - unfold RunpyProcess.onExit; simpl.
    destruct (truthy_opt _); [done|].
    destruct (RunpyProcess.killed p) eqn:Hk; simpl; by rewrite ?Hk.
  - unfold ImgSummaryProcess.onExit; simpl. by destruct (truthy_opt _).
Qed.

Lemma Process_eventListener_kept (o : Process) (m : PyodideWorkerResponse.t) :
  process_id (Process_eventListener o m).1 = process_id o
  ∧ process_killed (Process_eventListener o m).1 = process_killed o.
Proof.
  destruct o as [p|p|]; simpl; [| |done].
  - unfold RunpyProcess.eventListener. destruct (negb _); [done|].
    by destruct (PyodideWorkerResponse.type m).
  - unfold ImgSummaryProcess.eventListener. destruct (negb _); [done|].
    by destruct (PyodideWorkerResponse.type m).
Qed.

Lemma requestFor_kept (o o' : Process) (r : WorkerRequest) :
  process_id o' = process_id o → classOf o' = classOf o →
  requestFor o r → requestFor o' r.
Proof. unfold requestFor. by intros -> ->. Qed.

(** An object is updated in place, keeping its id and class; with
    [removed] its listener is taken off the worker as well. *)
Lemma Inv_update (w w' : World) (h : Handle) (o o' : Process)
      (removed : bool) :
  Inv w →
  heap w !! h = Some o →
  process_id o' = process_id o →
  classOf o' = classOf o →
  (classOf o = RunpyClass → process_killed o' = removed || process_killed o) →
  idGen w' = idGen w →
  pyodideLoaded w' = pyodideLoaded w →
  Worker.outbox (pyodideWorker w') = Worker.outbox (pyodideWorker w) →
  (∀ l, l ∈ Worker.listeners (pyodideWorker w')
        ↔ l ∈ Worker.listeners (pyodideWorker w)
          ∧ (removed = true → l ≠ ProcessListener h)) →
  heap w' = <[h:=o']> (heap w) →
  Inv w'.
Proof.
  intros [Hbelow Hinj Hids Hreq Hgate Hkilled Hlist]
         Hh Hid Hcl Hk Hgen Hloaded Hout Hls Hheap.
  assert (∀ h0 o0, heap w' !! h0 = Some o0 →
            ∃ o1, heap w !! h0 = Some o1
                  ∧ process_id o0 = process_id o1
                  ∧ classOf o0 = classOf o1
                  ∧ (h0 ≠ h → o0 = o1) ∧ (h0 = h → o0 = o' ∧ o1 = o))
    as Hold.
  { intros h0 o0. rewrite Hheap, list_lookup_insert_Some.
    intros [(-> & -> & _)|(Hne & Hh0)].
    - exists o. by split_and!.
    - exists o0. by split_and!. }
  assert (∀ h0, listening h0 w'
                = listening h0 w && negb (removed && bool_decide (h0 = h)))
    as Hlistening.
  { intros h0. unfold listening.
    destruct (bool_decide (ProcessListener h0
                           ∈ Worker.listeners (pyodideWorker w))) eqn:Hb.
    - apply bool_decide_eq_true in Hb. destruct removed; simpl.
      + destruct (decide (h0 = h)) as [->|Hne].
        * rewrite (bool_decide_eq_true_2 (h = h)) by done. simpl.
          apply bool_decide_eq_false_2. rewrite Hls.
          intros [_ Hc]. by apply Hc.
        * rewrite (bool_decide_eq_false_2 (h0 = h)) by done. simpl.
          apply bool_decide_eq_true_2, Hls. split; [done|]. congruence.
      + apply bool_decide_eq_true_2, Hls. by split.
    - apply bool_decide_eq_false in Hb. simpl.
      apply bool_decide_eq_false_2. rewrite Hls. tauto. }
  assert (ids_exact w' → ids_exact w) as Hex.
  { unfold ids_exact. by rewrite Hgen. }
  split.
  - intros X%Hex h0 o0 i Hh0 Hi. destruct (Hold _ _ Hh0) as (o1 & H1 & E & _).
    rewrite Hgen. apply (Hbelow X h0 o1 i H1). congruence.
  - intros X%Hex h1 h2 o1 o2 i Hh1 Hh2 Hi1 Hi2.
    destruct (Hold _ _ Hh1) as (o1' & H1 & E1 & _).
    destruct (Hold _ _ Hh2) as (o2' & H2 & E2 & _).
    apply (Hinj X h1 h2 o1' o2' i H1 H2); congruence.
  - intros X%Hex. by rewrite Hout, Hgen, Hids.
  - intros X%Hex h0 o0 i Hh0 Hi.
    destruct (Hold _ _ Hh0) as (o1 & H1 & E & C & _).
    destruct (Hreq X h0 o1 i H1) as (r & Hr & Hfor); [congruence|].
    exists r. rewrite Hout. split; [done|]. by apply (requestFor_kept o1).
  - rewrite Hloaded, Hgate, Hls. split; [|tauto]. intros Hin. by split.
  - intros h0 o0 Hh0 Hc0.
    destruct (Hold _ _ Hh0) as (o1 & H1 & _ & C & Hne & Heq).
    rewrite Hlistening, (Hkilled h0 o1 H1) by congruence.
    case_bool_decide as Hh0h.
    + destruct (Heq Hh0h) as [-> ->]. rewrite Hk by congruence.
      by destruct removed, (process_killed o).
    + rewrite (Hne Hh0h). by rewrite andb_false_r, andb_true_r.
  - intros h0 [Hin _]%Hls. destruct (Hlist h0 Hin) as (o1 & H1 & C1).
    destruct (decide (h0 = h)) as [->|Hne].
    + exists o'. rewrite Hheap, list_lookup_insert_eq
        by (by eapply lookup_lt_Some).
      split; [done|]. rewrite Hh in H1. simplify_eq. by rewrite Hcl.
    + exists o1. by rewrite Hheap, list_lookup_insert_ne.
Qed.

Lemma Inv_alloc_Synth (w : World) : Inv w → Inv (alloc Synth w).2.
Proof.
  intros [Hbelow Hinj Hids Hreq Hgate Hkilled Hlist]. split; simpl.
  - intros X h o i [[_ Hh]|[_ <-]]%lookup_snoc_Some Hi; [|done].
    by apply (Hbelow X h o).
  - intros X h1 h2 o1 o2 i [[_ H1]|[_ <-]]%lookup_snoc_Some
           [[_ H2]|[_ <-]]%lookup_snoc_Some Hi1 Hi2; try done.
    by apply (Hinj X h1 h2 o1 o2 i).
  - done.
  - intros X h o i [[_ Hh]|[_ <-]]%lookup_snoc_Some Hi; [|done].
    by apply (Hreq X h o).
  - done.
  - intros h o [[_ Hh]|[_ <-]]%lookup_snoc_Some Hc; [|done].
    by apply Hkilled.
  - intros h Hin. destruct (Hlist h Hin) as (o & Hh & Hc).
    exists o. split; [by apply lookup_app_l_Some|done].
Qed.

(** A constructor runs: the next id is taken, the listener of the new
    object is registered and its request is posted. *)
Lemma Inv_construct (w : World) (o : Process) (r : WorkerRequest) :
  Inv w →
  process_id o = Some (IDGenerator.next (idGen w)) →
  classOf o ≠ SynthClass →
  process_killed o = false →
  request_id r = IDGenerator.next (idGen w) →
  requestFor o r →
  Inv (alloc o
         (set_pyodideWorker
            (Worker.postMessage r
               (Worker.addEventListener (ProcessListener (length (heap w)))
                                        (pyodideWorker w)))
            (set_idGen (IDGenerator.getId (idGen w)).2 w))).2.
Proof.
  intros [Hbelow Hinj Hids Hreq Hgate Hkilled Hlist] Hid Hcl Hk Hrid Hfor.
  assert (ids_exact w →
          length (Worker.outbox (pyodideWorker w))
          = IDGenerator.next (idGen w)) as Hlen.
  { intros X. rewrite <- (length_fmap request_id), Hids by done.
    apply length_seq. }
  assert (∀ h, h < length (heap w) →
               (ProcessListener h
                ∈ Worker.listeners
                    (Worker.addEventListener
                       (ProcessListener (length (heap w))) (pyodideWorker w))
                ↔ ProcessListener h ∈ Worker.listeners (pyodideWorker w)))
    as Hold.
  { intros h Hlt. rewrite elem_of_addEventListener.
    split; [intros [?|?]; [done|simplify_eq; lia]|by left]. }
  assert (∀ l, Worker.outbox (Worker.addEventListener l (pyodideWorker w))
               = Worker.outbox (pyodideWorker w)) as Hout.
  { intros l. unfold Worker.addEventListener. by case_bool_decide. }
  split; unfold ids_exact, alloc, set_heap, set_pyodideWorker, set_idGen,
           Worker.postMessage, listening, IDGenerator.getId;
    cbn [heap pyodideWorker idGen pyodideLoaded Worker.outbox
         Worker.listeners IDGenerator.next snd]; rewrite ?Hout.
  - intros [X Hinc]%increment_below h o0 i
           [[_ Hh]|[_ <-]]%lookup_snoc_Some Hi; rewrite Hinc.
    + specialize (Hbelow X h o0 i Hh Hi). lia.
    + rewrite Hid in Hi. simplify_eq. lia.
  - intros [X Hinc]%increment_below h1 h2 o1 o2 i
           [[_ H1]|[-> <-]]%lookup_snoc_Some
           [[_ H2]|[-> <-]]%lookup_snoc_Some Hi1 Hi2;
      [by apply (Hinj X h1 h2 o1 o2 i)| | |done].
    + rewrite Hid in Hi2. simplify_eq.
      specialize (Hbelow X h1 o1 _ H1 Hi1). lia.
    + rewrite Hid in Hi1. simplify_eq.
      specialize (Hbelow X h2 o2 _ H2 Hi2). lia.
  - intros [X Hinc]%increment_below.
    rewrite Hinc, fmap_app, Hids, seq_S by done. simpl. by rewrite Hrid.
  - intros [X Hinc]%increment_below h o0 i
           [[_ Hh]|[_ <-]]%lookup_snoc_Some Hi.
    + destruct (Hreq X h o0 i Hh Hi) as (r0 & Hr0 & Hf0).
      exists r0. split; [by apply lookup_app_l_Some|done].
    + rewrite Hid in Hi. simplify_eq. exists r.
      split; [|done]. rewrite <- Hlen by done. apply list_lookup_middle. done.
  - rewrite Hgate, elem_of_addEventListener.
    split; [by left|]. by intros [?|?].
  - intros h o0 [[Hlt Hh]|[-> <-]]%lookup_snoc_Some Hc.
    + rewrite <- (Hkilled h o0 Hh Hc). unfold listening.
      apply bool_decide_ext, Hold, Hlt.
    + rewrite Hk. simpl.
      apply bool_decide_eq_true_2, elem_of_addEventListener. by right.
  - intros h [Hin| Heq]%elem_of_addEventListener.
    + destruct (Hlist h Hin) as (o0 & Hh & Hc).
      exists o0. split; [by apply lookup_app_l_Some|done].
    + simplify_eq. exists o. split; [by apply list_lookup_middle|done].
Qed.

Lemma runProgram_Inv (program : string) (w : World) :
  Inv w → Inv (runProgram program w).1.2.
Proof.
  intros Hw. unfold runProgram. destruct (pyodideLoaded w); simpl.
  - by apply (Inv_construct w).
  - by apply Inv_alloc_Synth.
Qed.

Lemma runImgSummary_Inv (program : string) (line : Z) (varname : string)
      (w : World) :
  Inv w → Inv (runImgSummary program line varname w).1.2.
Proof.
  intros Hw. unfold runImgSummary. destruct (pyodideLoaded w); simpl.
  - by apply (Inv_construct w).
  - by apply Inv_alloc_Synth.
Qed.

Lemma kept_iff (A B : Prop) : A ↔ A ∧ (false = true → B).
Proof. split; [intros HA; split; [done|discriminate]|by intros [HA _]]. Qed.

Lemma removed_iff (A B : Prop) : A ∧ B ↔ A ∧ (true = true → B).
Proof. split; intros [HA HB]; (split; [done|auto]). Qed.

Lemma onStdout_Inv (h : Handle) (fn : Callback) (w : World) :
  Inv w → Inv (onStdout h fn w).1.
Proof.
  intros Hw. unfold onStdout. destruct (heap w !! h) as [o|] eqn:Hh; [|done].
  destruct (Process_onStdout_kept fn o) as [Hi Hk].
  destruct (Process_onStdout_allowed fn o) as [Hc _].
  destruct (Process_onStdout fn o) as [o' cs]; simpl in *.
  apply (Inv_update w _ h o o' false); try done. intros l. apply kept_iff.
Qed.

Lemma onStderr_Inv (h : Handle) (fn : Callback) (w : World) :
  Inv w → Inv (onStderr h fn w).1.
Proof.
  intros Hw. unfold onStderr. destruct (heap w !! h) as [o|] eqn:Hh; [|done].
  destruct (Process_onStderr_kept fn o) as [Hi Hk].
  destruct (Process_onStderr_allowed fn o) as [Hc _].
  destruct (Process_onStderr fn o) as [o' cs]; simpl in *.
  apply (Inv_update w _ h o o' false); try done. intros l. apply kept_iff.
Qed.

Lemma onExit_Inv (h : Handle) (fn : Callback) (w : World) :
  Inv w → Inv (onExit h fn w).1.
Proof.
  intros Hw. unfold onExit. destruct (heap w !! h) as [o|] eqn:Hh; [|done].
  destruct (Process_onExit_kept fn o) as [Hi Hk].
  destruct (Process_onExit_allowed fn o) as [Hc _].
  destruct (Process_onExit fn o) as [o' cs]; simpl in *.
  apply (Inv_update w _ h o o' false); try done. intros l. apply kept_iff.
Qed.

Lemma kill_Inv (h : Handle) (w : World) : Inv w → Inv (kill h w).1.
Proof.
  intros Hw. unfold kill. destruct (heap w !! h) as [o|] eqn:Hh; [|done].
  destruct o as [p|p|]; simpl.
  - apply (Inv_update w _ h (Runpy p)
                       (Runpy (RunpyProcess.set_killed true p)) true);
      try done.
    intros l. simpl. rewrite list_elem_of_filter, <- removed_iff. tauto.
  - apply (Inv_update w _ h (ImgSummary p) (ImgSummary p) true); try done.
    intros l. simpl. rewrite list_elem_of_filter, <- removed_iff. tauto.
  - apply (Inv_update w _ h Synth Synth false); try done.
    intros l. apply kept_iff.
Qed.

Lemma Inv_open_gate (w : World) :
  Inv w →
  Inv (set_pyodideWorker
         (Worker.removeEventListener InitListener (pyodideWorker w))
         (set_pyodideLoaded true w)).
Proof.
  intros [Hbelow Hinj Hids Hreq Hgate Hkilled Hlist]. split; simpl; try done.
  - rewrite list_elem_of_filter. split; [done|]. by intros [? _].
  - intros h o Hh Hc. rewrite <- (Hkilled h o Hh Hc). unfold listening; simpl.
    apply bool_decide_ext. rewrite list_elem_of_filter. split; [tauto|].
    intros ?. by split.
  - intros h [_ Hin]%list_elem_of_filter. by apply Hlist.
Qed.

Lemma invokeListener_Inv (l : Listener) (m : PyodideWorkerResponse.t)
      (w : World) :
  Inv w → Inv (invokeListener l m w).1.
Proof.
  intros Hw. destruct l as [|h]; simpl.
  - unfold pyodideWorkerInitListener.
    destruct (PyodideWorkerResponse.type m); try done.
    set (w2 := set_pyodideWorker _ _).
    pose proof (runProgram_Inv (editorProgram w2) w2 (Inv_open_gate w Hw))
      as H3.
    destruct (runProgram (editorProgram w2) w2) as [[h' w3] es]; simpl in *.
    pose proof (onExit_Inv h' BootstrapFn w3 H3) as H4.
    by destruct (onExit h' BootstrapFn w3).
  - destruct (heap w !! h) as [o|] eqn:Hh; [|done].
    destruct (Process_eventListener_kept o m) as [Hi Hk].
    destruct (Process_eventListener_allowed o m) as [Hc _].
    destruct (Process_eventListener o m) as [o' cs]; simpl in *.
    apply (Inv_update w _ h o o' false); try done. intros l. apply kept_iff.
Qed.

Lemma dispatchTo_Inv (ls : list Listener) (m : PyodideWorkerResponse.t)
      (w : World) :
  Inv w → Inv (dispatchTo ls m w).1.
Proof.
  revert w. induction ls as [|l ls IH]; intros w Hw; [done|]. simpl.
  pose proof (invokeListener_Inv l m w Hw) as H1.
  destruct (invokeListener l m w) as [w1 es1]; simpl in *.
  specialize (IH w1 H1). by destruct (dispatchTo ls m w1).
Qed.

Lemma step_Inv (a : Action) (w : World) : Inv w → Inv (step a w).1.
Proof.
  intros Hw. destruct a; simpl.
  - by apply dispatchTo_Inv.
  - pose proof (runProgram_Inv program w Hw).
    by destruct (runProgram program w) as [[? ?] ?].
  - by apply Inv_alloc_Synth.
  - pose proof (runImgSummary_Inv program line varname w Hw).
    by destruct (runImgSummary program line varname w) as [[? ?] ?].
  - by apply onStdout_Inv.
  - by apply onStderr_Inv.
  - by apply kill_Inv.
  - by apply onExit_Inv.
Qed.

Lemma run_Inv (acts : list Action) (w : World) : Inv w → Inv (run acts w).1.
Proof.
  revert w. induction acts as [|a acts IH]; intros w Hw; [done|]. simpl.
  pose proof (step_Inv a w Hw) as H1.
  destruct (step a w) as [w1 es1]; simpl in *.
  specialize (IH w1 H1). by destruct (run acts w1).
Qed.

Lemma initialWorld_Inv (program : string) : Inv (initialWorld program).
Proof.
  split; simpl; try done.
  - split; [intros _|done]. unfold Worker.addEventListener. simpl.
    apply list_elem_of_here.
  - intros h Hin. unfold Worker.addEventListener in Hin. simpl in Hin.
    by apply list_elem_of_singleton in Hin.
Qed.

Lemma session_Inv (program : string) (acts : list Action) :
  Inv (run acts (initialWorld program)).1.
Proof. apply run_Inv, initialWorld_Inv. Qed.

(** ** Correlation ids, requests and listeners in a session *)

(** X2.  In every session in which the id source has stayed below [2^53],
    two process objects that hold the same correlation id are the same
    object, and every id held is below the next id of the source. *)
Theorem correlation_ids_unique
        (program : string) (acts : list Action) (h1 h2 : Handle)
        (o1 o2 : Process) (i : nat) :
  ids_exact (run acts (initialWorld program)).1 →
  heap (run acts (initialWorld program)).1 !! h1 = Some o1 →
  heap (run acts (initialWorld program)).1 !! h2 = Some o2 →
  process_id o1 = Some i →
  process_id o2 = Some i →
  h1 = h2 ∧ i < IDGenerator.next (idGen (run acts (initialWorld program)).1).
Proof.
  intros X H1 H2 Hi1 Hi2. destruct (session_Inv program acts) as [Hb Hinj].
  split; [by eapply (Hinj X)|by eapply (Hb X)].
Qed.

Lemma correlation_ids_unique_witness :
  2 = 2 ∧ 2 < IDGenerator.next (idGen (run session (initialWorld "print(1)")).1).
Proof.
  apply (correlation_ids_unique
           "print(1)" session 2 2
           (Runpy (RunpyProcess.mk 2 None None None None "" "" false))
           (Runpy (RunpyProcess.mk 2 None None None None "" "" false)) 2);
    reflexivity.
Defined.

(** X3.  In every session in which the id source has stayed below [2^53],
    the requests posted to the worker carry the ids [0, 1, ..., next-1] in
    this order, one request per id issued; and the request of each process
    object sits at the position of its id, with the constructor of its
    class ([RunpyWorkerRequest] named [program_<id>.py],
    [ImgSumWorkerRequest] named [imgsum_<id>.py]). *)
Theorem one_request_per_id (program : string) (acts : list Action) :
  ids_exact (run acts (initialWorld program)).1 →
  request_id <$> Worker.outbox (pyodideWorker (run acts (initialWorld program)).1)
  = seq 0 (IDGenerator.next (idGen (run acts (initialWorld program)).1))
  ∧ (∀ h o i,
        heap (run acts (initialWorld program)).1 !! h = Some o →
        process_id o = Some i →
        ∃ r, Worker.outbox (pyodideWorker (run acts (initialWorld program)).1)
             !! i = Some r
             ∧ requestFor o r).
Proof.
  intros X. destruct (session_Inv program acts) as [_ _ Hids Hreq].
  split; [by apply Hids|by apply Hreq].
Qed.

Lemma one_request_per_id_witness :
  request_id
  <$> Worker.outbox (pyodideWorker (run session (initialWorld "print(1)")).1)
  = [0; 1; 2]
  ∧ ∃ r, Worker.outbox (pyodideWorker (run session (initialWorld "print(1)")).1)
         !! 1 = Some r
         ∧ requestFor
             (ImgSummary (ImgSummaryProcess.mk 1 None None None None "" "")) r.
Proof.
  destruct (one_request_per_id "print(1)" session) as [Hids Hreq];
    [reflexivity|].
  split; [exact Hids|].
  apply (Hreq 1 (ImgSummary (ImgSummaryProcess.mk 1 None None None None "" ""))
              1); reflexivity.
Defined.

(** X4.  In every session, [pyodideLoaded] is false exactly as long as the
    init listener is registered; a run-program object has its listener
    registered exactly when it has not been killed; and a [SynthProcess]
    never has a listener. *)
Theorem listeners_reflect_state (program : string) (acts : list Action) :
  (pyodideLoaded (run acts (initialWorld program)).1 = false
   ↔ InitListener
     ∈ Worker.listeners (pyodideWorker (run acts (initialWorld program)).1))
  ∧ (∀ h p,
        heap (run acts (initialWorld program)).1 !! h = Some (Runpy p) →
        listening h (run acts (initialWorld program)).1
        = negb (RunpyProcess.killed p))
  ∧ (∀ h,
        heap (run acts (initialWorld program)).1 !! h = Some Synth →
        listening h (run acts (initialWorld program)).1 = false).
Proof.
  destruct (session_Inv program acts) as [_ _ _ _ Hgate Hkilled Hlist].
  split_and!; [done| |].
  - intros h p Hh. by apply (Hkilled h (Runpy p)).
  - intros h Hh. apply bool_decide_eq_false_2. intros Hin.
    destruct (Hlist h Hin) as (o & Ho & Hc). rewrite Hh in Ho. by simplify_eq.
Qed.

(** ** The readiness gate *)

Lemma stays_open_refl (w : World) : stays_open w w.
Proof. by split. Qed.

Lemma stays_open_trans (w1 w2 w3 : World) :
  stays_open w1 w2 → stays_open w2 w3 → stays_open w1 w3.
Proof. intros [A1 B1] [A2 B2]. split; auto. Qed.

Lemma stays_open_store (h : Handle) (o : Process) (w : World) :
  stays_open w (store h o w).
Proof. by split. Qed.

Lemma stays_open_construct (l : Handle) (r : WorkerRequest) (o : Process)
      (g : IDGenerator.t) (w : World) :
  stays_open w
    (alloc o (set_pyodideWorker
                (Worker.postMessage r
                   (Worker.addEventListener (ProcessListener l)
                                            (pyodideWorker w)))
                (set_idGen g w))).2.
Proof.
  split; simpl; [done|]. rewrite elem_of_addEventListener.
  intros Hn [?|?]; done.
Qed.

Lemma runProgram_stays_open (program : string) (w : World) :
  stays_open w (runProgram program w).1.2.
Proof.
  unfold runProgram. destruct (pyodideLoaded w); simpl.
  - apply stays_open_construct.
  - by split.
Qed.

Lemma runImgSummary_stays_open (program : string) (line : Z)
      (varname : string) (w : World) :
  stays_open w (runImgSummary program line varname w).1.2.
Proof.
  unfold runImgSummary. destruct (pyodideLoaded w); simpl.
  - apply stays_open_construct.
  - by split.
Qed.

Lemma onExit_stays_open (h : Handle) (fn : Callback) (w : World) :
  stays_open w (onExit h fn w).1.
Proof.
  unfold onExit. destruct (heap w !! h) as [o|]; [|apply stays_open_refl].
  destruct (Process_onExit fn o). apply stays_open_store.
Qed.

Lemma kill_stays_open (h : Handle) (w : World) : stays_open w (kill h w).1.
Proof.
  unfold kill. destruct (heap w !! h) as [o|]; [|apply stays_open_refl].
  destruct o as [p|p|]; simpl; (split; simpl; [done|]);
    rewrite ?list_elem_of_filter; tauto.
Qed.

Lemma invokeListener_stays_open (l : Listener) (m : PyodideWorkerResponse.t)
      (w : World) :
  stays_open w (invokeListener l m w).1.
Proof.
  destruct l as [|h]; simpl.
  - unfold pyodideWorkerInitListener.
    destruct (PyodideWorkerResponse.type m); try apply stays_open_refl.
    set (w2 := set_pyodideWorker _ _).
    assert (stays_open w w2) as H2.
    { split; simpl; [done|]. rewrite list_elem_of_filter. tauto. }
    pose proof (runProgram_stays_open (editorProgram w2) w2) as H3.
    destruct (runProgram (editorProgram w2) w2) as [[h' w3] es]; simpl in *.
    pose proof (onExit_stays_open h' BootstrapFn w3) as H4.
    destruct (onExit h' BootstrapFn w3) as [w4 es']; simpl in *.
    eauto using stays_open_trans.
  - destruct (heap w !! h) as [o|]; [|apply stays_open_refl].
    destruct (Process_eventListener o m). apply stays_open_store.
Qed.

Lemma dispatchTo_stays_open (ls : list Listener) (m : PyodideWorkerResponse.t)
      (w : World) :
  stays_open w (dispatchTo ls m w).1.
Proof.
  revert w. induction ls as [|l ls IH]; intros w; [apply stays_open_refl|].
  simpl. pose proof (invokeListener_stays_open l m w) as H1.
  destruct (invokeListener l m w) as [w1 es1]; simpl in *.
  specialize (IH w1). destruct (dispatchTo ls m w1); simpl in *.
  by eapply stays_open_trans.
Qed.

Lemma step_stays_open (a : Action) (w : World) : stays_open w (step a w).1.
Proof.
  destruct a; simpl.
  - apply dispatchTo_stays_open.
  - pose proof (runProgram_stays_open program w).
    by destruct (runProgram program w) as [[? ?] ?].
  - by split.
  - pose proof (runImgSummary_stays_open program line varname w).
    by destruct (runImgSummary program line varname w) as [[? ?] ?].
  - unfold onStdout. destruct (heap w !! h) as [o|]; [|apply stays_open_refl].
    destruct (Process_onStdout fn o). apply stays_open_store.
  - unfold onStderr. destruct (heap w !! h) as [o|]; [|apply stays_open_refl].
    destruct (Process_onStderr fn o). apply stays_open_store.
  - apply kill_stays_open.
  - apply onExit_stays_open.
Qed.

Lemma run_stays_open (acts : list Action) (w : World) :
  stays_open w (run acts w).1.
Proof.
  revert w. induction acts as [|a acts IH]; intros w; [apply stays_open_refl|].
  simpl. pose proof (step_stays_open a w) as H1.
  destruct (step a w) as [w1 es1]; simpl in *.
  specialize (IH w1). destruct (run acts w1); simpl in *.
  by eapply stays_open_trans.
Qed.

(** X5.  The gate opens for good: once [pyodideLoaded] is true it is true
    after every later history, and from then on [runImgSummary] builds an
    [ImgSummaryProcess] (never the placeholder), whatever has happened in
    between. *)
Theorem gate_never_closes (w : World) (acts : list Action)
        (program : string) (line : Z) (varname : string) :
  pyodideLoaded w = true →
  pyodideLoaded (run acts w).1 = true
  ∧ classOf <$> heap (runImgSummary program line varname (run acts w).1).1.2
                !! (runImgSummary program line varname (run acts w).1).1.1
    = Some ImgSummaryClass.
Proof.
  intros Hl. destruct (run_stays_open acts w) as [Hopen _].
  specialize (Hopen Hl). split; [done|].
  unfold runImgSummary. rewrite Hopen. simpl.
  by rewrite !list_lookup_middle.
Qed.

Lemma gate_never_closes_witness :
  pyodideLoaded (run [CallKill 0; MessageEvent (response 5 ERROR "x")]
                     sessionWorld).1 = true
  ∧ classOf <$> heap (runImgSummary "p" 1 "v"
                        (run [CallKill 0; MessageEvent (response 5 ERROR "x")]
                             sessionWorld).1).1.2
                !! (runImgSummary "p" 1 "v"
                      (run [CallKill 0; MessageEvent (response 5 ERROR "x")]
                           sessionWorld).1).1.1
    = Some ImgSummaryClass.
Proof.
  apply (gate_never_closes sessionWorld
           [CallKill 0; MessageEvent (response 5 ERROR "x")] "p" 1 "v").
  reflexivity.
Defined.

(** ** One response, one process *)

Lemma Process_eventListener_not_addressed (o : Process)
      (m : PyodideWorkerResponse.t) :
  process_id o ≠ Some (PyodideWorkerResponse.id m) →
  Process_eventListener o m = (o, []).
Proof.
  intros Hne. destruct (process_id o) as [i|] eqn:Hi.
  - apply Process_eventListener_other_id with i; congruence.
  - by destruct o.
Qed.

Lemma dispatchMessage_changes_addressee (w : World) (h : Handle) (o : Process)
      (m : PyodideWorkerResponse.t) :
  heap w !! h = Some o →
  heap (dispatchMessage m w).1 !! h ≠ Some o
  ∨ callsOf h (dispatchMessage m w).2 ≠ [] →
  process_id o = Some (PyodideWorkerResponse.id m).
Proof.
  intros Hh Hch.
  destruct (decide (process_id o = Some (PyodideWorkerResponse.id m)))
    as [|Hne]; [done|].
  destruct (dispatchTo_ignored h (Worker.listeners (pyodideWorker w)) o m w Hh
              (Process_eventListener_not_addressed o m Hne)) as (D1 & _ & D3).
  by destruct Hch.
Qed.

(** X6.  In every session in which the id source has stayed below [2^53],
    a response changes or makes calls on at most one of the existing
    process objects, and that object holds the id the response is tagged
    with. *)
Theorem response_reaches_one_process
        (program : string) (acts : list Action) (m : PyodideWorkerResponse.t)
        (h1 h2 : Handle) (o1 o2 : Process) :
  ids_exact (run acts (initialWorld program)).1 →
  heap (run acts (initialWorld program)).1 !! h1 = Some o1 →
  heap (run acts (initialWorld program)).1 !! h2 = Some o2 →
  heap (dispatchMessage m (run acts (initialWorld program)).1).1 !! h1
  ≠ Some o1
  ∨ callsOf h1 (dispatchMessage m (run acts (initialWorld program)).1).2 ≠ [] →
  heap (dispatchMessage m (run acts (initialWorld program)).1).1 !! h2
  ≠ Some o2
  ∨ callsOf h2 (dispatchMessage m (run acts (initialWorld program)).1).2 ≠ [] →
  h1 = h2 ∧ process_id o1 = Some (PyodideWorkerResponse.id m).
Proof.
  intros X H1 H2 C1 C2.
  pose proof (dispatchMessage_changes_addressee _ h1 o1 m H1 C1) as I1.
  pose proof (dispatchMessage_changes_addressee _ h2 o2 m H2 C2) as I2.
  destruct (session_Inv program acts) as [_ Hinj]. split; [|done].
  by eapply (Hinj X).
Qed.

Lemma response_reaches_one_process_witness :
  1 = 1
  ∧ process_id (ImgSummary (ImgSummaryProcess.mk 1 None None None None "" ""))
    = Some (PyodideWorkerResponse.id (response 1 STDOUT "a")).
Proof.
  apply (response_reaches_one_process
           "print(1)" session (response 1 STDOUT "a") 1 1
           (ImgSummary (ImgSummaryProcess.mk 1 None None None None "" ""))
           (ImgSummary (ImgSummaryProcess.mk 1 None None None None "" "")));
    try reflexivity; left; vm_compute; discriminate.
Defined.

(** ** Buffers *)

(** A response or a call on another object, seen by a process whose
    listener is registered: its buffers grow by the chunks addressed to its
    id and nothing else about it that matters here changes. *)
Lemma local_accumulates (h : Handle) (a : Action) (o : Process) (i : nat) :
  process_id o = Some i →
  targets h a = false →
  (local h a o true).1.2 = true
  ∧ process_id (local h a o true).1.1 = Some i
  ∧ process_output (local h a o true).1.1
    = process_output o +:+ stdoutChunk i a
  ∧ process_error (local h a o true).1.1
    = process_error o +:+ stderrChunk i a.
Proof.
  intros Hi Ht.
  destruct a; simpl in *; try rewrite Ht;
    try (by rewrite !string_app_empty_r).
  destruct o as [p|p|]; simplify_eq/=.
  - unfold RunpyProcess.eventListener.
    destruct (Nat.eqb (PyodideWorkerResponse.id m) (RunpyProcess.id p));
      simpl; [|by rewrite !string_app_empty_r].
    destruct (PyodideWorkerResponse.type m); simpl;
      by rewrite ?string_app_empty_r.
  - unfold ImgSummaryProcess.eventListener.
    destruct (Nat.eqb (PyodideWorkerResponse.id m) (ImgSummaryProcess.id p));
      simpl; [|by rewrite !string_app_empty_r].
    destruct (PyodideWorkerResponse.type m); simpl;
      by rewrite ?string_app_empty_r.
Qed.

Lemma localRun_accumulates (h : Handle) (acts : list Action) (o : Process)
      (i : nat) :
  process_id o = Some i →
  Forall (λ a, targets h a = false) acts →
  (localRun h acts o true).1.2 = true
  ∧ process_id (localRun h acts o true).1.1 = Some i
  ∧ process_output (localRun h acts o true).1.1
    = process_output o +:+ stdoutFor i acts
  ∧ process_error (localRun h acts o true).1.1
    = process_error o +:+ stderrFor i acts.
Proof.
  intros Hi Hacts. revert o Hi.
  induction Hacts as [|a acts Ha Hacts IH]; intros o Hi.
  - simpl. by rewrite !string_app_empty_r.
  - rewrite localRun_cons.
    destruct (local_accumulates h a o i Hi Ha) as (B1 & I1 & O1 & E1).
    destruct (local h a o true) as [[o1 b1] cs1]; simpl in *. subst b1.
    destruct (IH o1 I1) as (B2 & I2 & O2 & E2).
    destruct (localRun h acts o1 true) as [[o2 b2] cs2]; simpl in *.
    split_and!; [done|done| |].
    + by rewrite O2, O1, string_app_assoc.
    + by rewrite E2, E1, string_app_assoc.
Qed.

(** X7.  While the host calls no method of a process whose listener is
    registered, its stdout buffer grows by exactly the texts of the stdout
    responses tagged with its id, in order of arrival, and its stderr
    buffer by the texts of the stderr and exception responses tagged with
    its id; responses for other ids and other processes' activity leave
    both buffers alone. *)
Theorem buffers_accumulate_own_output
        (w : World) (h : Handle) (o : Process) (i : nat)
        (acts : list Action) :
  wf w →
  heap w !! h = Some o →
  process_id o = Some i →
  listening h w = true →
  Forall (λ a, targets h a = false) acts →
  ∃ o', heap (run acts w).1 !! h = Some o'
        ∧ process_output o' = process_output o +:+ stdoutFor i acts
        ∧ process_error o' = process_error o +:+ stderrFor i acts.
Proof.
  intros Hw Hh Hi Hl Hacts.
  destruct (run_local h acts o w Hw Hh) as (R1 & _ & _). rewrite Hl in R1.
  destruct (localRun_accumulates h acts o i Hi Hacts) as (_ & _ & O & E).
  eexists. split; [done|]. by split.
Qed.

Lemma buffers_accumulate_own_output_witness :
  ∃ o', heap (run [MessageEvent (response 1 STDOUT "a");
                   MessageEvent (response 2 STDOUT "x");
                   MessageEvent (response 1 STDOUT "b");
                   MessageEvent (response 1 EXCEPTION "e");
                   MessageEvent (response 1 RESULT "r1")]
                  sessionWorld).1 !! 1 = Some o'
        ∧ process_output o' = "ab"
        ∧ process_error o' = "e".
Proof.
  apply (buffers_accumulate_own_output sessionWorld 1
           (ImgSummary (ImgSummaryProcess.mk 1 None None None None "" "")) 1).
  - apply sessionWorld_wf.
  - reflexivity.
  - reflexivity.
  - reflexivity.
  - repeat constructor.
Defined.

(** ** Streaming to the observers of an image summary *)

Lemma outputText_app (cs1 cs2 : list Call) :
  outputText (cs1 ++ cs2) = outputText cs1 +:+ outputText cs2.
Proof.
  induction cs1 as [|c cs1 IH]; [done|].
  destruct c; simpl; rewrite IH; [|done..]. by rewrite string_app_assoc.
Qed.

Lemma errorText_app (cs1 cs2 : list Call) :
  errorText (cs1 ++ cs2) = errorText cs1 +:+ errorText cs2.
Proof.
  induction cs1 as [|c cs1 IH]; [done|].
  destruct c; simpl; rewrite IH; [done| |done]. by rewrite string_app_assoc.
Qed.

Lemma local_ImgSummary_streams (h : Handle) (a : Action)
      (p : ImgSummaryProcess.t) (b : bool) :
  targets h a = false →
  ∃ p', (local h a (ImgSummary p) b).1.1 = ImgSummary p'
        ∧ ImgSummaryProcess.onOutput p' = ImgSummaryProcess.onOutput p
        ∧ ImgSummaryProcess.onError p' = ImgSummaryProcess.onError p
        ∧ (∀ fn, ImgSummaryProcess.onOutput p = Some fn →
                 ImgSummaryProcess.output p'
                 = ImgSummaryProcess.output p
                   +:+ outputText (local h a (ImgSummary p) b).2
                 ∧ Forall (outputOnlyTo fn) (local h a (ImgSummary p) b).2)
        ∧ (∀ fn, ImgSummaryProcess.onError p = Some fn →
                 ImgSummaryProcess.error p'
                 = ImgSummaryProcess.error p
                   +:+ errorText (local h a (ImgSummary p) b).2
                 ∧ Forall (errorOnlyTo fn) (local h a (ImgSummary p) b).2).
Proof.
  intros Ht.
  assert (∃ p', (p, @nil Call) = (p', [])
                ∧ ImgSummaryProcess.onOutput p' = ImgSummaryProcess.onOutput p
                ∧ ImgSummaryProcess.onError p' = ImgSummaryProcess.onError p
                ∧ (∀ fn, ImgSummaryProcess.onOutput p = Some fn →
                         ImgSummaryProcess.output p'
                         = ImgSummaryProcess.output p +:+ outputText []
                         ∧ Forall (outputOnlyTo fn) [])
                ∧ (∀ fn, ImgSummaryProcess.onError p = Some fn →
                         ImgSummaryProcess.error p'
                         = ImgSummaryProcess.error p +:+ errorText []
                         ∧ Forall (errorOnlyTo fn) [])) as Hsame.
  { exists p. simpl. rewrite !string_app_empty_r. by split_and!. }
  destruct Hsame as (p0 & E0 & Ho0 & He0 & Hout0 & Herr0). simplify_eq.
  destruct a; simpl in *; try rewrite Ht;
    try (exists p0; by split_and!).
  destruct b; [|exists p0; by split_and!].
  unfold ImgSummaryProcess.eventListener.
  destruct (Nat.eqb (PyodideWorkerResponse.id m) (ImgSummaryProcess.id p0));
    simpl; [|exists p0; by split_and!].
  destruct (PyodideWorkerResponse.type m); simpl;
    try (exists p0; by split_and!);
    (eexists; split_and!; [done..| |]);
    intros fn Hfn; simpl; unfold ImgSummaryProcess.fireOnResult; simpl;
    destruct (ImgSummaryProcess.onOutput p0),
      (ImgSummaryProcess.onError p0), (ImgSummaryProcess.onResult p0);
    simplify_eq; simpl; rewrite ?string_app_empty_r;
    (split; [done|]); by repeat constructor.
Qed.

Lemma localRun_ImgSummary_streams (h : Handle) (acts : list Action)
      (p : ImgSummaryProcess.t) (b : bool) :
  Forall (λ a, targets h a = false) acts →
  ∃ p', (localRun h acts (ImgSummary p) b).1.1 = ImgSummary p'
        ∧ (∀ fn, ImgSummaryProcess.onOutput p = Some fn →
                 ImgSummaryProcess.output p'
                 = ImgSummaryProcess.output p
                   +:+ outputText (localRun h acts (ImgSummary p) b).2
                 ∧ Forall (outputOnlyTo fn)
                          (localRun h acts (ImgSummary p) b).2)
        ∧ (∀ fn, ImgSummaryProcess.onError p = Some fn →
                 ImgSummaryProcess.error p'
                 = ImgSummaryProcess.error p
                   +:+ errorText (localRun h acts (ImgSummary p) b).2
                 ∧ Forall (errorOnlyTo fn)
                          (localRun h acts (ImgSummary p) b).2).
Proof.
  intros Hacts. revert p b.
  induction Hacts as [|a acts Ha Hacts IH]; intros p b.
  - exists p. simpl. rewrite !string_app_empty_r. by split_and!.
  - rewrite localRun_cons.
    destruct (local_ImgSummary_streams h a p b Ha)
      as (p1 & E1 & Ho1 & He1 & Hout1 & Herr1).
    destruct (local h a (ImgSummary p) b) as [[o1 b1] cs1]; simpl in *.
    subst o1.
    destruct (IH p1 b1) as (p2 & E2 & Hout2 & Herr2).
    destruct (localRun h acts (ImgSummary p1) b1) as [[o2 b2] cs2];
      simpl in *.
    exists p2. split; [done|]. split; intros fn Hfn.
    + destruct (Hout1 fn Hfn) as [A1 F1].
      destruct (Hout2 fn) as [A2 F2]; [congruence|].
      rewrite outputText_app, <- string_app_assoc, <- A1.
      split; [done|by apply Forall_app].
    + destruct (Herr1 fn Hfn) as [A1 F1].
      destruct (Herr2 fn) as [A2 F2]; [congruence|].
      rewrite errorText_app, <- string_app_assoc, <- A1.
      split; [done|by apply Forall_app].
Qed.

(** X8.  Image-summary variant, while the host calls no further method of
    the process: after [onStdout(fn)], the texts handed to stdout
    observers, in order, concatenate to the whole stdout buffer (the
    replayed text followed by every later chunk, none lost and none
    twice), and every such call goes to [fn]; the same holds for
    [onStderr(fn)] and the stderr buffer. *)
Theorem image_summary_observer_sees_whole_buffer
        (w : World) (h : Handle) (p : ImgSummaryProcess.t) (fn : Callback)
        (acts : list Action) :
  wf w →
  heap w !! h = Some (ImgSummary p) →
  Forall (λ a, targets h a = false) acts →
  (∃ p', heap (run (CallOnStdout h fn :: acts) w).1 !! h
         = Some (ImgSummary p')
         ∧ outputText (callsOf h (run (CallOnStdout h fn :: acts) w).2)
           = ImgSummaryProcess.output p'
         ∧ Forall (outputOnlyTo fn)
                  (callsOf h (run (CallOnStdout h fn :: acts) w).2))
  ∧ (∃ p', heap (run (CallOnStderr h fn :: acts) w).1 !! h
           = Some (ImgSummary p')
           ∧ errorText (callsOf h (run (CallOnStderr h fn :: acts) w).2)
             = ImgSummaryProcess.error p'
           ∧ Forall (errorOnlyTo fn)
                    (callsOf h (run (CallOnStderr h fn :: acts) w).2)).
Proof.
  intros Hw Hh Hacts. split.
  - destruct (run_local h (CallOnStdout h fn :: acts) _ w Hw Hh)
      as (R1 & _ & R3).
    rewrite R1, R3, localRun_cons. unfold local.
    rewrite bool_decide_eq_true_2 by done. simpl.
    unfold ImgSummaryProcess.onStdout. simpl.
    destruct (localRun_ImgSummary_streams
                h acts (ImgSummaryProcess.set_onOutput (Some fn) p)
                (listening h w) Hacts) as (p' & E & Hout & _).
    destruct (Hout fn eq_refl) as [A F]. simpl in A.
    destruct (truthy (ImgSummaryProcess.output p)) eqn:Ht;
      destruct (localRun h acts _ (listening h w)) as [[o2 b2] cs2];
      simpl in *; subst o2; exists p'; (split; [done|]).
    + split; [by rewrite A|]. by constructor.
    + apply truthy_false in Ht. rewrite Ht in A. by split.
  - destruct (run_local h (CallOnStderr h fn :: acts) _ w Hw Hh)
      as (R1 & _ & R3).
    rewrite R1, R3, localRun_cons. unfold local.
    rewrite bool_decide_eq_true_2 by done. simpl.
    unfold ImgSummaryProcess.onStderr. simpl.
    destruct (localRun_ImgSummary_streams
                h acts (ImgSummaryProcess.set_onError (Some fn) p)
                (listening h w) Hacts) as (p' & E & _ & Herr).
    destruct (Herr fn eq_refl) as [A F]. simpl in A.
    destruct (truthy (ImgSummaryProcess.error p)) eqn:Ht;
      destruct (localRun h acts _ (listening h w)) as [[o2 b2] cs2];
      simpl in *; subst o2; exists p'; (split; [done|]).
    + split; [by rewrite A|]. by constructor.
    + apply truthy_false in Ht. rewrite Ht in A. by split.
Qed.

Lemma image_summary_observer_sees_whole_buffer_witness :
  (∃ p', heap (run (CallOnStdout 1 (HostFn 5)
                    :: [MessageEvent (response 1 STDOUT "b");
                        MessageEvent (response 2 STDOUT "x");
                        MessageEvent (response 1 STDOUT "c")])
                   streamingWorld).1 !! 1 = Some (ImgSummary p')
         ∧ outputText
             (callsOf 1 (run (CallOnStdout 1 (HostFn 5)
                              :: [MessageEvent (response 1 STDOUT "b");
                                  MessageEvent (response 2 STDOUT "x");
                                  MessageEvent (response 1 STDOUT "c")])
                             streamingWorld).2)
           = ImgSummaryProcess.output p'
         ∧ Forall (outputOnlyTo (HostFn 5))
                  (callsOf 1 (run (CallOnStdout 1 (HostFn 5)
                                   :: [MessageEvent (response 1 STDOUT "b");
                                       MessageEvent (response 2 STDOUT "x");
                                       MessageEvent (response 1 STDOUT "c")])
                                  streamingWorld).2))
  ∧ (∃ p', heap (run (CallOnStderr 1 (HostFn 5)
                      :: [MessageEvent (response 1 STDOUT "b");
                          MessageEvent (response 2 STDOUT "x");
                          MessageEvent (response 1 STDOUT "c")])
                     streamingWorld).1 !! 1 = Some (ImgSummary p')
           ∧ errorText
               (callsOf 1 (run (CallOnStderr 1 (HostFn 5)
                                :: [MessageEvent (response 1 STDOUT "b");
                                    MessageEvent (response 2 STDOUT "x");
                                    MessageEvent (response 1 STDOUT "c")])
                               streamingWorld).2)
             = ImgSummaryProcess.error p'
           ∧ Forall (errorOnlyTo (HostFn 5))
                    (callsOf 1 (run (CallOnStderr 1 (HostFn 5)
                                     :: [MessageEvent (response 1 STDOUT "b");
                                         MessageEvent (response 2 STDOUT "x");
                                         MessageEvent (response 1 STDOUT "c")])
                                    streamingWorld).2)).
Proof.
  apply (image_summary_observer_sees_whole_buffer
           streamingWorld 1
           (ImgSummaryProcess.mk 1 None (Some (HostFn 1)) (Some (HostFn 2))
                                 None "" "a")).
  - apply streamingWorld_wf.
  - reflexivity.
  - repeat constructor.
Defined.

(** ** One exit observer at a time *)

Lemma Runpy_onExit_pending (fn : Callback) (p : RunpyProcess.t) :
  truthy_opt (RunpyProcess.result p) = false →
  RunpyProcess.killed p = false →
  RunpyProcess.onExit fn p = (RunpyProcess.set_onResult (Some fn) p, []).
Proof.
  intros Hr Hk. unfold RunpyProcess.onExit; simpl. by rewrite Hr, Hk.
Qed.

Lemma ImgSummary_onExit_pending (fn : Callback) (p : ImgSummaryProcess.t) :
  truthy_opt (ImgSummaryProcess.result p) = false →
  ImgSummaryProcess.onExit fn p
  = (ImgSummaryProcess.set_onResult (Some fn) p, []).
Proof. intros Hr. unfold ImgSummaryProcess.onExit; simpl. by rewrite Hr. Qed.

(** X9.  A later [onExit] replaces the earlier one: for a process that has
    no result yet and has not been killed, after [onExit(f1)] and then
    [onExit(f2)] (neither called at registration), the result response
    calls [f2] once, with the status of the class and the result text, and
    never [f1]. *)
Theorem latest_exit_observer_wins
        (w : World) (h : Handle) (o : Process) (i : nat) (f1 f2 : Callback)
        (m : PyodideWorkerResponse.t) :
  wf w →
  heap w !! h = Some o →
  process_id o = Some i →
  listening h w = true →
  truthy_opt (process_result o) = false →
  process_killed o = false →
  PyodideWorkerResponse.id m = i →
  PyodideWorkerResponse.type m = RESULT →
  ∃ code,
    exitCodeOf (classOf o) (PyodideWorkerResponse.msg m) = Some code
    ∧ exitCallsOf h (run [CallOnExit h f1; CallOnExit h f2] w).2 = []
    ∧ exitCallsOf h (run [CallOnExit h f1; CallOnExit h f2; MessageEvent m]
                         w).2
      = [ExitCall f2 code (PyodideWorkerResponse.msg m)].
Proof.
  intros Hw Hh Hi Hl Hres Hk Hid Hty.
  destruct (run_local h [CallOnExit h f1; CallOnExit h f2] o w Hw Hh)
    as (_ & _ & R3).
  destruct (run_local h [CallOnExit h f1; CallOnExit h f2; MessageEvent m]
                      o w Hw Hh) as (_ & _ & R3').
  unfold exitCallsOf. rewrite R3, R3', Hl. clear R3 R3'.
  unfold localRun, local. rewrite !bool_decide_eq_true_2 by done.
  destruct o as [p|p|]; simpl in *; [| |done]; simplify_eq.
  - rewrite (Runpy_onExit_pending f1 p) by done. simpl.
    rewrite (Runpy_onExit_pending
               f2 (RunpyProcess.set_onResult (Some f1) p)) by done.
    simpl. rewrite Runpy_eventListener_result by done. simpl.
    eexists; split_and!; [done|done|].
    unfold RunpyProcess.fireOnResult, RunpyProcess.onResultClosure. simpl.
    rewrite app_nil_r. apply exitCalls_flush.
  - rewrite (ImgSummary_onExit_pending f1 p) by done. simpl.
    rewrite (ImgSummary_onExit_pending
               f2 (ImgSummaryProcess.set_onResult (Some f1) p)) by done.
    simpl. rewrite ImgSummary_eventListener_result by done. simpl.
    eexists; split_and!; done.
Qed.

Lemma latest_exit_observer_wins_witness :
  ∃ code,
    exitCodeOf ImgSummaryClass "summary" = Some code
    ∧ exitCallsOf 1 (run [CallOnExit 1 (HostFn 1); CallOnExit 1 (HostFn 2)]
                         sessionWorld).2 = []
    ∧ exitCallsOf 1 (run [CallOnExit 1 (HostFn 1); CallOnExit 1 (HostFn 2);
                          MessageEvent (response 1 RESULT "summary")]
                         sessionWorld).2
      = [ExitCall (HostFn 2) code "summary"].
Proof.
  apply (latest_exit_observer_wins
           sessionWorld 1
           (ImgSummary (ImgSummaryProcess.mk 1 None None None None "" ""))
           1 (HostFn 1) (HostFn 2) (response 1 RESULT "summary"));
    solve [apply sessionWorld_wf | reflexivity].
Defined.

Lemma onExit_after_result_witness :
  exitCallsOf 1 (onExit 1 (HostFn 9)
                   (dispatchMessage (response 1 RESULT "summary")
                                    sessionWorld).1).2
  = [ExitCall (HostFn 9) (JsNum 0) "summary"].
Proof.
  apply (onExit_after_result
           (dispatchMessage (response 1 RESULT "summary") sessionWorld).1 1
           (ImgSummary (ImgSummaryProcess.mk 1 None None None
                                             (Some "summary") "" ""))
           "summary" (HostFn 9)); [reflexivity|reflexivity|discriminate].
Defined.

Lemma onExit_before_result_witness :
  exitCallsOf 0 (dispatchMessage (response 0 RESULT "out") sessionWorld).2
  = [ExitCall BootstrapFn (JsNum 0) "out"]
  ∧ process_result
      <$> heap (dispatchMessage (response 0 RESULT "out") sessionWorld).1
          !! 0
    = Some (Some "out").
Proof.
  apply (onExit_before_result
           sessionWorld 0
           (Runpy (RunpyProcess.mk 0 (Some BootstrapFn) None None None
                                   "" "" false))
           0 BootstrapFn (response 0 RESULT "out"));
    solve [apply sessionWorld_wf | reflexivity].
Defined.



(** ** Before the load message *)

Lemma closed_method (h : Handle) (w : World) (o : Process) :
  closed w → heap w !! h = Some o → o = Synth ∧ closed (store h Synth w).
Proof.
  intros (Hl & Hk & Hg & Hhp) Hh.
  pose proof (proj1 (Forall_lookup _ _) Hhp h o Hh) as Ho.
  split; [done|]. split_and!; try done. simpl. by apply Forall_insert.
Qed.

Lemma step_closed (a : Action) (w : World) :
  closed w →
  deliversLoaded a = false →
  closed (step a w).1 ∧ Forall (λ e, is_console_error e = true) (step a w).2.
Proof.
  intros Hc Ha. pose proof Hc as (Hl & Hk & Hg & Hhp).
  destruct a; simpl in *.
  - unfold dispatchMessage. rewrite Hk. simpl.
    unfold pyodideWorkerInitListener.
    destruct (PyodideWorkerResponse.type m); try done;
      simpl; (split; [done|by repeat constructor]).
  - unfold runProgram. rewrite Hl. simpl. split; [|done].
    split_and!; try done. simpl. apply Forall_app. by split; [|constructor].
  - split; [|done].
    split_and!; try done. simpl. apply Forall_app. by split; [|constructor].
  - unfold runImgSummary. rewrite Hl. simpl. split; [|done].
    split_and!; try done. simpl. apply Forall_app. by split; [|constructor].
  - unfold onStdout. destruct (heap w !! h) as [o|] eqn:Hh; [|done].
    destruct (closed_method h w o Hc Hh) as [-> Hc']. by simpl.
  - unfold onStderr. destruct (heap w !! h) as [o|] eqn:Hh; [|done].
    destruct (closed_method h w o Hc Hh) as [-> Hc']. by simpl.
  - unfold kill. destruct (heap w !! h) as [o|] eqn:Hh; [|done].
    destruct (closed_method h w o Hc Hh) as [-> Hc']. simpl.
    split; [|done]. destruct Hc' as (? & ? & ? & ?). by split_and!.
  - unfold onExit. destruct (heap w !! h) as [o|] eqn:Hh; [|done].
    destruct (closed_method h w o Hc Hh) as [-> Hc']. by simpl.
Qed.

(** X11.  Until a [LOADED] response arrives nothing leaves the module: in
    every history without one, starting when the module is loaded, the
    gate stays shut, only the init listener is registered, no request is
    posted, no id is issued, every process handed out is a placeholder,
    and the only effects are the console errors the init listener logs for
    each unexpected response (no program is saved, no callback called). *)
Theorem nothing_happens_before_loaded (program : string) (acts : list Action) :
  Forall (λ a, deliversLoaded a = false) acts →
  closed (run acts (initialWorld program)).1
  ∧ Forall (λ e, is_console_error e = true) (run acts (initialWorld program)).2.
Proof.
  assert (closed (initialWorld program)) as Hc by (by split_and!).
  revert Hc. generalize (initialWorld program) as w.
  intros w Hc Hacts. revert w Hc.
  induction Hacts as [|a acts Ha Hacts IH]; intros w Hc; [done|]. simpl.
  destruct (step_closed a w Hc Ha) as [Hc1 He1].
  destruct (step a w) as [w1 es1]; simpl in *.
  destruct (IH w1 Hc1) as [Hc2 He2].
  destruct (run acts w1) as [w2 es2]; simpl in *.
  split; [done|by apply Forall_app].
Qed.

Lemma nothing_happens_before_loaded_witness :
  closed (run [CallRunProgram "print(1)";
               MessageEvent (response 0 STDOUT "early");
               CallOnExit 0 (HostFn 1);
               CallRunImgSummary "img = load()" 1 "img";
               CallKill 1]
              (initialWorld "print(1)")).1
  ∧ Forall (λ e, is_console_error e = true)
           (run [CallRunProgram "print(1)";
                 MessageEvent (response 0 STDOUT "early");
                 CallOnExit 0 (HostFn 1);
                 CallRunImgSummary "img = load()" 1 "img";
                 CallKill 1]
                (initialWorld "print(1)")).2.
Proof.
  apply (nothing_happens_before_loaded "print(1)"). repeat constructor.
Defined.

(** ** Saving and posting *)

Lemma savedPrograms_Invoked (h : Handle) (cs : list Call) :
  savedPrograms (Invoked h <$> cs) = [].
Proof. induction cs as [|c cs IH]; [done|]. by simpl. Qed.

Lemma savedPrograms_app (es1 es2 : list Effect) :
  savedPrograms (es1 ++ es2) = savedPrograms es1 ++ savedPrograms es2.
Proof. apply omap_app. Qed.

Lemma runContents_app (rs1 rs2 : list WorkerRequest) :
  runContents (rs1 ++ rs2) = runContents rs1 ++ runContents rs2.
Proof. apply omap_app. Qed.

Lemma outbox_addEventListener (l : Listener) (k : Worker.t) :
  Worker.outbox (Worker.addEventListener l k) = Worker.outbox k.
Proof. unfold Worker.addEventListener. by case_bool_decide. Qed.

Lemma posts_refl (w : World) : posts w w [].
Proof. exists []. by rewrite app_nil_r. Qed.

Lemma posts_trans (w w1 w2 : World) (es1 es2 : list Effect) :
  posts w w1 es1 → posts w1 w2 es2 → posts w w2 (es1 ++ es2).
Proof.
  intros (n1 & O1 & S1) (n2 & O2 & S2). exists (n1 ++ n2).
  rewrite O2, O1, app_assoc, savedPrograms_app, runContents_app, S1, S2.
  done.
Qed.

Lemma posts_store (h : Handle) (o : Process) (cs : list Call) (w w' : World) :
  Worker.outbox (pyodideWorker w') = Worker.outbox (pyodideWorker w) →
  posts w (store h o w') (Invoked h <$> cs).
Proof.
  intros Ho. exists []. rewrite app_nil_r, savedPrograms_Invoked. by simpl.
Qed.

Lemma runProgram_posts (program : string) (w : World) :
  posts w (runProgram program w).1.2 (runProgram program w).2.
Proof.
  unfold runProgram. destruct (pyodideLoaded w); simpl.
  - eexists [_]. simpl. split; [by rewrite outbox_addEventListener|done].
  - exists []. by rewrite app_nil_r.
Qed.

Lemma runImgSummary_posts (program : string) (line : Z) (varname : string)
      (w : World) :
  posts w (runImgSummary program line varname w).1.2
        (runImgSummary program line varname w).2.
Proof.
  unfold runImgSummary. destruct (pyodideLoaded w); simpl.
  - eexists [_]. simpl. split; [by rewrite outbox_addEventListener|done].
  - exists []. by rewrite app_nil_r.
Qed.

Lemma onExit_posts (h : Handle) (fn : Callback) (w : World) :
  posts w (onExit h fn w).1 (onExit h fn w).2.
Proof.
  unfold onExit. destruct (heap w !! h) as [o|]; [|apply posts_refl].
  destruct (Process_onExit fn o). by apply posts_store.
Qed.

Lemma invokeListener_posts (l : Listener) (m : PyodideWorkerResponse.t)
      (w : World) :
  posts w (invokeListener l m w).1 (invokeListener l m w).2.
Proof.
  destruct l as [|h]; simpl.
  - unfold pyodideWorkerInitListener.
    destruct (PyodideWorkerResponse.type m);
      try (exists []; by rewrite app_nil_r).
    set (w2 := set_pyodideWorker _ _).
    assert (posts w w2 []) as H2 by (exists []; by rewrite app_nil_r).
    pose proof (runProgram_posts (editorProgram w2) w2) as H3.
    destruct (runProgram (editorProgram w2) w2) as [[h' w3] es]; simpl in *.
    pose proof (onExit_posts h' BootstrapFn w3) as H4.
    destruct (onExit h' BootstrapFn w3) as [w4 es']; simpl in *.
    exact (posts_trans _ _ _ _ _ (posts_trans _ _ _ _ _ H2 H3) H4).
  - destruct (heap w !! h) as [o|]; [|apply posts_refl].
    destruct (Process_eventListener o m). by apply posts_store.
Qed.

Lemma dispatchTo_posts (ls : list Listener) (m : PyodideWorkerResponse.t)
      (w : World) :
  posts w (dispatchTo ls m w).1 (dispatchTo ls m w).2.
Proof.
  revert w. induction ls as [|l ls IH]; intros w; [apply posts_refl|].
  simpl. pose proof (invokeListener_posts l m w) as H1.
  destruct (invokeListener l m w) as [w1 es1]; simpl in *.
  specialize (IH w1). destruct (dispatchTo ls m w1); simpl in *.
  by eapply posts_trans.
Qed.

Lemma step_posts (a : Action) (w : World) :
  posts w (step a w).1 (step a w).2.
Proof.
  destruct a; simpl.
  - apply dispatchTo_posts.
  - pose proof (runProgram_posts program w).
    by destruct (runProgram program w) as [[? ?] ?].
  - exists []. by rewrite app_nil_r.
  - pose proof (runImgSummary_posts program line varname w).
    by destruct (runImgSummary program line varname w) as [[? ?] ?].
  - unfold onStdout. destruct (heap w !! h) as [o|]; [|apply posts_refl].
    destruct (Process_onStdout fn o). by apply posts_store.
  - unfold onStderr. destruct (heap w !! h) as [o|]; [|apply posts_refl].
    destruct (Process_onStderr fn o). by apply posts_store.
  - unfold kill. destruct (heap w !! h) as [o|]; [|apply posts_refl].
    destruct o as [p|p|]; simpl;
      solve [by apply posts_store | exists []; by rewrite app_nil_r].
  - apply onExit_posts.
Qed.

Lemma run_posts (acts : list Action) (w : World) :
  posts w (run acts w).1 (run acts w).2.
Proof.
  revert w. induction acts as [|a acts IH]; intros w; [apply posts_refl|].
  simpl. pose proof (step_posts a w) as H1.
  destruct (step a w) as [w1 es1]; simpl in *.
  specialize (IH w1). destruct (run acts w1); simpl in *.
  by eapply posts_trans.
Qed.

(** X12.  In every session the programs sent to [/save], in order, are
    exactly the programs of the run requests posted to the worker:
    [runProgram] saves each program it runs, the bootstrap run included,
    and nothing else is saved (image summaries, placeholders and the
    process methods save nothing). *)
Theorem saved_programs_are_the_programs_run
        (program : string) (acts : list Action) :
  savedPrograms (run acts (initialWorld program)).2
  = runContents
      (Worker.outbox (pyodideWorker (run acts (initialWorld program)).1)).
Proof.
  destruct (run_posts acts (initialWorld program)) as (new & Ho & Hs).
  by rewrite Hs, Ho.
Qed.
